(** * MT25Q QSPI flash self-test (Core/Src/qspi.c): shallow embedding

    The driver talks to the flash through the vendor HAL.  The HAL, the
    tick counter and the device behind them are an environment: a type [D]
    of environment states with one transition function per HAL entry point.
    The C functions become state passing over a [World] (environment state
    plus the chronological log of everything the driver did), in a small
    state-and-fuel monad: the two polling loops are [do ... while] loops
    whose exit depends on the environment, so they take a fuel argument and
    return [None] when it runs out. *)

From Stdlib Require Import ZArith List Bool Lia.
Import ListNotations.
Local Open Scope Z_scope.

(** ** HAL types used by qspi.c *)

Inductive HAL_StatusTypeDef : Type :=
| HAL_OK
| HAL_ERROR
| HAL_BUSY
| HAL_TIMEOUT.

Definition HAL_Status_eqb (a b : HAL_StatusTypeDef) : bool :=
  match a, b with
  | HAL_OK, HAL_OK | HAL_ERROR, HAL_ERROR
  | HAL_BUSY, HAL_BUSY | HAL_TIMEOUT, HAL_TIMEOUT => true
  | _, _ => false
  end.

(** C's [x != HAL_OK]. *)
Definition not_ok (r : HAL_StatusTypeDef) : bool := negb (HAL_Status_eqb r HAL_OK).

(** The mode fields of [QSPI_CommandTypeDef].  In every enumeration the
    first constructor is the value a [= {0}] initialiser leaves behind. *)
Inductive InstructionMode_t := QSPI_INSTRUCTION_NONE | QSPI_INSTRUCTION_1_LINE.
Inductive AddressMode_t := QSPI_ADDRESS_NONE | QSPI_ADDRESS_1_LINE.
Inductive AddressSize_t := QSPI_ADDRESS_8_BITS | QSPI_ADDRESS_32_BITS.
Inductive DataMode_t := QSPI_DATA_NONE | QSPI_DATA_1_LINE.
Inductive SIOOMode_t := QSPI_SIOO_INST_EVERY_CMD | QSPI_SIOO_INST_ONLY_FIRST_CMD.
Inductive AlternateByteMode_t := QSPI_ALTERNATE_BYTES_NONE | QSPI_ALTERNATE_BYTES_1_LINE.

(** The fields of the command descriptor that qspi.c assigns. *)
Record QSPI_CommandTypeDef : Type := mkCmd {
  Instruction : Z;
  Address : Z;
  AddressSize : AddressSize_t;
  DummyCycles : Z;
  InstructionMode : InstructionMode_t;
  AddressMode : AddressMode_t;
  AlternateByteMode : AlternateByteMode_t;
  DataMode : DataMode_t;
  NbData : Z;
  SIOOMode : SIOOMode_t
}.

(** [QSPI_CommandTypeDef cmd = {0};] *)
Definition cmd_zero : QSPI_CommandTypeDef :=
  mkCmd 0 0 QSPI_ADDRESS_8_BITS 0 QSPI_INSTRUCTION_NONE QSPI_ADDRESS_NONE
        QSPI_ALTERNATE_BYTES_NONE QSPI_DATA_NONE 0 QSPI_SIOO_INST_EVERY_CMD.

(** Field assignments [cmd.F = v;]. *)
Definition set_Instruction (c : QSPI_CommandTypeDef) (v : Z) :=
  mkCmd v (Address c) (AddressSize c) (DummyCycles c) (InstructionMode c)
        (AddressMode c) (AlternateByteMode c) (DataMode c) (NbData c) (SIOOMode c).
Definition set_Address (c : QSPI_CommandTypeDef) (v : Z) :=
  mkCmd (Instruction c) v (AddressSize c) (DummyCycles c) (InstructionMode c)
        (AddressMode c) (AlternateByteMode c) (DataMode c) (NbData c) (SIOOMode c).
Definition set_AddressSize (c : QSPI_CommandTypeDef) (v : AddressSize_t) :=
  mkCmd (Instruction c) (Address c) v (DummyCycles c) (InstructionMode c)
        (AddressMode c) (AlternateByteMode c) (DataMode c) (NbData c) (SIOOMode c).
Definition set_DummyCycles (c : QSPI_CommandTypeDef) (v : Z) :=
  mkCmd (Instruction c) (Address c) (AddressSize c) v (InstructionMode c)
        (AddressMode c) (AlternateByteMode c) (DataMode c) (NbData c) (SIOOMode c).
Definition set_InstructionMode (c : QSPI_CommandTypeDef) (v : InstructionMode_t) :=
  mkCmd (Instruction c) (Address c) (AddressSize c) (DummyCycles c) v
        (AddressMode c) (AlternateByteMode c) (DataMode c) (NbData c) (SIOOMode c).
Definition set_AddressMode (c : QSPI_CommandTypeDef) (v : AddressMode_t) :=
  mkCmd (Instruction c) (Address c) (AddressSize c) (DummyCycles c) (InstructionMode c)
        v (AlternateByteMode c) (DataMode c) (NbData c) (SIOOMode c).
Definition set_AlternateByteMode (c : QSPI_CommandTypeDef) (v : AlternateByteMode_t) :=
  mkCmd (Instruction c) (Address c) (AddressSize c) (DummyCycles c) (InstructionMode c)
        (AddressMode c) v (DataMode c) (NbData c) (SIOOMode c).
Definition set_DataMode (c : QSPI_CommandTypeDef) (v : DataMode_t) :=
  mkCmd (Instruction c) (Address c) (AddressSize c) (DummyCycles c) (InstructionMode c)
        (AddressMode c) (AlternateByteMode c) v (NbData c) (SIOOMode c).
Definition set_NbData (c : QSPI_CommandTypeDef) (v : Z) :=
  mkCmd (Instruction c) (Address c) (AddressSize c) (DummyCycles c) (InstructionMode c)
        (AddressMode c) (AlternateByteMode c) (DataMode c) v (SIOOMode c).
Definition set_SIOOMode (c : QSPI_CommandTypeDef) (v : SIOOMode_t) :=
  mkCmd (Instruction c) (Address c) (AddressSize c) (DummyCycles c) (InstructionMode c)
        (AddressMode c) (AlternateByteMode c) (DataMode c) (NbData c) v.

(** Unsigned C integers: a [uint8_t] and a [uint32_t] are a [Z] reduced
    modulo their width where the C code stores or subtracts. *)
Definition uint8 (z : Z) : Z := z mod 256.
Definition uint32 (z : Z) : Z := z mod 4294967296.

(** ** qspi.h

    The header is not part of the sources.  The opcodes and the HAL timeout
    it defines are parameters of the development; the four constants the
    specification fixes are modelled from it. *)

Class qspi_h : Type := {
  QSPI_TIMEOUT : Z;
  CMD_RESET_ENABLE : Z;
  CMD_RESET_MEMORY : Z;
  CMD_READ_ID : Z;
  CMD_READ_STATUS_REG : Z;
  CMD_WRITE_ENABLE : Z;
  CMD_ENABLE_4BYTE_ADDR : Z;
  CMD_SUBSECTOR_ERASE_4K_4B : Z;
  CMD_PAGE_PROGRAM_4B : Z;
  CMD_READ_DATA_4B : Z
}.

(** Modelled from the spec: the macro [TEST_ADDR] of qspi.h is missing; the
    end-to-end scenario erases and programs at address 0x00001000. *)
Definition TEST_ADDR : Z := 0x1000.

(** Modelled from the spec: the macro [TEST_PAGE_SIZE] of qspi.h is missing;
    the page size is fixed at 256 bytes. *)
Definition TEST_PAGE_SIZE : Z := 256.

(** Modelled from the spec: the macro [SR_WIP_MASK] of qspi.h is missing;
    bit 0 of the status register is Write-In-Progress. *)
Definition SR_WIP_MASK : Z := 1.

(** Modelled from the spec: the macro [SR_WEL_MASK] of qspi.h is missing;
    bit 1 of the status register is Write-Enable-Latch. *)
Definition SR_WEL_MASK : Z := 2.

(** ** The environment: HAL entry points as transitions on [D] *)

Class HAL (D : Type) : Type := {
  (** [HAL_QSPI_Command(&hqspi, &cmd, timeout)] *)
  HAL_QSPI_Command : QSPI_CommandTypeDef -> Z -> D -> HAL_StatusTypeDef * D;
  (** [HAL_QSPI_Receive(&hqspi, pData, timeout)]: status and the bytes the
      peripheral delivered. *)
  HAL_QSPI_Receive : Z -> D -> (HAL_StatusTypeDef * list Z) * D;
  (** [HAL_QSPI_Transmit(&hqspi, pData, timeout)] *)
  HAL_QSPI_Transmit : list Z -> Z -> D -> HAL_StatusTypeDef * D;
  (** [HAL_GetTick()] *)
  HAL_GetTick : D -> Z * D;
  (** [HAL_Delay(ms)] *)
  HAL_Delay : Z -> D -> D
}.

(** What the self-test prints, one constructor per [printf] call site with
    the arguments of its format string. *)
Inductive Report : Type :=
| MsgSelfTestStart
| MsgResetFailed
| MsgReadIdFailed
| MsgJedecId (id0 id1 id2 : Z)
| MsgEnter4BFailed
| MsgBusyAfter4B
| MsgErasing (addr : Z)
| MsgEraseFailed
| MsgEraseTimeout
| MsgReadAfterEraseFailed
| MsgEraseVerifyFailed (offset observed : Z)
| MsgEraseOK
| MsgProgramming (size addr : Z)
| MsgProgramFailed
| MsgProgramTimeout
| MsgReadAfterProgramFailed
| MsgVerifyMismatch (offset wrote read : Z)
| MsgProgramVerifyOK.

(** Everything the driver does to the outside, in the order it does it. *)
Inductive Event : Type :=
| EvCommand (cmd : QSPI_CommandTypeDef) (r : HAL_StatusTypeDef)
| EvReceive (buf : list Z) (r : HAL_StatusTypeDef)
| EvTransmit (data : list Z) (r : HAL_StatusTypeDef)
| EvGetTick (tick : Z)
| EvDelay (ms : Z)
| EvPrintf (msg : Report).

Record World (D : Type) : Type := mkWorld {
  dev : D;
  log : list Event
}.
Arguments mkWorld {D} _ _.
Arguments dev {D} _.
Arguments log {D} _.

(** A receive of [data] into a C array holding [old]: the bytes delivered
    overwrite the front of the array (each stored as a [uint8_t]), never
    past its end; what is not overwritten keeps its value. *)
Definition store_rx (old data : list Z) : list Z :=
  map uint8 (firstn (length old) data) ++ skipn (length data) old.

(** [buf[i]] *)
Definition byte_at (buf : list Z) (i : Z) : Z := nth (Z.to_nat i) buf 0.

Section Driver.

Context {D : Type} {hal : HAL D} {hdr : qspi_h}.

(** *** The monad: state passing with fuel exhaustion *)

Definition M (A : Type) : Type := World D -> option (A * World D).

Definition ret {A : Type} (a : A) : M A := fun w => Some (a, w).

Definition bind {A B : Type} (m : M A) (k : A -> M B) : M B :=
  fun w => match m w with
           | Some (a, w') => k a w'
           | None => None
           end.

Definition out_of_fuel {A : Type} : M A := fun _ => None.

Notation "x <- m ;; k" := (bind m (fun x => k))
  (at level 61, m at next level, right associativity).
Notation "m ;;; k" := (bind m (fun _ => k))
  (at level 61, right associativity).

Definition emit (e : Event) (w : World D) : World D :=
  mkWorld (dev w) (log w ++ [e]).

(** *** HAL calls, logged *)

Definition call_Command (cmd : QSPI_CommandTypeDef) (timeout : Z) : M HAL_StatusTypeDef :=
  fun w => let (r, d) := HAL_QSPI_Command cmd timeout (dev w) in
           Some (r, mkWorld d (log w ++ [EvCommand cmd r])).

Definition call_Receive (buf : list Z) (timeout : Z) : M (HAL_StatusTypeDef * list Z) :=
  fun w => let '(r, data, d) := HAL_QSPI_Receive timeout (dev w) in
           let buf' := store_rx buf data in
           Some ((r, buf'), mkWorld d (log w ++ [EvReceive buf' r])).

Definition call_Transmit (data : list Z) (timeout : Z) : M HAL_StatusTypeDef :=
  fun w => let (r, d) := HAL_QSPI_Transmit data timeout (dev w) in
           Some (r, mkWorld d (log w ++ [EvTransmit data r])).

Definition call_GetTick : M Z :=
  fun w => let (t, d) := HAL_GetTick (dev w) in
           Some (uint32 t, mkWorld d (log w ++ [EvGetTick (uint32 t)])).

Definition call_Delay (ms : Z) : M unit :=
  fun w => Some (tt, mkWorld (HAL_Delay ms (dev w)) (log w ++ [EvDelay ms])).

Definition printf (msg : Report) : M unit :=
  fun w => Some (tt, emit (EvPrintf msg) w).

(** *** Low-level helpers *)

Definition SendSimple_cmd (instruction : Z) : QSPI_CommandTypeDef :=
  let cmd := cmd_zero in
  let cmd := set_InstructionMode cmd QSPI_INSTRUCTION_1_LINE in
  let cmd := set_Instruction cmd instruction in
  let cmd := set_AddressMode cmd QSPI_ADDRESS_NONE in
  let cmd := set_DataMode cmd QSPI_DATA_NONE in
  let cmd := set_DummyCycles cmd 0 in
  let cmd := set_SIOOMode cmd QSPI_SIOO_INST_EVERY_CMD in
  let cmd := set_AlternateByteMode cmd QSPI_ALTERNATE_BYTES_NONE in
  cmd.

Definition QSPI_SendSimple (instruction : Z) : M HAL_StatusTypeDef :=
  call_Command (SendSimple_cmd instruction) QSPI_TIMEOUT.

Definition ReadStatus_cmd : QSPI_CommandTypeDef :=
  let cmd := cmd_zero in
  let cmd := set_InstructionMode cmd QSPI_INSTRUCTION_1_LINE in
  let cmd := set_Instruction cmd CMD_READ_STATUS_REG in
  let cmd := set_AddressMode cmd QSPI_ADDRESS_NONE in
  let cmd := set_DataMode cmd QSPI_DATA_1_LINE in
  let cmd := set_NbData cmd 1 in
  let cmd := set_DummyCycles cmd 0 in
  let cmd := set_SIOOMode cmd QSPI_SIOO_INST_EVERY_CMD in
  cmd.

(** [QSPI_ReadStatus(&sr)]: takes the current value of [sr], returns the
    status and the value of [sr] afterwards. *)
Definition QSPI_ReadStatus (sr : Z) : M (HAL_StatusTypeDef * Z) :=
  r <- call_Command ReadStatus_cmd QSPI_TIMEOUT ;;
  if not_ok r then ret (HAL_ERROR, sr)
  else
    rb <- call_Receive [sr] QSPI_TIMEOUT ;;
    ret (fst rb, byte_at (snd rb) 0).

(** The body of the [do ... while] of [QSPI_WaitWhileBusy]; one unit of
    fuel per iteration. *)
Fixpoint WaitWhileBusy_loop (fuel : nat) (timeout_ms start sr : Z) : M HAL_StatusTypeDef :=
  match fuel with
  | O => out_of_fuel
  | S fuel' =>
      rs <- QSPI_ReadStatus sr ;;
      let sr := snd rs in
      if not_ok (fst rs) then ret HAL_ERROR
      else if Z.land sr SR_WIP_MASK =? 0 then ret HAL_OK
      else
        now <- call_GetTick ;;
        if uint32 (now - start) <? timeout_ms
        then WaitWhileBusy_loop fuel' timeout_ms start sr
        else ret HAL_TIMEOUT
  end.

Definition QSPI_WaitWhileBusy (fuel : nat) (timeout_ms : Z) : M HAL_StatusTypeDef :=
  start <- call_GetTick ;;
  let sr := 0 in
  WaitWhileBusy_loop fuel timeout_ms start sr.

(** The body of the [do ... while] of [QSPI_WriteEnable]. *)
Fixpoint WriteEnable_loop (fuel : nat) (start sr : Z) : M HAL_StatusTypeDef :=
  match fuel with
  | O => out_of_fuel
  | S fuel' =>
      rs <- QSPI_ReadStatus sr ;;
      let sr := snd rs in
      if not_ok (fst rs) then ret HAL_ERROR
      else if negb (Z.land sr SR_WEL_MASK =? 0) then ret HAL_OK
      else
        now <- call_GetTick ;;
        if uint32 (now - start) <? QSPI_TIMEOUT
        then WriteEnable_loop fuel' start sr
        else ret HAL_TIMEOUT
  end.

Definition QSPI_WriteEnable (fuel : nat) : M HAL_StatusTypeDef :=
  r <- QSPI_SendSimple CMD_WRITE_ENABLE ;;
  if not_ok r then ret HAL_ERROR
  else
    let sr := 0 in
    start <- call_GetTick ;;
    WriteEnable_loop fuel start sr.

Definition ReadID_cmd : QSPI_CommandTypeDef :=
  let cmd := cmd_zero in
  let cmd := set_InstructionMode cmd QSPI_INSTRUCTION_1_LINE in
  let cmd := set_Instruction cmd CMD_READ_ID in
  let cmd := set_AddressMode cmd QSPI_ADDRESS_NONE in
  let cmd := set_DataMode cmd QSPI_DATA_1_LINE in
  let cmd := set_NbData cmd 3 in
  let cmd := set_DummyCycles cmd 0 in
  let cmd := set_SIOOMode cmd QSPI_SIOO_INST_EVERY_CMD in
  cmd.

Definition QSPI_ReadID (id : list Z) : M (HAL_StatusTypeDef * list Z) :=
  r <- call_Command ReadID_cmd QSPI_TIMEOUT ;;
  if not_ok r then ret (HAL_ERROR, id)
  else call_Receive id QSPI_TIMEOUT.

Definition QSPI_Enable4ByteAddressing (fuel : nat) : M HAL_StatusTypeDef :=
  r <- QSPI_WriteEnable fuel ;;
  if not_ok r then ret HAL_ERROR
  else
    r <- QSPI_SendSimple CMD_ENABLE_4BYTE_ADDR ;;
    if not_ok r then ret HAL_ERROR
    else ret HAL_OK.

Definition Erase4K_cmd (addr : Z) : QSPI_CommandTypeDef :=
  let cmd := cmd_zero in
  let cmd := set_InstructionMode cmd QSPI_INSTRUCTION_1_LINE in
  let cmd := set_Instruction cmd CMD_SUBSECTOR_ERASE_4K_4B in
  let cmd := set_AddressMode cmd QSPI_ADDRESS_1_LINE in
  let cmd := set_AddressSize cmd QSPI_ADDRESS_32_BITS in
  let cmd := set_Address cmd addr in
  let cmd := set_DataMode cmd QSPI_DATA_NONE in
  let cmd := set_DummyCycles cmd 0 in
  let cmd := set_SIOOMode cmd QSPI_SIOO_INST_EVERY_CMD in
  cmd.

Definition QSPI_Erase4K_4B (fuel : nat) (addr : Z) : M HAL_StatusTypeDef :=
  r <- QSPI_WriteEnable fuel ;;
  if not_ok r then ret HAL_ERROR
  else call_Command (Erase4K_cmd addr) QSPI_TIMEOUT.

Definition PageProgram_cmd (addr size : Z) : QSPI_CommandTypeDef :=
  let cmd := cmd_zero in
  let cmd := set_InstructionMode cmd QSPI_INSTRUCTION_1_LINE in
  let cmd := set_Instruction cmd CMD_PAGE_PROGRAM_4B in
  let cmd := set_AddressMode cmd QSPI_ADDRESS_1_LINE in
  let cmd := set_AddressSize cmd QSPI_ADDRESS_32_BITS in
  let cmd := set_Address cmd addr in
  let cmd := set_DataMode cmd QSPI_DATA_1_LINE in
  let cmd := set_NbData cmd size in
  let cmd := set_DummyCycles cmd 0 in
  let cmd := set_SIOOMode cmd QSPI_SIOO_INST_EVERY_CMD in
  cmd.

(** [data] is the array behind the pointer; the transmit sends its first
    [size] bytes. *)
Definition QSPI_PageProgram_4B (fuel : nat) (addr : Z) (data : list Z) (size : Z)
  : M HAL_StatusTypeDef :=
  if (size =? 0) || (TEST_PAGE_SIZE <? size) then ret HAL_ERROR
  else
    r <- QSPI_WriteEnable fuel ;;
    if not_ok r then ret HAL_ERROR
    else
      r <- call_Command (PageProgram_cmd addr size) QSPI_TIMEOUT ;;
      if not_ok r then ret HAL_ERROR
      else call_Transmit (firstn (Z.to_nat size) data) QSPI_TIMEOUT.

Definition Read_4B_cmd (addr size : Z) : QSPI_CommandTypeDef :=
  let cmd := cmd_zero in
  let cmd := set_InstructionMode cmd QSPI_INSTRUCTION_1_LINE in
  let cmd := set_Instruction cmd CMD_READ_DATA_4B in
  let cmd := set_AddressMode cmd QSPI_ADDRESS_1_LINE in
  let cmd := set_AddressSize cmd QSPI_ADDRESS_32_BITS in
  let cmd := set_Address cmd addr in
  let cmd := set_DataMode cmd QSPI_DATA_1_LINE in
  let cmd := set_NbData cmd size in
  let cmd := set_DummyCycles cmd 0 in
  let cmd := set_SIOOMode cmd QSPI_SIOO_INST_EVERY_CMD in
  cmd.

Definition QSPI_Read_4B (addr : Z) (data : list Z) (size : Z)
  : M (HAL_StatusTypeDef * list Z) :=
  r <- call_Command (Read_4B_cmd addr size) QSPI_TIMEOUT ;;
  if not_ok r then ret (HAL_ERROR, data)
  else call_Receive data QSPI_TIMEOUT.

(** *** The self-test *)

(** A local array that C leaves uninitialised ([verify_buf], [in]); every
    successful receive overwrites all of it before it is read.  The model
    starts it at zero. *)
Definition local_array (n : Z) : list Z := repeat 0 (Z.to_nat n).

(** [for (i = 0; i < sizeof(verify_buf); ++i) if (verify_buf[i] != 0xFF) ...]:
    the offset and value of the first byte that is not 0xFF, scanning [n]
    bytes from [i]. *)
Fixpoint erase_verify_scan (n : nat) (i : Z) (verify_buf : list Z) : option (Z * Z) :=
  match n with
  | O => None
  | S n' =>
      if negb (byte_at verify_buf i =? 0xFF)
      then Some (i, byte_at verify_buf i)
      else erase_verify_scan n' (i + 1) verify_buf
  end.

(** [for (i = 0; i < TEST_PAGE_SIZE; ++i) out[i] = (uint8_t)(i ^ 0xA5);] *)
Fixpoint fill_pattern (n : nat) (i : Z) : list Z :=
  match n with
  | O => []
  | S n' => uint8 (Z.lxor i 0xA5) :: fill_pattern n' (i + 1)
  end.

(** [memcmp(a, b, n)]: 0 when the first [n] bytes agree, else the
    difference of the first pair that differs. *)
Fixpoint memcmp_from (n : nat) (i : Z) (a b : list Z) : Z :=
  match n with
  | O => 0
  | S n' =>
      if byte_at a i =? byte_at b i
      then memcmp_from n' (i + 1) a b
      else byte_at a i - byte_at b i
  end.

Definition memcmp (a b : list Z) (n : Z) : Z := memcmp_from (Z.to_nat n) 0 a b.

(** The mismatch loop of step 5: the first [i] with [out[i] != in[i]]. *)
Fixpoint first_mismatch (n : nat) (i : Z) (out inb : list Z) : option (Z * Z * Z) :=
  match n with
  | O => None
  | S n' =>
      if negb (byte_at out i =? byte_at inb i)
      then Some (i, byte_at out i, byte_at inb i)
      else first_mismatch n' (i + 1) out inb
  end.

Definition MT25Q_RunSelfTest (fuel : nat) : M unit :=
  printf MsgSelfTestStart ;;;
  (* 0) reset *)
  r <- QSPI_SendSimple CMD_RESET_ENABLE ;;
  reset_failed <- (if not_ok r then ret true
                   else r <- QSPI_SendSimple CMD_RESET_MEMORY ;; ret (not_ok r)) ;;
  if reset_failed : bool then printf MsgResetFailed
  else
  call_Delay 1 ;;;
  (* 1) JEDEC ID *)
  let id := [0; 0; 0] in
  rid <- QSPI_ReadID id ;;
  let id := snd rid in
  if not_ok (fst rid) then printf MsgReadIdFailed
  else
  printf (MsgJedecId (byte_at id 0) (byte_at id 1) (byte_at id 2)) ;;;
  (* 2) 4-byte address mode *)
  r <- QSPI_Enable4ByteAddressing fuel ;;
  if not_ok r then printf MsgEnter4BFailed
  else
  r <- QSPI_WaitWhileBusy fuel 100 ;;
  if not_ok r then printf MsgBusyAfter4B
  else
  (* 3) erase *)
  printf (MsgErasing TEST_ADDR) ;;;
  r <- QSPI_Erase4K_4B fuel TEST_ADDR ;;
  if not_ok r then printf MsgEraseFailed
  else
  r <- QSPI_WaitWhileBusy fuel 5000 ;;
  if not_ok r then printf MsgEraseTimeout
  else
  let verify_buf := local_array TEST_PAGE_SIZE in
  let sizeof_verify_buf := TEST_PAGE_SIZE in
  rb <- QSPI_Read_4B TEST_ADDR verify_buf sizeof_verify_buf ;;
  let verify_buf := snd rb in
  if not_ok (fst rb) then printf MsgReadAfterEraseFailed
  else
  match erase_verify_scan (Z.to_nat sizeof_verify_buf) 0 verify_buf with
  | Some (i, b) => printf (MsgEraseVerifyFailed i b)
  | None =>
  printf MsgEraseOK ;;;
  (* 4) program *)
  let out := fill_pattern (Z.to_nat TEST_PAGE_SIZE) 0 in
  printf (MsgProgramming TEST_PAGE_SIZE TEST_ADDR) ;;;
  r <- QSPI_PageProgram_4B fuel TEST_ADDR out TEST_PAGE_SIZE ;;
  if not_ok r then printf MsgProgramFailed
  else
  r <- QSPI_WaitWhileBusy fuel 100 ;;
  if not_ok r then printf MsgProgramTimeout
  else
  (* 5) read back and compare *)
  let inb := local_array TEST_PAGE_SIZE in
  rb <- QSPI_Read_4B TEST_ADDR inb TEST_PAGE_SIZE ;;
  let inb := snd rb in
  if not_ok (fst rb) then printf MsgReadAfterProgramFailed
  else
  if negb (memcmp out inb TEST_PAGE_SIZE =? 0) then
    match first_mismatch (Z.to_nat TEST_PAGE_SIZE) 0 out inb with
    | Some (i, wrote, read) => printf (MsgVerifyMismatch i wrote read)
    | None => ret tt
    end
  else
  printf MsgProgramVerifyOK
  end.

End Driver.

(** ** Simulated devices

    Two environments to run the driver against: a status-register trace
    with explicit timing, for the polling loops, and a small functional
    model of the flash array, for the self-test end to end. *)

(** *** A status-register trace over time

    Time is counted in clock units, [td_period] of them to one HAL tick.
    A command phase lasts [td_cmd_latency]; a data phase samples the status
    register when it starts and lasts [td_rx_latency].  [td_sr] is the
    value of the status register at each instant. *)
Record TraceDev : Type := mkTraceDev {
  td_clock : Z;
  td_period : Z;
  td_cmd_latency : Z;
  td_rx_latency : Z;
  td_sr : Z -> Z
}.

Definition td_advance (n : Z) (d : TraceDev) : TraceDev :=
  mkTraceDev (td_clock d + n) (td_period d) (td_cmd_latency d) (td_rx_latency d) (td_sr d).

#[export] Instance TraceDev_HAL : HAL TraceDev := {
  HAL_QSPI_Command _ _ d := (HAL_OK, td_advance (td_cmd_latency d) d);
  HAL_QSPI_Receive _ d :=
    ((HAL_OK, [td_sr d (td_clock d)]), td_advance (td_rx_latency d) d);
  HAL_QSPI_Transmit _ _ d := (HAL_OK, d);
  HAL_GetTick d := (td_clock d / td_period d, d);
  HAL_Delay ms d := td_advance (ms * td_period d) d
}.

(** Duration of one status poll (command phase plus data phase). *)
Definition td_poll_latency (d : TraceDev) : Z := td_cmd_latency d + td_rx_latency d.


(** *** A functional flash

    The opcodes of the Micron MT25Q data sheet and a 100 ms HAL timeout
    instantiate the header for the simulated flash. *)
Definition MT25Q_header : qspi_h := {|
  QSPI_TIMEOUT := 100;
  CMD_RESET_ENABLE := 0x66;
  CMD_RESET_MEMORY := 0x99;
  CMD_READ_ID := 0x9E;
  CMD_READ_STATUS_REG := 0x05;
  CMD_WRITE_ENABLE := 0x06;
  CMD_ENABLE_4BYTE_ADDR := 0xB7;
  CMD_SUBSECTOR_ERASE_4K_4B := 0x21;
  CMD_PAGE_PROGRAM_4B := 0x12;
  CMD_READ_DATA_4B := 0x13
|}.

Record FlashSim : Type := mkFlashSim {
  fs_mem : Z -> Z;                (* array content, by byte address *)
  fs_wel : bool;                  (* write-enable latch *)
  fs_busy : Z;                    (* status reads that still report WIP *)
  fs_tick : Z;
  fs_last : QSPI_CommandTypeDef;  (* command phase waiting for its data phase *)
  fs_bus_fault : Z -> bool;       (* opcodes on which the bus reports a fault *)
  fs_erase_span : Z               (* bytes a subsector erase really clears *)
}.

Definition fs_erase (addr : Z) (s : FlashSim) : Z -> Z :=
  let base := (addr / 4096) * 4096 in
  fun a => if (base <=? a) && (a <? base + fs_erase_span s) then 0xFF else fs_mem s a.

(** Page program: bits can only be cleared, and the address wraps inside
    the 256-byte page. *)
Definition fs_program (addr : Z) (data : list Z) (s : FlashSim) : Z -> Z :=
  fun a =>
    let i := (a - addr) mod 256 in
    if (a / 256 =? addr / 256) && (i <? Z.of_nat (length data))
    then Z.land (fs_mem s a) (byte_at data i)
    else fs_mem s a.

Definition fs_command (cmd : QSPI_CommandTypeDef) (s : FlashSim) : HAL_StatusTypeDef * FlashSim :=
  let op := Instruction cmd in
  let t := fs_tick s + 1 in
  if fs_bus_fault s op then
    (HAL_ERROR, mkFlashSim (fs_mem s) (fs_wel s) (fs_busy s) t (fs_last s)
                           (fs_bus_fault s) (fs_erase_span s))
  else if op =? 0x06 then
    (HAL_OK, mkFlashSim (fs_mem s) true (fs_busy s) t cmd (fs_bus_fault s) (fs_erase_span s))
  else if op =? 0xB7 then
    (HAL_OK, mkFlashSim (fs_mem s) false (fs_busy s) t cmd (fs_bus_fault s) (fs_erase_span s))
  else if op =? 0x21 then
    if fs_wel s then
      (HAL_OK, mkFlashSim (fs_erase (Address cmd) s) false 3 t cmd
                          (fs_bus_fault s) (fs_erase_span s))
    else
      (HAL_OK, mkFlashSim (fs_mem s) false (fs_busy s) t cmd (fs_bus_fault s) (fs_erase_span s))
  else
    (HAL_OK, mkFlashSim (fs_mem s) (fs_wel s) (fs_busy s) t cmd (fs_bus_fault s) (fs_erase_span s)).

Definition fs_status (s : FlashSim) : Z :=
  (if 0 <? fs_busy s then 1 else 0) + (if fs_wel s then 2 else 0).

Definition fs_receive (s : FlashSim) : (HAL_StatusTypeDef * list Z) * FlashSim :=
  let cmd := fs_last s in
  let op := Instruction cmd in
  let t := fs_tick s + 1 in
  if op =? 0x05 then
    ((HAL_OK, [fs_status s]),
     mkFlashSim (fs_mem s) (fs_wel s) (Z.max 0 (fs_busy s - 1)) t cmd
                (fs_bus_fault s) (fs_erase_span s))
  else if op =? 0x9E then
    ((HAL_OK, [0x20; 0xBA; 0x20]),
     mkFlashSim (fs_mem s) (fs_wel s) (fs_busy s) t cmd (fs_bus_fault s) (fs_erase_span s))
  else if op =? 0x13 then
    ((HAL_OK, map (fun i => fs_mem s (Address cmd + Z.of_nat i)) (seq 0 (Z.to_nat (NbData cmd)))),
     mkFlashSim (fs_mem s) (fs_wel s) (fs_busy s) t cmd (fs_bus_fault s) (fs_erase_span s))
  else
    ((HAL_ERROR, []),
     mkFlashSim (fs_mem s) (fs_wel s) (fs_busy s) t cmd (fs_bus_fault s) (fs_erase_span s)).

Definition fs_transmit (data : list Z) (s : FlashSim) : HAL_StatusTypeDef * FlashSim :=
  let cmd := fs_last s in
  let t := fs_tick s + 1 in
  if (Instruction cmd =? 0x12) && fs_wel s then
    (HAL_OK, mkFlashSim (fs_program (Address cmd) data s) false 2 t cmd
                        (fs_bus_fault s) (fs_erase_span s))
  else
    (HAL_OK, mkFlashSim (fs_mem s) false (fs_busy s) t cmd (fs_bus_fault s) (fs_erase_span s)).

#[export] Instance FlashSim_HAL : HAL FlashSim := {
  HAL_QSPI_Command cmd _ s := fs_command cmd s;
  HAL_QSPI_Receive _ s := fs_receive s;
  HAL_QSPI_Transmit data _ s := fs_transmit data s;
  HAL_GetTick s := (fs_tick s, s);
  HAL_Delay ms s :=
    mkFlashSim (fs_mem s) (fs_wel s) (fs_busy s) (fs_tick s + ms) (fs_last s)
               (fs_bus_fault s) (fs_erase_span s)
}.

(** A healthy part whose array holds zeros (fully programmed). *)
Definition flash0 : FlashSim :=
  mkFlashSim (fun _ => 0) false 0 0 cmd_zero (fun _ => false) 4096.

(** The same part behind a bus that faults on the read-identity opcode. *)
Definition flash_id_fault : FlashSim :=
  mkFlashSim (fun _ => 0) false 0 0 cmd_zero (fun op => op =? 0x9E) 4096.

(** A defective part whose subsector erase clears only the first page. *)
Definition flash_short_erase : FlashSim :=
  mkFlashSim (fun _ => 0) false 0 0 cmd_zero (fun _ => false) 256.

(** The messages of a log, in order. *)
Definition reports (l : list Event) : list Report :=
  flat_map (fun e => match e with EvPrintf m => [m] | _ => [] end) l.

(** The commands of a log that carry an address, in order. *)
Definition addressed_commands (l : list Event) : list QSPI_CommandTypeDef :=
  flat_map (fun e => match e with
                     | EvCommand c _ =>
                         match AddressMode c with
                         | QSPI_ADDRESS_NONE => []
                         | QSPI_ADDRESS_1_LINE => [c]
                         end
                     | _ => []
                     end) l.

Definition run_flash (fuel : nat) (s : FlashSim) : option (unit * World FlashSim) :=
  MT25Q_RunSelfTest (hdr := MT25Q_header) fuel (mkWorld s []).

(** A fully erased healthy part. *)
Definition flash_erased : FlashSim :=
  mkFlashSim (fun _ => 0xFF) false 0 0 cmd_zero (fun _ => false) 4096.

(** A write of [size] bytes at [addr] leaves the 256-byte page it starts in. *)
Definition crosses_page_boundary (addr size : Z) : bool :=
  negb (addr / TEST_PAGE_SIZE =? (addr + size - 1) / TEST_PAGE_SIZE).

(** The structural invariant of a command descriptor.  A descriptor
    without an address phase carries no address: [Address] and
    [AddressSize] are as the initialiser left them; one with an address
    phase carries a 32-bit address; and the data length is positive exactly
    when there is a data phase. *)
Definition cmd_invariant (c : QSPI_CommandTypeDef) : Prop :=
  (AddressMode c = QSPI_ADDRESS_NONE ->
   Address c = 0 /\ AddressSize c = QSPI_ADDRESS_8_BITS) /\
  (AddressMode c <> QSPI_ADDRESS_NONE -> AddressSize c = QSPI_ADDRESS_32_BITS) /\
  (0 < NbData c <-> DataMode c <> QSPI_DATA_NONE).

Definition cmd_invariant_b (c : QSPI_CommandTypeDef) : bool :=
  match AddressMode c, AddressSize c with
  | QSPI_ADDRESS_NONE, QSPI_ADDRESS_8_BITS => Address c =? 0
  | QSPI_ADDRESS_1_LINE, QSPI_ADDRESS_32_BITS => true
  | _, _ => false
  end
  && match DataMode c with
     | QSPI_DATA_NONE => negb (0 <? NbData c)
     | QSPI_DATA_1_LINE => 0 <? NbData c
     end.

(** The events of the write-enable handshake and of the busy wait: tick
    reads, receives, and well-formed commands without an address phase.
    An erase, a page program or a read carries an address; a page program
    transmits. *)
Definition handshake_event (e : Event) : bool :=
  match e with
  | EvCommand c _ =>
      match AddressMode c with
      | QSPI_ADDRESS_NONE => cmd_invariant_b c
      | QSPI_ADDRESS_1_LINE => false
      end
  | EvReceive _ _ => true
  | EvGetTick _ => true
  | EvTransmit _ _ => false
  | EvDelay _ => false
  | EvPrintf _ => false
  end.

(** The payloads of the transmits of a log, in order. *)
Definition transmits (l : list Event) : list (list Z) :=
  flat_map (fun e => match e with EvTransmit d _ => [d] | _ => [] end) l.

Section PollLoop.

Context {D : Type} {hal : HAL D} {hdr : qspi_h}.

(** The two polling loops of qspi.c have one shape: read the status, leave
    with [HAL_OK] when the awaited bit pattern shows, else test the
    deadline.  [poll_loop] is that shape with the exit test [done] as a
    parameter; it is only used to reason about the two loops at once. *)
Fixpoint poll_loop (done : Z -> bool) (fuel : nat) (timeout_ms start sr : Z)
  : M (D := D) HAL_StatusTypeDef :=
  match fuel with
  | O => out_of_fuel
  | S fuel' =>
      bind (QSPI_ReadStatus sr) (fun rs =>
        if not_ok (fst rs) then ret HAL_ERROR
        else if done (snd rs) then ret HAL_OK
        else bind call_GetTick (fun now =>
          if uint32 (now - start) <? timeout_ms
          then poll_loop done fuel' timeout_ms start (snd rs)
          else ret HAL_TIMEOUT))
  end.

Definition wip_clear (sr : Z) : bool := Z.land sr SR_WIP_MASK =? 0.
Definition wel_set (sr : Z) : bool := negb (Z.land sr SR_WEL_MASK =? 0).

End PollLoop.

(** ** The orchestrator as a fail-fast sequence of steps

    The nine steps of the self-test, each built from the driver operations
    with the arguments the code passes, and the combinator that runs a list
    of steps until the first one that does not pass.  Used to state that
    the self-test is fail-fast. *)

Section Steps.

Context {D : Type} {hal : HAL D} {hdr : qspi_h}.

Local Notation "x <- m ;; k" := (bind m (fun x => k))
  (at level 61, m at next level, right associativity).
Local Notation "m ;;; k" := (bind m (fun _ => k))
  (at level 61, right associativity).

(** A step yields [true] when it passed and the next one may run. *)
Definition stop_with (msg : Report) : M (D := D) bool := printf msg ;;; ret false.

Fixpoint run_steps (steps : list (M (D := D) bool)) : M (D := D) bool :=
  match steps with
  | [] => ret true
  | s :: rest => ok <- s ;; if ok : bool then run_steps rest else ret false
  end.

(** 1. reset, settle delay. *)
Definition step_reset : M (D := D) bool :=
  r <- QSPI_SendSimple CMD_RESET_ENABLE ;;
  if not_ok r then stop_with MsgResetFailed
  else
    r <- QSPI_SendSimple CMD_RESET_MEMORY ;;
    if not_ok r then stop_with MsgResetFailed
    else call_Delay 1 ;;; ret true.

(** 2. read the identity and report it. *)
Definition step_identify : M (D := D) bool :=
  rid <- QSPI_ReadID [0; 0; 0] ;;
  if not_ok (fst rid) then stop_with MsgReadIdFailed
  else
    printf (MsgJedecId (byte_at (snd rid) 0) (byte_at (snd rid) 1) (byte_at (snd rid) 2)) ;;;
    ret true.

(** 3. 4-byte addressing, then a short busy wait. *)
Definition step_addressing (fuel : nat) : M (D := D) bool :=
  r <- QSPI_Enable4ByteAddressing fuel ;;
  if not_ok r then stop_with MsgEnter4BFailed
  else
    r <- QSPI_WaitWhileBusy fuel 100 ;;
    if not_ok r then stop_with MsgBusyAfter4B else ret true.

(** 4. erase the test subsector, then a long busy wait. *)
Definition step_erase (fuel : nat) : M (D := D) bool :=
  printf (MsgErasing TEST_ADDR) ;;;
  r <- QSPI_Erase4K_4B fuel TEST_ADDR ;;
  if not_ok r then stop_with MsgEraseFailed
  else
    r <- QSPI_WaitWhileBusy fuel 5000 ;;
    if not_ok r then stop_with MsgEraseTimeout else ret true.

(** 5. read back and check the erased state. *)
Definition step_verify_erased : M (D := D) bool :=
  rb <- QSPI_Read_4B TEST_ADDR (local_array TEST_PAGE_SIZE) TEST_PAGE_SIZE ;;
  if not_ok (fst rb) then stop_with MsgReadAfterEraseFailed
  else
    match erase_verify_scan (Z.to_nat TEST_PAGE_SIZE) 0 (snd rb) with
    | Some (i, b) => stop_with (MsgEraseVerifyFailed i b)
    | None => printf MsgEraseOK ;;; ret true
    end.

(** 6. program one page with the pattern. *)
Definition step_program (fuel : nat) : M (D := D) bool :=
  printf (MsgProgramming TEST_PAGE_SIZE TEST_ADDR) ;;;
  r <- QSPI_PageProgram_4B fuel TEST_ADDR (fill_pattern (Z.to_nat TEST_PAGE_SIZE) 0)
                           TEST_PAGE_SIZE ;;
  if not_ok r then stop_with MsgProgramFailed else ret true.

(** 7. short busy wait. *)
Definition step_program_wait (fuel : nat) : M (D := D) bool :=
  r <- QSPI_WaitWhileBusy fuel 100 ;;
  if not_ok r then stop_with MsgProgramTimeout else ret true.

(** 8. read the page back and compare it with the pattern. *)
Definition step_verify_programmed : M (D := D) bool :=
  let out := fill_pattern (Z.to_nat TEST_PAGE_SIZE) 0 in
  rb <- QSPI_Read_4B TEST_ADDR (local_array TEST_PAGE_SIZE) TEST_PAGE_SIZE ;;
  if not_ok (fst rb) then stop_with MsgReadAfterProgramFailed
  else if negb (memcmp out (snd rb) TEST_PAGE_SIZE =? 0) then
    match first_mismatch (Z.to_nat TEST_PAGE_SIZE) 0 out (snd rb) with
    | Some (i, wrote, read) => stop_with (MsgVerifyMismatch i wrote read)
    | None => ret false
    end
  else ret true.

(** 9. report overall success. *)
Definition step_report : M (D := D) bool := printf MsgProgramVerifyOK ;;; ret true.

Definition selftest_steps (fuel : nat) : list (M (D := D) bool) :=
  [step_reset; step_identify; step_addressing fuel; step_erase fuel;
   step_verify_erased; step_program fuel; step_program_wait fuel;
   step_verify_programmed; step_report].

End Steps.

(** ** The logs of the self-test

    The shape of the log at each point the self-test can reach, and of the
    log of a run that stopped early.  [quiet] segments are the handshakes
    and busy waits: status polls, tick reads and commands without address
    phase. *)

Section SelfTestTrace.

Context {hdr : qspi_h}.

Definition quiet (ev : list Event) : Prop :=
  Forall (fun e => handshake_event e = true) ev.

(** Command [c] and its data phase, of which one did not return [HAL_OK]. *)
Definition failed_read (c : QSPI_CommandTypeDef) (ev : list Event) : Prop :=
  (exists r, r <> HAL_OK /\ ev = [EvCommand c r]) \/
  (exists buf r, r <> HAL_OK /\ ev = [EvCommand c HAL_OK; EvReceive buf r]).

Definition test_pattern : list Z := fill_pattern (Z.to_nat TEST_PAGE_SIZE) 0.

Definition TestRead_cmd : QSPI_CommandTypeDef := Read_4B_cmd TEST_ADDR TEST_PAGE_SIZE.
Definition TestProgram_cmd : QSPI_CommandTypeDef := PageProgram_cmd TEST_ADDR TEST_PAGE_SIZE.

(** A page-sized buffer in the erased state. *)
Definition erased_page (buf : list Z) : Prop :=
  Z.of_nat (length buf) = TEST_PAGE_SIZE /\
  forall i, 0 <= i < TEST_PAGE_SIZE -> byte_at buf i = 0xFF.

(** [(i, b)] is the first byte of [buf] that is not in the erased state. *)
Definition first_not_erased (buf : list Z) (i b : Z) : Prop :=
  0 <= i < TEST_PAGE_SIZE /\ byte_at buf i = b /\ b <> 0xFF /\
  forall j, 0 <= j < i -> byte_at buf j = 0xFF.

(** [(i, e, o)] is the first place where [buf] differs from the pattern. *)
Definition first_difference (buf : list Z) (i e o : Z) : Prop :=
  0 <= i < TEST_PAGE_SIZE /\ e = byte_at test_pattern i /\ o = byte_at buf i /\ e <> o /\
  forall j, 0 <= j < i -> byte_at buf j = byte_at test_pattern j.

Definition log_reset : list Event :=
  [EvPrintf MsgSelfTestStart;
   EvCommand (SendSimple_cmd CMD_RESET_ENABLE) HAL_OK;
   EvCommand (SendSimple_cmd CMD_RESET_MEMORY) HAL_OK;
   EvDelay 1].

Definition at_identified (l : list Event) : Prop :=
  exists id,
    l = log_reset ++
        [EvCommand ReadID_cmd HAL_OK; EvReceive id HAL_OK;
         EvPrintf (MsgJedecId (byte_at id 0) (byte_at id 1) (byte_at id 2))].

Definition at_addressing (l : list Event) : Prop :=
  exists l0 ev, at_identified l0 /\ quiet ev /\ l = l0 ++ ev.

Definition at_erased (l : list Event) : Prop :=
  exists l0 ev1 ev2,
    at_addressing l0 /\ quiet ev1 /\ quiet ev2 /\
    l = l0 ++ [EvPrintf (MsgErasing TEST_ADDR)] ++ ev1
           ++ [EvCommand (Erase4K_cmd TEST_ADDR) HAL_OK] ++ ev2.

Definition at_erase_verified (l : list Event) : Prop :=
  exists l0 buf,
    at_erased l0 /\ erased_page buf /\
    l = l0 ++ [EvCommand TestRead_cmd HAL_OK; EvReceive buf HAL_OK; EvPrintf MsgEraseOK].

(** The read-back after the erase, as it sits in a log. *)
Definition erase_checked (l : list Event) : Prop :=
  exists pre buf post,
    l = pre ++ [EvCommand TestRead_cmd HAL_OK; EvReceive buf HAL_OK; EvPrintf MsgEraseOK]
            ++ post /\
    at_erased pre /\ erased_page buf.

Definition at_programmed (l : list Event) : Prop :=
  exists l0 ev1 ev2,
    at_erase_verified l0 /\ quiet ev1 /\ quiet ev2 /\
    l = l0 ++ [EvPrintf (MsgProgramming TEST_PAGE_SIZE TEST_ADDR)] ++ ev1
           ++ [EvCommand TestProgram_cmd HAL_OK; EvTransmit test_pattern HAL_OK] ++ ev2.

(** The page program as it sits in a log: the program command for the
    test page, answered [HAL_OK], then the transmit of the pattern with
    status [r], and no other transmit before or after. *)
Definition page_programmed (l : list Event) (r : HAL_StatusTypeDef) : Prop :=
  exists pre post,
    l = pre ++ [EvCommand TestProgram_cmd HAL_OK; EvTransmit test_pattern r] ++ post /\
    transmits pre = [] /\ transmits post = [].

Definition at_verified (l : list Event) : Prop :=
  exists l0 buf,
    at_programmed l0 /\ buf = test_pattern /\
    l = l0 ++ [EvCommand TestRead_cmd HAL_OK; EvReceive buf HAL_OK;
               EvPrintf MsgProgramVerifyOK].

Inductive halted : list Event -> Prop :=
| halt_reset_enable r :
    r <> HAL_OK ->
    halted [EvPrintf MsgSelfTestStart;
            EvCommand (SendSimple_cmd CMD_RESET_ENABLE) r;
            EvPrintf MsgResetFailed]
| halt_reset_memory r :
    r <> HAL_OK ->
    halted [EvPrintf MsgSelfTestStart;
            EvCommand (SendSimple_cmd CMD_RESET_ENABLE) HAL_OK;
            EvCommand (SendSimple_cmd CMD_RESET_MEMORY) r;
            EvPrintf MsgResetFailed]
| halt_identify ev :
    failed_read ReadID_cmd ev ->
    halted (log_reset ++ ev ++ [EvPrintf MsgReadIdFailed])
| halt_enter_4byte l ev :
    at_identified l -> quiet ev ->
    halted (l ++ ev ++ [EvPrintf MsgEnter4BFailed])
| halt_busy_4byte l ev :
    at_identified l -> quiet ev ->
    halted (l ++ ev ++ [EvPrintf MsgBusyAfter4B])
| halt_erase l ev tl :
    at_addressing l -> quiet ev ->
    tl = [] \/ (exists r, r <> HAL_OK /\ tl = [EvCommand (Erase4K_cmd TEST_ADDR) r]) ->
    halted (l ++ [EvPrintf (MsgErasing TEST_ADDR)] ++ ev ++ tl ++ [EvPrintf MsgEraseFailed])
| halt_erase_wait l ev1 ev2 :
    at_addressing l -> quiet ev1 -> quiet ev2 ->
    halted (l ++ [EvPrintf (MsgErasing TEST_ADDR)] ++ ev1
              ++ [EvCommand (Erase4K_cmd TEST_ADDR) HAL_OK] ++ ev2
              ++ [EvPrintf MsgEraseTimeout])
| halt_read_erased l ev :
    at_erased l -> failed_read TestRead_cmd ev ->
    halted (l ++ ev ++ [EvPrintf MsgReadAfterEraseFailed])
| halt_erase_verify l buf i b :
    at_erased l -> first_not_erased buf i b ->
    halted (l ++ [EvCommand TestRead_cmd HAL_OK; EvReceive buf HAL_OK;
                  EvPrintf (MsgEraseVerifyFailed i b)])
| halt_program l ev tl :
    at_erase_verified l -> quiet ev ->
    tl = [] \/
    (exists r, r <> HAL_OK /\ tl = [EvCommand TestProgram_cmd r]) \/
    (exists r, r <> HAL_OK /\
               tl = [EvCommand TestProgram_cmd HAL_OK; EvTransmit test_pattern r]) ->
    halted (l ++ [EvPrintf (MsgProgramming TEST_PAGE_SIZE TEST_ADDR)] ++ ev ++ tl
              ++ [EvPrintf MsgProgramFailed])
| halt_program_wait l ev1 ev2 :
    at_erase_verified l -> quiet ev1 -> quiet ev2 ->
    halted (l ++ [EvPrintf (MsgProgramming TEST_PAGE_SIZE TEST_ADDR)] ++ ev1
              ++ [EvCommand TestProgram_cmd HAL_OK; EvTransmit test_pattern HAL_OK] ++ ev2
              ++ [EvPrintf MsgProgramTimeout])
| halt_read_programmed l ev :
    at_programmed l -> failed_read TestRead_cmd ev ->
    halted (l ++ ev ++ [EvPrintf MsgReadAfterProgramFailed])
| halt_mismatch l buf i e o :
    at_programmed l -> first_difference buf i e o ->
    halted (l ++ [EvCommand TestRead_cmd HAL_OK; EvReceive buf HAL_OK;
                  EvPrintf (MsgVerifyMismatch i e o)]).

End SelfTestTrace.

(** A device on which WEL never latches: the status register always reads
    0, a poll lasts 50 ticks. *)
Definition wel_stuck_dev : TraceDev := mkTraceDev 0 1 25 25 (fun _ => 0).





(** An event is well formed when the command it issues, if any, satisfies
    the structural invariant. *)
Definition wf_event (e : Event) : Prop :=
  match e with
  | EvCommand c _ => cmd_invariant c
  | _ => True
  end.

(** The world the self-test leaves on the healthy simulated flash. *)
Definition flash0_final : World FlashSim :=
  match run_flash 8 flash0 with
  | Some (_, w) => w
  | None => mkWorld flash0 []
  end.

(** The reports that end a run of the self-test: every failure message
    and the final success. *)
Definition terminal_report (m : Report) : bool :=
  match m with
  | MsgSelfTestStart | MsgJedecId _ _ _ | MsgErasing _ | MsgEraseOK
  | MsgProgramming _ _ => false
  | MsgResetFailed | MsgReadIdFailed | MsgEnter4BFailed | MsgBusyAfter4B
  | MsgEraseFailed | MsgEraseTimeout | MsgReadAfterEraseFailed
  | MsgEraseVerifyFailed _ _ | MsgProgramFailed | MsgProgramTimeout
  | MsgReadAfterProgramFailed | MsgVerifyMismatch _ _ _ | MsgProgramVerifyOK => true
  end.

(** The addressed commands of a complete self-test, in order. *)
Definition test_page_commands {hdr : qspi_h} : list QSPI_CommandTypeDef :=
  [Erase4K_cmd TEST_ADDR; TestRead_cmd; TestProgram_cmd; TestRead_cmd].

(** A status transaction that returned [HAL_OK] and whose status byte
    passes [test], as the last two events of a log segment. *)
Definition ends_with_status {hdr : qspi_h} (test : Z -> bool) (ev : list Event) : Prop :=
  exists pre buf,
    ev = pre ++ [EvCommand ReadStatus_cmd HAL_OK; EvReceive buf HAL_OK] /\
    test (byte_at buf 0) = true.

(** A healthy simulated part with array content [mem], idle at tick 0. *)
Definition healthy_flash (mem : Z -> Z) : FlashSim :=
  mkFlashSim mem false 0 0 cmd_zero (fun _ => false) 4096.

(** A device that stays busy and never latches WEL, on a millisecond
    clock, a poll lasting 50 ticks. *)
Definition stuck_busy_dev : TraceDev := mkTraceDev 0 1 25 25 (fun _ => 1).

(** The simulated flash behind a bus that faults on the read-status
    opcode. *)
Definition flash_status_fault : FlashSim :=
  mkFlashSim (fun _ => 0xFF) false 0 0 cmd_zero (fun op => op =? 0x05) 4096.

(** The log of [n] consecutive status polls on the trace device that do
    not end the loop they belong to, the first of them starting at instant
    [c]: each is a status transaction, its status sampled when the command
    phase ends, followed by the tick read of the loop condition. *)
Fixpoint td_polls {hdr : qspi_h} (P Lc Lr : Z) (sr : Z -> Z) (n : nat) (c : Z) : list Event :=
  match n with
  | O => []
  | S n' =>
      [EvCommand ReadStatus_cmd HAL_OK; EvReceive [uint8 (sr (c + Lc))] HAL_OK;
       EvGetTick (uint32 ((c + Lc + Lr) / P))]
        ++ td_polls P Lc Lr sr n' (c + Lc + Lr)
  end.

(** A defective part whose subsector erase clears nothing. *)
Definition flash_no_erase : FlashSim :=
  mkFlashSim (fun _ => 0) false 0 0 cmd_zero (fun _ => false) 0.

(** A header that kept the page-program opcode of 3-byte addressing
    (0x02), which the simulated part does not execute: the page stays as
    the erase left it. *)
Definition legacy_program_header : qspi_h := {|
  QSPI_TIMEOUT := 100;
  CMD_RESET_ENABLE := 0x66;
  CMD_RESET_MEMORY := 0x99;
  CMD_READ_ID := 0x9E;
  CMD_READ_STATUS_REG := 0x05;
  CMD_WRITE_ENABLE := 0x06;
  CMD_ENABLE_4BYTE_ADDR := 0xB7;
  CMD_SUBSECTOR_ERASE_4K_4B := 0x21;
  CMD_PAGE_PROGRAM_4B := 0x02;
  CMD_READ_DATA_4B := 0x13
|}.

(** The worlds the self-test leaves on the part whose erase clears
    nothing, and on the healthy part driven with the legacy header. *)
Definition flash_no_erase_final : World FlashSim :=
  match run_flash 8 flash_no_erase with
  | Some (_, w) => w
  | None => mkWorld flash_no_erase []
  end.

Definition legacy_program_final : World FlashSim :=
  match MT25Q_RunSelfTest (hdr := legacy_program_header) 8 (mkWorld flash0 []) with
  | Some (_, w) => w
  | None => mkWorld flash0 []
  end.

(** * Properties *)

Section DriverFacts.

Context {D : Type} {hal : HAL D} {hdr : qspi_h}.

(** ** Argument check of the page program *)

(** C5: a page program of length 0, or longer than the 256-byte page, fails
    with the error status and leaves the world as it found it: no HAL call,
    neither for the write-enable handshake nor for the program command. *)
Theorem PageProgram_rejects_bad_size
    (fuel : nat) (addr : Z) (data : list Z) (size : Z) (w : World D) :
  size = 0 \/ TEST_PAGE_SIZE < size ->
  QSPI_PageProgram_4B fuel addr data size w = Some (HAL_ERROR, w).
Proof.
  intros Hsize. unfold QSPI_PageProgram_4B.
  assert (Hguard : (size =? 0) || (TEST_PAGE_SIZE <? size) = true).
  { apply orb_true_iff. destruct Hsize as [H0 | Hbig].
    - left. now apply Z.eqb_eq.
    - right. now apply Z.ltb_lt. }
  rewrite Hguard. reflexivity.
Qed.

(** ** The first poll of the busy wait *)

Lemma ReadStatus_log (sr : Z) (w : World D) rs w' :
  QSPI_ReadStatus sr w = Some (rs, w') ->
  exists rc tl, log w' = log w ++ EvCommand ReadStatus_cmd rc :: tl /\
                (tl = [] \/ exists buf r, tl = [EvReceive buf r]).
Proof.
  unfold QSPI_ReadStatus, bind, call_Command, call_Receive, ret.
  destruct (HAL_QSPI_Command ReadStatus_cmd QSPI_TIMEOUT (dev w)) as [rc d1].
  destruct (not_ok rc); cbn [dev log].
  - intros H; inversion H; subst; cbn [log]. exists rc, []. split; auto.
  - destruct (HAL_QSPI_Receive QSPI_TIMEOUT d1) as [[r data] d2].
    intros H; inversion H; subst; cbn [log].
    exists rc, [EvReceive (store_rx [sr] data) r]. rewrite <- app_assoc. split; eauto.
Qed.

Lemma WaitWhileBusy_loop_extends (fuel : nat) (timeout_ms start sr : Z) (w : World D) r w' :
  WaitWhileBusy_loop fuel timeout_ms start sr w = Some (r, w') ->
  exists ev, log w' = log w ++ ev.
Proof.
  revert sr w. induction fuel as [| fuel IH]; intros sr w; cbn [WaitWhileBusy_loop].
  - discriminate.
  - unfold bind at 1.
    destruct (QSPI_ReadStatus sr w) as [[rs w1] |] eqn:E1; [| discriminate].
    destruct (ReadStatus_log _ _ _ _ E1) as (rc & tl & Hlog & _).
    destruct (not_ok (fst rs)).
    { intros H; inversion H; subst. eauto. }
    destruct (Z.land (snd rs) SR_WIP_MASK =? 0).
    { intros H; inversion H; subst. eauto. }
    unfold bind, call_GetTick.
    destruct (HAL_GetTick (dev w1)) as [t d2].
    destruct (uint32 (uint32 t - start) <? timeout_ms).
    + intros H. apply IH in H. destruct H as [ev Hev]. cbn [log] in Hev.
      rewrite Hev, Hlog. repeat rewrite <- app_assoc. eauto.
    + intros H; inversion H; subst; cbn [log]. rewrite Hlog.
      repeat rewrite <- app_assoc. eauto.
Qed.

(** C10: whatever the timeout (0 included) the busy wait reads the tick
    once and then issues a status read; every result it returns extends the
    log of that first poll, so the deadline test never comes before it; and
    when the first read reports WIP clear the result is [HAL_OK]. *)
Theorem WaitWhileBusy_first_poll
    (fuel : nat) (timeout_ms : Z) (w : World D)
    (start : Z) (w1 : World D) (r : HAL_StatusTypeDef) (sr : Z) (w2 : World D) :
  call_GetTick w = Some (start, w1) ->
  QSPI_ReadStatus 0 w1 = Some ((r, sr), w2) ->
  (exists rc tl,
      log w2 = log w ++ EvGetTick start :: EvCommand ReadStatus_cmd rc :: tl /\
      (tl = [] \/ exists buf r', tl = [EvReceive buf r'])) /\
  (forall res w',
      QSPI_WaitWhileBusy (S fuel) timeout_ms w = Some (res, w') ->
      exists ev, log w' = log w2 ++ ev) /\
  (r = HAL_OK -> Z.land sr SR_WIP_MASK = 0 ->
   QSPI_WaitWhileBusy (S fuel) timeout_ms w = Some (HAL_OK, w2)).
Proof.
  intros Htick Hpoll.
  assert (Hrun : QSPI_WaitWhileBusy (S fuel) timeout_ms w =
                 (if not_ok r then Some (HAL_ERROR, w2)
                  else if Z.land sr SR_WIP_MASK =? 0 then Some (HAL_OK, w2)
                  else bind call_GetTick
                         (fun now => if uint32 (now - start) <? timeout_ms
                                     then WaitWhileBusy_loop fuel timeout_ms start sr
                                     else ret HAL_TIMEOUT) w2)).
  { unfold QSPI_WaitWhileBusy. unfold bind at 1. rewrite Htick.
    cbn [WaitWhileBusy_loop]. unfold bind at 1. rewrite Hpoll. cbn [fst snd].
    destruct (not_ok r); [reflexivity |].
    destruct (Z.land sr SR_WIP_MASK =? 0); reflexivity. }
  split; [| split].
  - destruct (ReadStatus_log _ _ _ _ Hpoll) as (rc & tl & Hlog & Htl).
    exists rc, tl. split; [| exact Htl].
    unfold call_GetTick in Htick. destruct (HAL_GetTick (dev w)) as [t d1].
    inversion Htick; subst. cbn [log] in Hlog. rewrite Hlog, <- app_assoc. reflexivity.
  - intros res w' H. rewrite Hrun in H.
    destruct (not_ok r). { inversion H; subst. exists []. now rewrite app_nil_r. }
    destruct (Z.land sr SR_WIP_MASK =? 0).
    { inversion H; subst. exists []. now rewrite app_nil_r. }
    unfold bind, call_GetTick in H. destruct (HAL_GetTick (dev w2)) as [t d3].
    destruct (uint32 (uint32 t - start) <? timeout_ms).
    + apply WaitWhileBusy_loop_extends in H. destruct H as [ev Hev].
      cbn [log] in Hev. rewrite Hev, <- app_assoc. eauto.
    + inversion H; subst; cbn [log]. eauto.
  - intros Hr Hsr. rewrite Hrun. subst r. cbn.
    apply Z.eqb_eq in Hsr. rewrite Hsr. reflexivity.
Qed.

End DriverFacts.

(** C5 at a concrete call: length 0 on the simulated flash. *)
Lemma PageProgram_rejects_bad_size_witness :
  (0 = 0 \/ TEST_PAGE_SIZE < 0) /\
  QSPI_PageProgram_4B (hdr := MT25Q_header) 4 TEST_ADDR [] 0 (mkWorld flash_erased [])
  = Some (HAL_ERROR, mkWorld flash_erased []).
Proof.
  split; [left; reflexivity |].
  apply (PageProgram_rejects_bad_size (hdr := MT25Q_header)
           4 TEST_ADDR [] 0 (mkWorld flash_erased [])).
  left; reflexivity.
Defined.

(** ** The polling loops against a timed status trace *)

Section PollTiming.

Context {hdr : qspi_h}.

Lemma WaitWhileBusy_loop_poll {D : Type} {hal : HAL D}
    (fuel : nat) (timeout_ms start sr : Z) (w : World D) :
  WaitWhileBusy_loop fuel timeout_ms start sr w
  = poll_loop wip_clear fuel timeout_ms start sr w.
Proof.
  revert sr w. induction fuel as [| fuel IH]; intros sr w; cbn [WaitWhileBusy_loop poll_loop].
  - reflexivity.
  - unfold bind. destruct (QSPI_ReadStatus sr w) as [[rs w1] |]; [| reflexivity].
    destruct (not_ok (fst rs)); [reflexivity |].
    unfold wip_clear. destruct (Z.land (snd rs) SR_WIP_MASK =? 0); [reflexivity |].
    destruct (call_GetTick w1) as [[now w2] |]; [| reflexivity].
    destruct (uint32 (now - start) <? timeout_ms); [apply IH | reflexivity].
Qed.

Lemma WriteEnable_loop_poll {D : Type} {hal : HAL D}
    (fuel : nat) (start sr : Z) (w : World D) :
  WriteEnable_loop fuel start sr w
  = poll_loop wel_set fuel QSPI_TIMEOUT start sr w.
Proof.
  revert sr w. induction fuel as [| fuel IH]; intros sr w; cbn [WriteEnable_loop poll_loop].
  - reflexivity.
  - unfold bind. destruct (QSPI_ReadStatus sr w) as [[rs w1] |]; [| reflexivity].
    destruct (not_ok (fst rs)); [reflexivity |].
    unfold wel_set. destruct (negb (Z.land (snd rs) SR_WEL_MASK =? 0)); [reflexivity |].
    destruct (call_GetTick w1) as [[now w2] |]; [| reflexivity].
    destruct (uint32 (now - start) <? QSPI_TIMEOUT); [apply IH | reflexivity].
Qed.

Lemma poll_loop_S {D : Type} {hal : HAL D}
    (done : Z -> bool) (fuel : nat) (timeout_ms start sr : Z) (w : World D) :
  poll_loop done (S fuel) timeout_ms start sr w
  = bind (QSPI_ReadStatus sr) (fun rs =>
      if not_ok (fst rs) then ret HAL_ERROR
      else if done (snd rs) then ret HAL_OK
      else bind call_GetTick (fun now =>
        if uint32 (now - start) <? timeout_ms
        then poll_loop done fuel timeout_ms start (snd rs)
        else ret HAL_TIMEOUT)) w.
Proof. reflexivity. Qed.

(** One status poll and one tick read on the trace device. *)
Lemma td_ReadStatus (sr0 c P Lc Lr : Z) (sr : Z -> Z) (l : list Event) :
  QSPI_ReadStatus sr0 (mkWorld (mkTraceDev c P Lc Lr sr) l)
  = Some ((HAL_OK, uint8 (sr (c + Lc))),
          mkWorld (mkTraceDev (c + Lc + Lr) P Lc Lr sr)
                  (l ++ [EvCommand ReadStatus_cmd HAL_OK;
                         EvReceive [uint8 (sr (c + Lc))] HAL_OK])).
Proof.
  unfold QSPI_ReadStatus, bind, call_Command, call_Receive, ret; cbn.
  rewrite <- app_assoc. reflexivity.
Qed.

Lemma td_GetTick (c P Lc Lr : Z) (sr : Z -> Z) (l : list Event) :
  call_GetTick (mkWorld (mkTraceDev c P Lc Lr sr) l)
  = Some (uint32 (c / P),
          mkWorld (mkTraceDev c P Lc Lr sr) (l ++ [EvGetTick (uint32 (c / P))])).
Proof. reflexivity. Qed.

Lemma td_SendSimple (instruction c P Lc Lr : Z) (sr : Z -> Z) (l : list Event) :
  QSPI_SendSimple instruction (mkWorld (mkTraceDev c P Lc Lr sr) l)
  = Some (HAL_OK, mkWorld (mkTraceDev (c + Lc) P Lc Lr sr)
                          (l ++ [EvCommand (SendSimple_cmd instruction) HAL_OK])).
Proof. reflexivity. Qed.


Lemma land_uint8_WEL (v : Z) : Z.land (uint8 v) SR_WEL_MASK = Z.land v SR_WEL_MASK.
Proof.
  unfold uint8. change 256 with (2 ^ 8). rewrite <- Z.land_ones by lia.
  rewrite <- Z.land_assoc. reflexivity.
Qed.

(** [uint32_t] subtraction of two tick readings is the true difference as
    long as that fits 32 bits. *)
Lemma elapsed_no_wrap (a b : Z) :
  0 <= a - b < 4294967296 -> uint32 (uint32 a - uint32 b) = a - b.
Proof.
  intros H. unfold uint32. rewrite <- Zminus_mod. now apply Z.mod_small.
Qed.

(** The tick test [now - start < timeout] in terms of the clock: the
    deadline is the instant the tick counter reaches [start + timeout]. *)
Lemma before_deadline (P c0 x t : Z) :
  0 < P -> (x / P - c0 / P < t <-> x < (c0 / P + t) * P).
Proof.
  intros HP. split; intros H.
  - pose proof (Z.mul_succ_div_gt x P HP). nia.
  - assert (x / P < c0 / P + t); [| lia].
    apply Z.div_lt_upper_bound; [lia | nia].
Qed.

Lemma div_step_bound (P c L : Z) :
  0 < P -> (c + L) / P <= c / P + L / P + 1.
Proof.
  intros HP. apply Z.lt_succ_r. apply Z.div_lt_upper_bound; [lia |].
  pose proof (Z.mul_succ_div_gt c P HP). pose proof (Z.mul_succ_div_gt L P HP). nia.
Qed.

Section Trace.

Variables (P Lc Lr c0 timeout : Z) (sr : Z -> Z) (done : Z -> bool).
Hypothesis HP : 0 < P.
Hypothesis HLc : 0 <= Lc.
Hypothesis HLr : 0 <= Lr.
Hypothesis HL : 0 < Lc + Lr.

Let deadline : Z := (c0 / P + timeout) * P.

(** The awaited bit never shows: the loop leaves with [HAL_TIMEOUT] at the
    first tick reading at or past the deadline. *)
Lemma td_poll_loop_timeout :
  0 <= timeout -> timeout + (Lc + Lr) / P + 1 < 4294967296 ->
  (forall x, done (uint8 (sr x)) = false) ->
  forall (fuel : nat) (c : Z) (l : list Event) (s0 : Z),
    c0 <= c -> (c = c0 \/ c < deadline) ->
    deadline <= c + Z.of_nat fuel * (Lc + Lr) -> (1 <= fuel)%nat ->
    exists c' ev,
      poll_loop done fuel timeout (uint32 (c0 / P)) s0 (mkWorld (mkTraceDev c P Lc Lr sr) l)
      = Some (HAL_TIMEOUT, mkWorld (mkTraceDev c' P Lc Lr sr) (l ++ ev)) /\
      c' <= c0 + timeout * P + (Lc + Lr) /\
      Forall (fun e => handshake_event e = true) ev.
Proof using HP HLc HLr HL.
  intros Ht Hwrap Hnever. induction fuel as [| fuel IH]; intros c l s0 Hc Hinv Hfuel Hpos.
  - lia.
  - cbn [poll_loop]. unfold bind at 1. rewrite td_ReadStatus. cbn [fst snd not_ok HAL_Status_eqb negb].
    rewrite Hnever. unfold bind at 1. rewrite td_GetTick.
    assert (Hdl : deadline <= c0 + timeout * P).
    { unfold deadline. pose proof (Z.mul_div_le c0 P HP). nia. }
    assert (He : 0 <= (c + Lc + Lr) / P - c0 / P < 4294967296).
    { split.
      - assert (c0 / P <= (c + Lc + Lr) / P) by (apply Z.div_le_mono; lia). lia.
      - replace (c + Lc + Lr) with (c + (Lc + Lr)) by lia.
        pose proof (div_step_bound P c (Lc + Lr) HP).
        destruct Hinv as [-> | Hlt]; [lia |].
        apply (before_deadline P c0 c timeout HP) in Hlt. lia. }
    rewrite (elapsed_no_wrap _ _ He).
    destruct (Z.ltb_spec ((c + Lc + Lr) / P - c0 / P) timeout) as [Hgo | Hstop].
    + apply (before_deadline P c0 _ timeout HP) in Hgo. fold deadline in Hgo.
      destruct (IH (c + Lc + Lr)
                   ((l ++ [EvCommand ReadStatus_cmd HAL_OK; EvReceive [uint8 (sr (c + Lc))] HAL_OK])
                      ++ [EvGetTick (uint32 ((c + Lc + Lr) / P))])
                   (uint8 (sr (c + Lc))))
        as (c' & ev & Hrun & Hc' & Hev).
      * lia.
      * right; exact Hgo.
      * rewrite Nat2Z.inj_succ in Hfuel. lia.
      * destruct fuel; [change (Z.of_nat 1) with 1 in Hfuel; lia | lia].
      * exists c', ([EvCommand ReadStatus_cmd HAL_OK; EvReceive [uint8 (sr (c + Lc))] HAL_OK]
                    ++ [EvGetTick (uint32 ((c + Lc + Lr) / P))] ++ ev).
        split; [| split].
        -- rewrite Hrun. repeat rewrite <- app_assoc. reflexivity.
        -- exact Hc'.
        -- repeat constructor. exact Hev.
    + exists (c + Lc + Lr),
        [EvCommand ReadStatus_cmd HAL_OK; EvReceive [uint8 (sr (c + Lc))] HAL_OK;
         EvGetTick (uint32 ((c + Lc + Lr) / P))].
      split; [| split].
      * unfold ret. rewrite <- app_assoc. reflexivity.
      * destruct Hinv as [-> | Hlt]; [nia | lia].
      * repeat constructor.
Qed.

(** The same run in full: the loop makes [n >= 1] polls, one after the
    other, and leaves at the first tick reading at or past the deadline. *)
Lemma td_poll_loop_timeout_log :
  0 <= timeout -> timeout + (Lc + Lr) / P + 1 < 4294967296 ->
  (forall x, done (uint8 (sr x)) = false) ->
  forall (fuel : nat) (c : Z) (l : list Event) (s0 : Z),
    c0 <= c -> (c = c0 \/ c < deadline) ->
    deadline <= c + Z.of_nat fuel * (Lc + Lr) -> (1 <= fuel)%nat ->
    exists n : nat,
      (1 <= n)%nat /\
      poll_loop done fuel timeout (uint32 (c0 / P)) s0 (mkWorld (mkTraceDev c P Lc Lr sr) l)
      = Some (HAL_TIMEOUT,
              mkWorld (mkTraceDev (c + Z.of_nat n * (Lc + Lr)) P Lc Lr sr)
                      (l ++ td_polls P Lc Lr sr n c)) /\
      deadline <= c + Z.of_nat n * (Lc + Lr) /\
      (c + Z.of_nat n * (Lc + Lr) - (Lc + Lr) < deadline \/ n = 1%nat) /\
      c + Z.of_nat n * (Lc + Lr) <= c0 + timeout * P + (Lc + Lr).
Proof using HP HLc HLr HL.
  intros Ht Hwrap Hnever. induction fuel as [| fuel IH]; intros c l s0 Hc Hinv Hfuel Hpos.
  - lia.
  - cbn [poll_loop]. unfold bind at 1. rewrite td_ReadStatus. cbn [fst snd not_ok HAL_Status_eqb negb].
    rewrite Hnever. unfold bind at 1. rewrite td_GetTick.
    assert (Hdl : deadline <= c0 + timeout * P).
    { unfold deadline. pose proof (Z.mul_div_le c0 P HP). nia. }
    assert (He : 0 <= (c + Lc + Lr) / P - c0 / P < 4294967296).
    { split.
      - assert (c0 / P <= (c + Lc + Lr) / P) by (apply Z.div_le_mono; lia). lia.
      - replace (c + Lc + Lr) with (c + (Lc + Lr)) by lia.
        pose proof (div_step_bound P c (Lc + Lr) HP).
        destruct Hinv as [-> | Hlt]; [lia |].
        apply (before_deadline P c0 c timeout HP) in Hlt. lia. }
    rewrite (elapsed_no_wrap _ _ He).
    destruct (Z.ltb_spec ((c + Lc + Lr) / P - c0 / P) timeout) as [Hgo | Hstop].
    + apply (before_deadline P c0 _ timeout HP) in Hgo. fold deadline in Hgo.
      destruct (IH (c + Lc + Lr)
                   ((l ++ [EvCommand ReadStatus_cmd HAL_OK; EvReceive [uint8 (sr (c + Lc))] HAL_OK])
                      ++ [EvGetTick (uint32 ((c + Lc + Lr) / P))])
                   (uint8 (sr (c + Lc))))
        as (n & Hn & Hrun & Hlo & Hprev & Hhi).
      * lia.
      * right; exact Hgo.
      * rewrite Nat2Z.inj_succ in Hfuel. lia.
      * destruct fuel; [change (Z.of_nat 1) with 1 in Hfuel; lia | lia].
      * exists (S n).
        replace (c + Z.of_nat (S n) * (Lc + Lr))
          with (c + Lc + Lr + Z.of_nat n * (Lc + Lr)) by (rewrite Nat2Z.inj_succ; lia).
        split; [lia |]. split; [| split; [exact Hlo | split; [| exact Hhi]]].
        -- rewrite Hrun. cbn [td_polls]. repeat rewrite <- app_assoc. reflexivity.
        -- left. destruct Hprev as [Hprev | ->]; [exact Hprev |].
           change (Z.of_nat 1) with 1. lia.
    + assert (Hpast : deadline <= c + Lc + Lr).
      { destruct (Z.lt_ge_cases (c + Lc + Lr) deadline) as [Hlt | Hge]; [| exact Hge].
        apply (before_deadline P c0 _ timeout HP) in Hlt. lia. }
      exists 1%nat. change (Z.of_nat 1) with 1.
      replace (c + 1 * (Lc + Lr)) with (c + Lc + Lr) by lia.
      split; [lia |]. split; [| split; [exact Hpast | split; [right; reflexivity |]]].
      * unfold ret. cbn [td_polls]. rewrite app_nil_r, <- app_assoc. reflexivity.
      * destruct Hinv as [-> | Hlt]; [nia | lia].
Qed.

(** The awaited bit shows from instant [T] on, and the data phase in
    flight at [T] is over before the deadline: the loop leaves with
    [HAL_OK] at the first poll sampled at or after [T]. *)
Lemma td_poll_loop_ok (T : Z) :
  timeout <= 4294967296 ->
  (forall x, x < T -> done (uint8 (sr x)) = false) ->
  (forall x, T <= x -> done (uint8 (sr x)) = true) ->
  T + Lr <= deadline ->
  forall (fuel : nat) (c : Z) (l : list Event) (s0 : Z),
    c0 <= c -> T <= c + Lc + Z.of_nat fuel * (Lc + Lr) ->
    exists c' ev,
      poll_loop done (S fuel) timeout (uint32 (c0 / P)) s0
                (mkWorld (mkTraceDev c P Lc Lr sr) l)
      = Some (HAL_OK, mkWorld (mkTraceDev c' P Lc Lr sr) (l ++ ev)) /\
      T <= c' - Lr /\
      (c' - Lr < T + (Lc + Lr) \/ c' = c + Lc + Lr) /\
      Forall (fun e => handshake_event e = true) ev.
Proof using HP HLc HLr HL.
  intros Ht Hbusy Hclear Hdl.
  induction fuel as [| fuel IH]; intros c l s0 Hc Hfuel;
    rewrite poll_loop_S; unfold bind at 1; rewrite td_ReadStatus;
    cbn [fst snd not_ok HAL_Status_eqb negb];
    destruct (Z.le_gt_cases T (c + Lc)) as [Hnow | Hlater].
  - rewrite (Hclear _ Hnow).
    exists (c + Lc + Lr), [EvCommand ReadStatus_cmd HAL_OK; EvReceive [uint8 (sr (c + Lc))] HAL_OK].
    repeat split; try lia. repeat constructor.
  - change (Z.of_nat 0) with 0 in Hfuel. lia.
  - rewrite (Hclear _ Hnow).
    exists (c + Lc + Lr), [EvCommand ReadStatus_cmd HAL_OK; EvReceive [uint8 (sr (c + Lc))] HAL_OK].
    repeat split; try lia. repeat constructor.
  - rewrite (Hbusy _ Hlater). unfold bind at 1. rewrite td_GetTick.
    assert (Hgo : (c + Lc + Lr) / P - c0 / P < timeout).
    { apply (before_deadline P c0 _ timeout HP). fold deadline. lia. }
    assert (He : 0 <= (c + Lc + Lr) / P - c0 / P < 4294967296).
    { split; [| lia].
      assert (c0 / P <= (c + Lc + Lr) / P) by (apply Z.div_le_mono; lia). lia. }
    rewrite (elapsed_no_wrap _ _ He).
    apply Z.ltb_lt in Hgo. rewrite Hgo.
    destruct (IH (c + Lc + Lr)
                 ((l ++ [EvCommand ReadStatus_cmd HAL_OK; EvReceive [uint8 (sr (c + Lc))] HAL_OK])
                    ++ [EvGetTick (uint32 ((c + Lc + Lr) / P))])
                 (uint8 (sr (c + Lc))))
      as (c' & ev & Hrun & Hlo & Hhi & Hev).
    + lia.
    + rewrite Nat2Z.inj_succ in Hfuel. lia.
    + exists c', ([EvCommand ReadStatus_cmd HAL_OK; EvReceive [uint8 (sr (c + Lc))] HAL_OK]
                  ++ [EvGetTick (uint32 ((c + Lc + Lr) / P))] ++ ev).
      split; [| split; [| split]].
      * rewrite Hrun. repeat rewrite <- app_assoc. reflexivity.
      * exact Hlo.
      * left. lia.
      * repeat constructor. exact Hev.
Qed.

End Trace.


End PollTiming.

(** ** The write-enable handshake gates the mutating commands *)

Section Gating.

Context {D : Type} {hal : HAL D} {hdr : qspi_h}.

Lemma poll_loop_handshake (done : Z -> bool) (fuel : nat) (timeout_ms start sr : Z)
    (w : World D) r w' :
  poll_loop done fuel timeout_ms start sr w = Some (r, w') ->
  exists ev, log w' = log w ++ ev /\ Forall (fun e => handshake_event e = true) ev.
Proof.
  revert sr w. induction fuel as [| fuel IH]; intros sr w.
  - discriminate.
  - rewrite poll_loop_S. unfold bind at 1.
    destruct (QSPI_ReadStatus sr w) as [[rs w1] |] eqn:E1; [| discriminate].
    destruct (ReadStatus_log _ _ _ _ E1) as (rc & tl & Hlog & Htl).
    assert (Hpoll : Forall (fun e => handshake_event e = true)
                           (EvCommand ReadStatus_cmd rc :: tl)).
    { constructor; [reflexivity |].
      destruct Htl as [-> | (buf & r' & ->)]; repeat constructor. }
    destruct (not_ok (fst rs)).
    { intros H; inversion H; subst. eauto. }
    destruct (done (snd rs)).
    { intros H; inversion H; subst. eauto. }
    unfold bind, call_GetTick.
    destruct (HAL_GetTick (dev w1)) as [t d2].
    destruct (uint32 (uint32 t - start) <? timeout_ms).
    + intros H. apply IH in H. destruct H as (ev & Hev & Hall). cbn [log] in Hev.
      exists ((EvCommand ReadStatus_cmd rc :: tl) ++ [EvGetTick (uint32 t)] ++ ev).
      split.
      * rewrite Hev, Hlog. repeat rewrite <- app_assoc. reflexivity.
      * apply Forall_app; split; [exact Hpoll |]. constructor; [reflexivity | exact Hall].
    + intros H; inversion H; subst; cbn [log].
      exists ((EvCommand ReadStatus_cmd rc :: tl) ++ [EvGetTick (uint32 t)]).
      split.
      * rewrite Hlog. repeat rewrite <- app_assoc. reflexivity.
      * apply Forall_app; split; [exact Hpoll |]. repeat constructor.
Qed.

Lemma WaitWhileBusy_handshake (fuel : nat) (timeout_ms : Z) (w : World D) r w' :
  QSPI_WaitWhileBusy fuel timeout_ms w = Some (r, w') ->
  exists ev, log w' = log w ++ ev /\ Forall (fun e => handshake_event e = true) ev.
Proof.
  unfold QSPI_WaitWhileBusy, bind, call_GetTick.
  destruct (HAL_GetTick (dev w)) as [t d1]. rewrite WaitWhileBusy_loop_poll.
  intros H. apply poll_loop_handshake in H. destruct H as (ev & Hev & Hall).
  cbn [log] in Hev. exists (EvGetTick (uint32 t) :: ev). split.
  - rewrite Hev, <- app_assoc. reflexivity.
  - constructor; [reflexivity | exact Hall].
Qed.

Lemma WriteEnable_handshake (fuel : nat) (w : World D) r w' :
  QSPI_WriteEnable fuel w = Some (r, w') ->
  exists ev, log w' = log w ++ ev /\ Forall (fun e => handshake_event e = true) ev.
Proof.
  unfold QSPI_WriteEnable, bind, QSPI_SendSimple, call_Command.
  destruct (HAL_QSPI_Command (SendSimple_cmd CMD_WRITE_ENABLE) QSPI_TIMEOUT (dev w)) as [rc d1].
  destruct (not_ok rc).
  - intros H; inversion H; subst; cbn [log]. eexists; split; [reflexivity |].
    repeat constructor.
  - unfold call_GetTick; cbn [dev log].
    destruct (HAL_GetTick d1) as [t d2]. rewrite WriteEnable_loop_poll.
    intros H. apply poll_loop_handshake in H. destruct H as (ev & Hev & Hall).
    cbn [log] in Hev.
    exists (EvCommand (SendSimple_cmd CMD_WRITE_ENABLE) rc :: EvGetTick (uint32 t) :: ev).
    split.
    + rewrite Hev. repeat rewrite <- app_assoc. reflexivity.
    + repeat constructor. exact Hall.
Qed.

Lemma handshake_no_addressed_command (ev : list Event) c r :
  Forall (fun e => handshake_event e = true) ev ->
  AddressMode c = QSPI_ADDRESS_1_LINE ->
  ~ In (EvCommand c r) ev.
Proof.
  intros Hall Hc Hin. rewrite Forall_forall in Hall. apply Hall in Hin.
  cbn in Hin. rewrite Hc in Hin. discriminate.
Qed.

Lemma handshake_no_transmit (ev : list Event) d r :
  Forall (fun e => handshake_event e = true) ev ->
  ~ In (EvTransmit d r) ev.
Proof.
  intros Hall Hin. rewrite Forall_forall in Hall. apply Hall in Hin. discriminate.
Qed.

Lemma not_ok_true (r : HAL_StatusTypeDef) : r <> HAL_OK -> not_ok r = true.
Proof. destruct r; intros H; try reflexivity. now elim H. Qed.

Lemma not_ok_false (r : HAL_StatusTypeDef) : not_ok r = false -> r = HAL_OK.
Proof. destruct r; cbn; intros H; try discriminate. reflexivity. Qed.

Lemma page_size_guard (size : Z) :
  size <> 0 -> size <= TEST_PAGE_SIZE -> (size =? 0) || (TEST_PAGE_SIZE <? size) = false.
Proof.
  intros H0 H1. apply orb_false_iff. split; [now apply Z.eqb_neq | now apply Z.ltb_ge].
Qed.

(** C6, in the form the code satisfies: when the write-enable handshake inside
    enable-4-byte-addressing, erase or page program does not return
    [HAL_OK] (a WEL-latch deadline exceeded, [HAL_TIMEOUT], included), the
    operation stops there and hands its caller the generic [HAL_ERROR]. *)
Theorem WriteEnable_failure_becomes_error
    (fuel : nat) (w : World D) (r : HAL_StatusTypeDef) (w' : World D)
    (addr : Z) (data : list Z) (size : Z) :
  QSPI_WriteEnable fuel w = Some (r, w') ->
  r <> HAL_OK ->
  size <> 0 -> size <= TEST_PAGE_SIZE ->
  QSPI_Enable4ByteAddressing fuel w = Some (HAL_ERROR, w') /\
  QSPI_Erase4K_4B fuel addr w = Some (HAL_ERROR, w') /\
  QSPI_PageProgram_4B fuel addr data size w = Some (HAL_ERROR, w').
Proof.
  intros Hwe Hr H0 H1. apply not_ok_true in Hr.
  unfold QSPI_Enable4ByteAddressing, QSPI_Erase4K_4B, QSPI_PageProgram_4B.
  rewrite (page_size_guard size H0 H1). unfold bind. rewrite Hwe, Hr.
  repeat split.
Qed.

End Gating.

(** C4: against a status trace in which WEL is clear at every instant
    (clock with [P] units to the tick, command phase [Lc], data phase
    [Lr]), with enough fuel the write-enable handshake returns
    [HAL_TIMEOUT] after its bounded poll: it sends the write-enable
    command, reads the tick, and makes [n >= 1] status polls one after the
    other, each followed by a tick read; it stops at the first tick reading
    at or past the deadline of [QSPI_TIMEOUT] ticks, not before, and at
    most [QSPI_TIMEOUT] ticks plus one poll after its loop was entered.
    The erase and the page program issued in that situation return
    [HAL_ERROR] from the same final world, and what they added to the log
    holds neither their erase or program command nor a transmit. *)
Theorem WriteEnable_never_latches {hdr : qspi_h}
    (P Lc Lr c0 : Z) (sr : Z -> Z) (l : list Event)
    (addr : Z) (data : list Z) (size : Z) :
  0 < P -> 0 <= Lc -> 0 <= Lr -> 0 < Lc + Lr ->
  0 <= QSPI_TIMEOUT -> QSPI_TIMEOUT + (Lc + Lr) / P + 1 < 4294967296 ->
  (forall x : Z, Z.land (sr x) SR_WEL_MASK = 0) ->
  exists fuel0 : nat, forall fuel : nat, (fuel0 <= fuel)%nat ->
    exists c' ev,
      let w := mkWorld (mkTraceDev c0 P Lc Lr sr) l in
      let w' := mkWorld (mkTraceDev c' P Lc Lr sr) (l ++ ev) in
      QSPI_WriteEnable fuel w = Some (HAL_TIMEOUT, w') /\
      c' - (c0 + Lc) <= QSPI_TIMEOUT * P + (Lc + Lr) /\
      QSPI_Erase4K_4B fuel addr w = Some (HAL_ERROR, w') /\
      (QSPI_PageProgram_4B fuel addr data size w = Some (HAL_ERROR, w') \/
       QSPI_PageProgram_4B fuel addr data size w = Some (HAL_ERROR, w)) /\
      (forall r, ~ In (EvCommand (Erase4K_cmd addr) r) ev) /\
      (forall r, ~ In (EvCommand (PageProgram_cmd addr size) r) ev) /\
      (forall d r, ~ In (EvTransmit d r) ev) /\
      (exists n : nat,
          (1 <= n)%nat /\
          ev = EvCommand (SendSimple_cmd CMD_WRITE_ENABLE) HAL_OK
                 :: EvGetTick (uint32 ((c0 + Lc) / P))
                 :: td_polls P Lc Lr sr n (c0 + Lc) /\
          c' = c0 + Lc + Z.of_nat n * (Lc + Lr) /\
          ((c0 + Lc) / P + QSPI_TIMEOUT) * P <= c' /\
          (c' - (Lc + Lr) < ((c0 + Lc) / P + QSPI_TIMEOUT) * P \/ n = 1%nat)).
Proof.
  intros HP HLc HLr HL Ht Hwrap Hwel.
  exists (S (Z.to_nat (QSPI_TIMEOUT * P))). intros fuel Hfuel.
  assert (Hwe : exists n : nat,
             (1 <= n)%nat /\
             QSPI_WriteEnable fuel (mkWorld (mkTraceDev c0 P Lc Lr sr) l)
             = Some (HAL_TIMEOUT,
                     mkWorld (mkTraceDev (c0 + Lc + Z.of_nat n * (Lc + Lr)) P Lc Lr sr)
                             (l ++ EvCommand (SendSimple_cmd CMD_WRITE_ENABLE) HAL_OK
                                     :: EvGetTick (uint32 ((c0 + Lc) / P))
                                     :: td_polls P Lc Lr sr n (c0 + Lc))) /\
             ((c0 + Lc) / P + QSPI_TIMEOUT) * P <= c0 + Lc + Z.of_nat n * (Lc + Lr) /\
             (c0 + Lc + Z.of_nat n * (Lc + Lr) - (Lc + Lr)
              < ((c0 + Lc) / P + QSPI_TIMEOUT) * P \/ n = 1%nat) /\
             c0 + Lc + Z.of_nat n * (Lc + Lr) <= c0 + Lc + QSPI_TIMEOUT * P + (Lc + Lr)).
  { unfold QSPI_WriteEnable, bind. rewrite td_SendSimple.
    cbn [not_ok HAL_Status_eqb negb]. rewrite td_GetTick, WriteEnable_loop_poll.
    destruct (td_poll_loop_timeout_log P Lc Lr (c0 + Lc) QSPI_TIMEOUT sr wel_set HP HLc HLr HL)
      with (fuel := fuel) (c := c0 + Lc)
           (l := (l ++ [EvCommand (SendSimple_cmd CMD_WRITE_ENABLE) HAL_OK])
                   ++ [EvGetTick (uint32 ((c0 + Lc) / P))])
           (s0 := 0)
      as (n & Hn & Hrun & Hlo & Hprev & Hhi).
    - exact Ht.
    - exact Hwrap.
    - intros x. unfold wel_set. rewrite land_uint8_WEL, Hwel. reflexivity.
    - lia.
    - left; reflexivity.
    - pose proof (Z.mul_div_le (c0 + Lc) P HP). nia.
    - lia.
    - exists n. split; [exact Hn |]. rewrite Hrun.
      split; [| split; [exact Hlo | split; [exact Hprev | exact Hhi]]].
      repeat rewrite <- app_assoc. reflexivity. }
  destruct Hwe as (n & Hn & Hrun & Hlo & Hprev & Hhi).
  assert (Hev : Forall (fun e => handshake_event e = true)
                  (EvCommand (SendSimple_cmd CMD_WRITE_ENABLE) HAL_OK
                     :: EvGetTick (uint32 ((c0 + Lc) / P))
                     :: td_polls P Lc Lr sr n (c0 + Lc))).
  { repeat constructor. clear. generalize (c0 + Lc). induction n as [| n IH]; intros c.
    - constructor.
    - cbn [td_polls app]. repeat constructor. apply IH. }
  exists (c0 + Lc + Z.of_nat n * (Lc + Lr)),
         (EvCommand (SendSimple_cmd CMD_WRITE_ENABLE) HAL_OK
            :: EvGetTick (uint32 ((c0 + Lc) / P))
            :: td_polls P Lc Lr sr n (c0 + Lc)).
  cbv zeta.
  split; [exact Hrun |]. split; [lia |].
  assert (Hne : HAL_TIMEOUT <> HAL_OK) by discriminate.
  split; [| split; [| split; [| split; [| split]]]].
  - unfold QSPI_Erase4K_4B, bind. rewrite Hrun. reflexivity.
  - unfold QSPI_PageProgram_4B.
    destruct ((size =? 0) || (TEST_PAGE_SIZE <? size)).
    + right. reflexivity.
    + left. unfold bind. rewrite Hrun. reflexivity.
  - intros r. apply handshake_no_addressed_command; [exact Hev | reflexivity].
  - intros r. apply handshake_no_addressed_command; [exact Hev | reflexivity].
  - intros d r. apply handshake_no_transmit. exact Hev.
  - exists n. repeat split; assumption.
Qed.

(** ** The claims at concrete inputs *)

(** C10 at timeout 0 on the idle simulated flash: the first status read
    reports WIP clear and the wait returns [HAL_OK]. *)
Lemma WaitWhileBusy_first_poll_witness :
  exists w2,
    QSPI_WaitWhileBusy (hdr := MT25Q_header) 1 0 (mkWorld flash_erased [])
    = Some (HAL_OK, w2).
Proof.
  eexists.
  refine (proj2 (proj2 (WaitWhileBusy_first_poll (hdr := MT25Q_header)
                          0 0 (mkWorld flash_erased []) _ _ HAL_OK 0 _ _ _)) _ _);
    reflexivity.
Defined.

(** C1 on the erased simulated flash: a 2-byte program at 0x10FF runs over
    the page boundary at 0x1100, is accepted, put on the bus and returns
    [HAL_OK]; the second byte wraps to the start of the page. *)
Lemma PageProgram_accepts_page_crossing_write :
  crosses_page_boundary 0x10FF 2 = true /\
  match QSPI_PageProgram_4B (hdr := MT25Q_header) 4 0x10FF [0xAA; 0x55] 2
                            (mkWorld flash_erased []) with
  | Some (r, w') =>
      r = HAL_OK /\
      addressed_commands (log w') = [PageProgram_cmd (hdr := MT25Q_header) 0x10FF 2] /\
      transmits (log w') = [[0xAA; 0x55]] /\
      fs_mem (dev w') 0x10FF = 0xAA /\
      fs_mem (dev w') 0x1000 = 0x55 /\
      fs_mem (dev w') 0x1100 = 0xFF
  | None => False
  end.
Proof. vm_compute. repeat split. Qed.



(** C4 on a device whose status register always reads 0: the handshake
    sends the write-enable command and polls at least once before it
    returns [HAL_TIMEOUT], and the erase issues no erase command. *)
Lemma WriteEnable_never_latches_witness :
  exists fuel0 : nat, forall fuel : nat, (fuel0 <= fuel)%nat ->
    exists c' ev,
      QSPI_WriteEnable (hdr := MT25Q_header) fuel (mkWorld wel_stuck_dev [])
      = Some (HAL_TIMEOUT, mkWorld (mkTraceDev c' 1 25 25 (fun _ => 0)) ([] ++ ev)) /\
      QSPI_Erase4K_4B (hdr := MT25Q_header) fuel TEST_ADDR (mkWorld wel_stuck_dev [])
      = Some (HAL_ERROR, mkWorld (mkTraceDev c' 1 25 25 (fun _ => 0)) ([] ++ ev)) /\
      (forall r, ~ In (EvCommand (Erase4K_cmd (hdr := MT25Q_header) TEST_ADDR) r) ev) /\
      (forall d r, ~ In (EvTransmit d r) ev) /\
      (exists n : nat,
          (1 <= n)%nat /\
          ev = EvCommand (SendSimple_cmd 0x06) HAL_OK
                 :: EvGetTick 25
                 :: td_polls (hdr := MT25Q_header) 1 25 25 (fun _ => 0) n 25 /\
          125 <= c').
Proof.
  destruct (WriteEnable_never_latches (hdr := MT25Q_header)
              1 25 25 0 (fun _ => 0) [] TEST_ADDR [1] 1) as [fuel0 H].
  - lia.
  - lia.
  - lia.
  - lia.
  - vm_compute. discriminate.
  - vm_compute. reflexivity.
  - intros x. reflexivity.
  - exists fuel0. intros fuel Hfuel.
    destruct (H fuel Hfuel)
      as (c' & ev & Hwe & _ & Her & _ & Hne & _ & Hnt & n & Hn & Hev & _ & Hlo & _).
    exists c', ev. split; [exact Hwe |]. split; [exact Her |].
    split; [exact Hne |]. split; [exact Hnt |].
    exists n. split; [exact Hn |]. split; [exact Hev | exact Hlo].
Defined.

(** C6 does not hold as the specification words it: on the device whose WEL
    never latches the
    handshake reports [HAL_TIMEOUT], and each of the three operations
    reports [HAL_ERROR] to its caller. *)
Lemma WriteEnable_timeout_not_surfaced :
  option_map fst (QSPI_WriteEnable (hdr := MT25Q_header) 4 (mkWorld wel_stuck_dev []))
  = Some HAL_TIMEOUT /\
  option_map fst (QSPI_Enable4ByteAddressing (hdr := MT25Q_header) 4 (mkWorld wel_stuck_dev []))
  = Some HAL_ERROR /\
  option_map fst (QSPI_Erase4K_4B (hdr := MT25Q_header) 4 TEST_ADDR (mkWorld wel_stuck_dev []))
  = Some HAL_ERROR /\
  option_map fst (QSPI_PageProgram_4B (hdr := MT25Q_header) 4 TEST_ADDR [0xA5] 1
                                      (mkWorld wel_stuck_dev []))
  = Some HAL_ERROR.
Proof. vm_compute. repeat split. Qed.

(** The theorem of C6 on the same device. *)
Lemma WriteEnable_failure_becomes_error_witness :
  exists w',
    QSPI_WriteEnable (hdr := MT25Q_header) 4 (mkWorld wel_stuck_dev [])
    = Some (HAL_TIMEOUT, w') /\
    QSPI_Enable4ByteAddressing (hdr := MT25Q_header) 4 (mkWorld wel_stuck_dev [])
    = Some (HAL_ERROR, w') /\
    QSPI_Erase4K_4B (hdr := MT25Q_header) 4 TEST_ADDR (mkWorld wel_stuck_dev [])
    = Some (HAL_ERROR, w') /\
    QSPI_PageProgram_4B (hdr := MT25Q_header) 4 TEST_ADDR [0xA5] 1 (mkWorld wel_stuck_dev [])
    = Some (HAL_ERROR, w').
Proof.
  eexists. split; [lazy; reflexivity |].
  apply (WriteEnable_failure_becomes_error (hdr := MT25Q_header)
           4 (mkWorld wel_stuck_dev []) HAL_TIMEOUT _ TEST_ADDR [0xA5] 1).
  - lazy; reflexivity.
  - discriminate.
  - discriminate.
  - vm_compute. discriminate.
Defined.

(** ** The self-test is fail-fast *)

Section FailFast.

Context {D : Type} {hal : HAL D} {hdr : qspi_h}.

Ltac split_matches :=
  repeat (cbv beta iota;
          match goal with
          | |- context [match ?x with _ => _ end] =>
              lazymatch x with
              | context [match _ with _ => _ end] => fail
              | _ => destruct x
              end
          end);
  try reflexivity.

(** The body of [MT25Q_RunSelfTest] after its banner is the fail-fast run
    of the nine steps. *)
Lemma RunSelfTest_as_steps (fuel : nat) (w : World D) :
  MT25Q_RunSelfTest fuel w
  = bind (run_steps (selftest_steps fuel)) (fun _ => ret tt)
         (emit (EvPrintf MsgSelfTestStart) w).
Proof.
  unfold MT25Q_RunSelfTest, selftest_steps, run_steps, step_reset, step_identify,
    step_addressing, step_erase, step_verify_erased, step_program, step_program_wait,
    step_verify_programmed, step_report, stop_with.
  unfold bind, ret, printf, call_Delay.
  split_matches.
Qed.

Lemma run_steps_halts (pre post : list (M (D := D) bool)) (s : M bool)
    (w wk wf : World D) :
  run_steps pre w = Some (true, wk) ->
  s wk = Some (false, wf) ->
  run_steps (pre ++ s :: post) w = Some (false, wf).
Proof.
  revert w. induction pre as [| a pre IH]; intros w Hpre Hs; cbn [run_steps app] in *.
  - unfold ret in Hpre. inversion Hpre; subst. unfold bind. rewrite Hs. reflexivity.
  - unfold bind in *. destruct (a w) as [[ok w1] |]; [| discriminate].
    destruct ok; [now apply IH | discriminate].
Qed.

Lemma store_rx_length (old data : list Z) : length (store_rx old data) = length old.
Proof.
  unfold store_rx. rewrite length_app, length_map, length_firstn, length_skipn. lia.
Qed.

(** A command phase followed by a receive, the shape of [QSPI_ReadID] and
    [QSPI_Read_4B]. *)
Lemma command_receive_shape (c : QSPI_CommandTypeDef) (buf : list Z) (w : World D)
    r buf' w' :
  bind (call_Command c QSPI_TIMEOUT)
       (fun rc => if not_ok rc then ret (HAL_ERROR, buf) else call_Receive buf QSPI_TIMEOUT) w
  = Some ((r, buf'), w') ->
  (r = HAL_OK /\ length buf' = length buf /\
   log w' = log w ++ [EvCommand c HAL_OK; EvReceive buf' HAL_OK]) \/
  (r <> HAL_OK /\ exists ev, failed_read c ev /\ log w' = log w ++ ev).
Proof.
  unfold bind, call_Command, call_Receive, ret.
  destruct (HAL_QSPI_Command c QSPI_TIMEOUT (dev w)) as [rc d1].
  destruct (not_ok rc) eqn:Hrc.
  - intros H; inversion H; subst; cbn [log]. right. split; [discriminate |].
    exists [EvCommand c rc]. split; [| reflexivity].
    left. exists rc. split; [| reflexivity]. intros ->. discriminate.
  - apply not_ok_false in Hrc. subst rc. cbn [dev log].
    destruct (HAL_QSPI_Receive QSPI_TIMEOUT d1) as [[rr data] d2].
    intros H; inversion H; subst; cbn [log].
    destruct (not_ok r) eqn:Hr.
    + right. split; [intros ->; discriminate |].
      exists [EvCommand c HAL_OK; EvReceive (store_rx buf data) r].
      split; [| now rewrite <- app_assoc].
      right. exists (store_rx buf data), r. split; [intros ->; discriminate | reflexivity].
    + apply not_ok_false in Hr. subst r. left.
      split; [reflexivity |]. split; [apply store_rx_length | now rewrite <- app_assoc].
Qed.

Lemma step_reset_passed (w w1 : World D) :
  step_reset w = Some (true, w1) -> log w1 = log w ++ tl log_reset.
Proof.
  unfold step_reset, stop_with, bind, QSPI_SendSimple, call_Command, call_Delay, printf, ret.
  destruct (HAL_QSPI_Command (SendSimple_cmd CMD_RESET_ENABLE) QSPI_TIMEOUT (dev w)) as [r1 d1].
  destruct (not_ok r1) eqn:H1; [discriminate |]. cbn [dev log].
  destruct (HAL_QSPI_Command (SendSimple_cmd CMD_RESET_MEMORY) QSPI_TIMEOUT d1) as [r2 d2].
  destruct (not_ok r2) eqn:H2; [discriminate |]. cbn [dev log].
  apply not_ok_false in H1, H2. subst. intros H; inversion H; subst; cbn [log log_reset tl].
  repeat rewrite <- app_assoc. reflexivity.
Qed.

Lemma failed_read_not_addressed (c : QSPI_CommandTypeDef) (ev : list Event) :
  failed_read c ev -> AddressMode c = QSPI_ADDRESS_NONE ->
  addressed_commands ev = [] /\ transmits ev = [].
Proof.
  intros [(r & _ & ->) | (buf & r & _ & ->)] Hc; cbn; rewrite Hc; split; reflexivity.
Qed.

(** C7: the self-test is the banner followed by the fail-fast run of its
    nine steps: whenever the steps before some step [s] all pass and [s]
    does not, the self-test ends in the world [s] left, whatever the
    later steps are.  In particular, when the reset passes and the
    identity read returns a status other than [HAL_OK], the self-test ends
    right after reporting it; what it added to the log is the reset, the
    failed identity transaction and the report, with no addressed command
    (erase, program, read) and no transmit. *)
Theorem selftest_fail_fast (fuel : nat) (w : World D) :
  (forall (pre post : list (M bool)) (s : M bool) (wk wf : World D),
      selftest_steps fuel = pre ++ s :: post ->
      run_steps pre (emit (EvPrintf MsgSelfTestStart) w) = Some (true, wk) ->
      s wk = Some (false, wf) ->
      MT25Q_RunSelfTest fuel w = Some (tt, wf)) /\
  (forall (w1 : World D) (r : HAL_StatusTypeDef) (id : list Z) (w2 : World D),
      step_reset (emit (EvPrintf MsgSelfTestStart) w) = Some (true, w1) ->
      QSPI_ReadID [0; 0; 0] w1 = Some ((r, id), w2) ->
      r <> HAL_OK ->
      exists ev,
        MT25Q_RunSelfTest fuel w
        = Some (tt, mkWorld (dev w2)
                            (log w ++ log_reset ++ ev ++ [EvPrintf MsgReadIdFailed])) /\
        failed_read ReadID_cmd ev /\
        addressed_commands (log_reset ++ ev ++ [EvPrintf MsgReadIdFailed]) = [] /\
        transmits (log_reset ++ ev ++ [EvPrintf MsgReadIdFailed]) = []).
Proof.
  split.
  - intros pre post s wk wf Hsteps Hpre Hs.
    rewrite RunSelfTest_as_steps, Hsteps. unfold bind.
    rewrite (run_steps_halts pre post s _ wk wf Hpre Hs). reflexivity.
  - intros w1 r id w2 Hreset Hid Hr.
    pose proof (step_reset_passed _ _ Hreset) as Hlog1. cbn [emit log] in Hlog1.
    destruct (command_receive_shape _ _ _ _ _ _ Hid) as [(Hok & _) | (_ & ev & Hev & Hlog2)];
      [contradiction |].
    exists ev. split; [| split; [exact Hev |]].
    + rewrite RunSelfTest_as_steps.
      unfold selftest_steps, run_steps, bind. rewrite Hreset.
      unfold step_identify, bind. rewrite Hid. cbn [fst snd].
      rewrite (not_ok_true r Hr). unfold stop_with, bind, printf, ret, emit.
      rewrite Hlog2, Hlog1. cbn [log_reset tl]. repeat rewrite <- app_assoc. reflexivity.
    + destruct (failed_read_not_addressed _ _ Hev eq_refl) as [Ha Ht].
      unfold addressed_commands, transmits in *.
      repeat rewrite flat_map_app. rewrite Ha, Ht. split; reflexivity.
Qed.

End FailFast.

(** C7 on the simulated flash behind a bus that faults on the
    read-identity opcode: step 1 passes, step 2 does not, and the run ends
    there with the report of the failed identity read as its last event. *)
Lemma selftest_fail_fast_witness :
  (exists wf,
      MT25Q_RunSelfTest (hdr := MT25Q_header) 8 (mkWorld flash_id_fault []) = Some (tt, wf) /\
      reports (log wf) = [MsgSelfTestStart; MsgReadIdFailed]) /\
  (exists w2 ev,
      MT25Q_RunSelfTest (hdr := MT25Q_header) 8 (mkWorld flash_id_fault [])
      = Some (tt, mkWorld (dev w2)
                          ([] ++ log_reset (hdr := MT25Q_header) ++ ev
                              ++ [EvPrintf MsgReadIdFailed])) /\
      failed_read (ReadID_cmd (hdr := MT25Q_header)) ev /\
      transmits (log_reset (hdr := MT25Q_header) ++ ev ++ [EvPrintf MsgReadIdFailed]) = []).
Proof.
  split.
  - eexists. split.
    + eapply (proj1 (selftest_fail_fast (hdr := MT25Q_header) 8 (mkWorld flash_id_fault []))
                [step_reset] _ step_identify).
      * reflexivity.
      * lazy; reflexivity.
      * lazy; reflexivity.
    + vm_compute. reflexivity.
  - edestruct (proj2 (selftest_fail_fast (hdr := MT25Q_header) 8 (mkWorld flash_id_fault [])))
      as (ev & Hrun & Hev & _ & Ht).
    + lazy; reflexivity.
    + lazy; reflexivity.
    + discriminate.
    + eexists. exists ev. split; [exact Hrun |]. split; [exact Hev | exact Ht].
Defined.

(** ** The shape of the self-test's log *)

(** Equality of two logs up to the bracketing of [++]. *)
Ltac list_eq := repeat rewrite <- app_assoc; cbn [app]; reflexivity.

Section LogShape.

Context {D : Type} {hal : HAL D} {hdr : qspi_h}.

Lemma halted_eq (l l' : list Event) : halted l -> l = l' -> halted l'.
Proof. intros H <-. exact H. Qed.

Lemma quiet_app (a b : list Event) : quiet a -> quiet b -> quiet (a ++ b).
Proof. intros Ha Hb. apply Forall_app. split; assumption. Qed.

Lemma Enable4ByteAddressing_quiet (fuel : nat) (w : World D) r w' :
  QSPI_Enable4ByteAddressing fuel w = Some (r, w') ->
  exists ev, quiet ev /\ log w' = log w ++ ev.
Proof.
  unfold QSPI_Enable4ByteAddressing, bind.
  destruct (QSPI_WriteEnable fuel w) as [[r1 w1] |] eqn:E; [| discriminate].
  apply WriteEnable_handshake in E. destruct E as (ev & Hlog & Hq).
  destruct (not_ok r1).
  - intros H; inversion H; subst. eauto.
  - unfold QSPI_SendSimple, call_Command, ret.
    destruct (HAL_QSPI_Command (SendSimple_cmd CMD_ENABLE_4BYTE_ADDR) QSPI_TIMEOUT (dev w1))
      as [rc d2].
    assert (Hq' : quiet (ev ++ [EvCommand (SendSimple_cmd CMD_ENABLE_4BYTE_ADDR) rc])).
    { apply quiet_app; [exact Hq | repeat constructor]. }
    destruct (not_ok rc); intros H; inversion H; subst; cbn [log];
      eexists; (split; [exact Hq' | rewrite Hlog; list_eq]).
Qed.

Lemma Erase4K_shape (fuel : nat) (addr : Z) (w : World D) r w' :
  QSPI_Erase4K_4B fuel addr w = Some (r, w') ->
  exists ev, quiet ev /\
    ((r = HAL_OK /\ log w' = log w ++ ev ++ [EvCommand (Erase4K_cmd addr) HAL_OK]) \/
     (r <> HAL_OK /\ exists tl,
         (tl = [] \/ exists rc, rc <> HAL_OK /\ tl = [EvCommand (Erase4K_cmd addr) rc]) /\
         log w' = log w ++ ev ++ tl)).
Proof.
  unfold QSPI_Erase4K_4B, bind.
  destruct (QSPI_WriteEnable fuel w) as [[r1 w1] |] eqn:E; [| discriminate].
  apply WriteEnable_handshake in E. destruct E as (ev & Hlog & Hq).
  intros Hrun. exists ev. split; [exact Hq |]. revert Hrun.
  destruct (not_ok r1).
  - intros H; inversion H; subst. right. split; [discriminate |].
    exists []. split; [now left | rewrite Hlog; now rewrite app_nil_r].
  - unfold call_Command.
    destruct (HAL_QSPI_Command (Erase4K_cmd addr) QSPI_TIMEOUT (dev w1)) as [rc d2].
    intros H; inversion H; subst; cbn [log]. rewrite Hlog.
    destruct (not_ok r) eqn:Hr.
    + right. split; [intros ->; discriminate |].
      exists [EvCommand (Erase4K_cmd addr) r]. split; [| list_eq].
      right. exists r. split; [intros ->; discriminate | reflexivity].
    + apply not_ok_false in Hr. subst r. left. split; [reflexivity | list_eq].
Qed.

Lemma PageProgram_shape (fuel : nat) (addr : Z) (data : list Z) (size : Z) (w : World D) r w' :
  size <> 0 -> size <= TEST_PAGE_SIZE ->
  QSPI_PageProgram_4B fuel addr data size w = Some (r, w') ->
  let c := PageProgram_cmd addr size in
  let payload := firstn (Z.to_nat size) data in
  exists ev, quiet ev /\
    ((r = HAL_OK /\ log w' = log w ++ ev ++ [EvCommand c HAL_OK; EvTransmit payload HAL_OK]) \/
     (r <> HAL_OK /\ exists tl,
         (tl = [] \/
          (exists rc, rc <> HAL_OK /\ tl = [EvCommand c rc]) \/
          (exists rt, rt <> HAL_OK /\ tl = [EvCommand c HAL_OK; EvTransmit payload rt])) /\
         log w' = log w ++ ev ++ tl)).
Proof.
  intros H0 H1. unfold QSPI_PageProgram_4B. rewrite (page_size_guard size H0 H1).
  unfold bind.
  destruct (QSPI_WriteEnable fuel w) as [[r1 w1] |] eqn:E; [| discriminate].
  apply WriteEnable_handshake in E. destruct E as (ev & Hlog & Hq).
  intros H. cbv zeta. exists ev. split; [exact Hq |]. revert H.
  destruct (not_ok r1).
  - intros H; inversion H; subst. right. split; [discriminate |].
    exists []. split; [now left | rewrite Hlog; now rewrite app_nil_r].
  - unfold call_Command.
    destruct (HAL_QSPI_Command (PageProgram_cmd addr size) QSPI_TIMEOUT (dev w1)) as [rc d2].
    destruct (not_ok rc) eqn:Hrc; cbn [dev log].
    + intros H; inversion H; subst; cbn [log]. right. split; [discriminate |].
      exists [EvCommand (PageProgram_cmd addr size) rc]. rewrite Hlog. split; [| list_eq].
      right; left. exists rc. split; [intros ->; discriminate | reflexivity].
    + apply not_ok_false in Hrc. subst rc. unfold call_Transmit; cbn [dev log].
      destruct (HAL_QSPI_Transmit (firstn (Z.to_nat size) data) QSPI_TIMEOUT d2) as [rt d3].
      intros H; inversion H; subst; cbn [log]. rewrite Hlog.
      destruct (not_ok r) eqn:Hr.
      * right. split; [intros ->; discriminate |].
        eexists. split; [| list_eq].
        right; right. exists r. split; [intros ->; discriminate | reflexivity].
      * apply not_ok_false in Hr. subst r. left. split; [reflexivity | list_eq].
Qed.

(** The scanning loops of the two verifications. *)
Lemma erase_verify_scan_None (n : nat) (i : Z) (buf : list Z) :
  erase_verify_scan n i buf = None ->
  forall j, i <= j < i + Z.of_nat n -> byte_at buf j = 0xFF.
Proof.
  revert i. induction n as [| n IH]; intros i Hscan j Hj; [lia |].
  cbn [erase_verify_scan] in Hscan.
  destruct (Z.eqb_spec (byte_at buf i) 0xFF) as [Heq | Hne]; cbn [negb] in Hscan;
    [| discriminate].
  destruct (Z.eq_dec j i) as [-> | Hji]; [exact Heq |].
  apply (IH (i + 1) Hscan). lia.
Qed.

Lemma erase_verify_scan_Some (n : nat) (i : Z) (buf : list Z) (k b : Z) :
  erase_verify_scan n i buf = Some (k, b) ->
  i <= k < i + Z.of_nat n /\ byte_at buf k = b /\ b <> 0xFF /\
  forall j, i <= j < k -> byte_at buf j = 0xFF.
Proof.
  revert i. induction n as [| n IH]; intros i Hscan; [discriminate |].
  cbn [erase_verify_scan] in Hscan.
  destruct (Z.eqb_spec (byte_at buf i) 0xFF) as [Heq | Hne]; cbn [negb] in Hscan.
  - destruct (IH (i + 1) Hscan) as (Hk & Hb & Hne & Hpre).
    split; [lia |]. split; [exact Hb |]. split; [exact Hne |].
    intros j Hj. destruct (Z.eq_dec j i) as [-> | Hji]; [exact Heq | apply Hpre; lia].
  - inversion Hscan; subst. split; [lia |]. split; [reflexivity |]. split; [exact Hne |].
    intros j Hj. lia.
Qed.

Lemma memcmp_from_0 (n : nat) (i : Z) (a b : list Z) :
  memcmp_from n i a b = 0 ->
  forall j, i <= j < i + Z.of_nat n -> byte_at a j = byte_at b j.
Proof.
  revert i. induction n as [| n IH]; intros i Hcmp j Hj; [lia |].
  cbn [memcmp_from] in Hcmp.
  destruct (Z.eqb_spec (byte_at a i) (byte_at b i)) as [Heq | Hne]; [| lia].
  destruct (Z.eq_dec j i) as [-> | Hji]; [exact Heq |].
  apply (IH (i + 1) Hcmp). lia.
Qed.

Lemma first_mismatch_Some (n : nat) (i : Z) (a b : list Z) (k x y : Z) :
  first_mismatch n i a b = Some (k, x, y) ->
  i <= k < i + Z.of_nat n /\ x = byte_at a k /\ y = byte_at b k /\ x <> y /\
  forall j, i <= j < k -> byte_at a j = byte_at b j.
Proof.
  revert i. induction n as [| n IH]; intros i Hm; [discriminate |].
  cbn [first_mismatch] in Hm.
  destruct (Z.eqb_spec (byte_at a i) (byte_at b i)) as [Heq | Hne]; cbn [negb] in Hm.
  - destruct (IH (i + 1) Hm) as (Hk & Hx & Hy & Hxy & Hpre).
    split; [lia |]. split; [exact Hx |]. split; [exact Hy |]. split; [exact Hxy |].
    intros j Hj. destruct (Z.eq_dec j i) as [-> | Hji]; [exact Heq | apply Hpre; lia].
  - inversion Hm; subst.
    split; [lia |]. split; [reflexivity |]. split; [reflexivity |]. split; [exact Hne |].
    intros j Hj. lia.
Qed.

Lemma first_mismatch_None (n : nat) (i : Z) (a b : list Z) :
  first_mismatch n i a b = None -> memcmp_from n i a b = 0.
Proof.
  revert i. induction n as [| n IH]; intros i Hm; [reflexivity |].
  cbn [first_mismatch memcmp_from] in *.
  destruct (byte_at a i =? byte_at b i); cbn [negb] in Hm; [now apply IH | discriminate].
Qed.

Lemma fill_pattern_length (n : nat) (i : Z) : length (fill_pattern n i) = n.
Proof. revert i. induction n as [| n IH]; intros i; cbn; [reflexivity | now rewrite IH]. Qed.

Lemma same_bytes_eq (a b : list Z) (n : nat) :
  length a = n -> length b = n ->
  (forall j, 0 <= j < Z.of_nat n -> byte_at a j = byte_at b j) ->
  a = b.
Proof.
  intros Ha Hb Hnth. apply (nth_ext a b 0 0); [congruence |].
  intros k Hk. specialize (Hnth (Z.of_nat k)). unfold byte_at in Hnth.
  rewrite Nat2Z.id in Hnth. apply Hnth. lia.
Qed.

Lemma test_payload :
  firstn (Z.to_nat TEST_PAGE_SIZE) (fill_pattern (Z.to_nat TEST_PAGE_SIZE) 0) = test_pattern.
Proof. vm_compute. reflexivity. Qed.

(** Each step either passes and extends the log to the next shape, or
    stops and leaves the log of a halted run. *)
Lemma step_reset_shape (w : World D) ok w' :
  step_reset w = Some (ok, w') ->
  log w = [EvPrintf MsgSelfTestStart] ->
  if ok then log w' = log_reset else halted (log w').
Proof.
  unfold step_reset, stop_with, bind, QSPI_SendSimple, call_Command, call_Delay, printf, ret.
  intros Hrun Hlog. revert Hrun.
  destruct (HAL_QSPI_Command (SendSimple_cmd CMD_RESET_ENABLE) QSPI_TIMEOUT (dev w)) as [r1 d1].
  destruct (not_ok r1) eqn:H1; cbn [dev log emit].
  - intros H; inversion H; subst; cbn [log]. rewrite Hlog.
    apply halt_reset_enable. intros ->. discriminate.
  - apply not_ok_false in H1. subst r1.
    destruct (HAL_QSPI_Command (SendSimple_cmd CMD_RESET_MEMORY) QSPI_TIMEOUT d1) as [r2 d2].
    destruct (not_ok r2) eqn:H2; cbn [dev log emit];
      intros H; inversion H; subst; cbn [log]; rewrite Hlog.
    + apply halt_reset_memory. intros ->. discriminate.
    + apply not_ok_false in H2. subst r2. reflexivity.
Qed.

Lemma step_identify_shape (w : World D) ok w' :
  step_identify w = Some (ok, w') ->
  log w = log_reset ->
  if ok then at_identified (log w') else halted (log w').
Proof.
  unfold step_identify, stop_with. unfold bind at 1. intros Hrun Hlog. revert Hrun.
  destruct (QSPI_ReadID [0; 0; 0] w) as [[[r id] w1] |] eqn:E; [| discriminate].
  unfold QSPI_ReadID in E. apply command_receive_shape in E.
  cbn [fst snd]. unfold bind, printf, ret.
  destruct E as [(-> & _ & Hl) | (Hr & ev & Hev & Hl)].
  - cbn [not_ok HAL_Status_eqb negb]. intros H; inversion H; subst; cbn [emit log].
    exists id. rewrite Hl, Hlog. list_eq.
  - rewrite (not_ok_true r Hr). intros H; inversion H; subst; cbn [emit log].
    rewrite Hl, Hlog. eapply halted_eq; [apply (halt_identify ev Hev) | list_eq].
Qed.

Lemma step_addressing_shape (fuel : nat) (w : World D) ok w' :
  step_addressing fuel w = Some (ok, w') ->
  at_identified (log w) ->
  if ok then at_addressing (log w') else halted (log w').
Proof.
  unfold step_addressing, stop_with. unfold bind at 1. intros Hrun Hid. revert Hrun.
  destruct (QSPI_Enable4ByteAddressing fuel w) as [[r w1] |] eqn:E; [| discriminate].
  apply Enable4ByteAddressing_quiet in E. destruct E as (ev1 & Hq1 & Hl1).
  unfold bind, printf, ret.
  destruct (not_ok r).
  - intros H; inversion H; subst; cbn [emit log]. rewrite Hl1.
    eapply halted_eq; [apply (halt_enter_4byte (log w) ev1 Hid Hq1) | list_eq].
  - destruct (QSPI_WaitWhileBusy fuel 100 w1) as [[r2 w2] |] eqn:E2; [| discriminate].
    apply WaitWhileBusy_handshake in E2. destruct E2 as (ev2 & Hl2 & Hq2).
    pose proof (quiet_app _ _ Hq1 Hq2) as Hq.
    destruct (not_ok r2); intros H; inversion H; subst; cbn [emit log]; rewrite ?Hl2, Hl1.
    + eapply halted_eq; [apply (halt_busy_4byte (log w) (ev1 ++ ev2) Hid Hq) | list_eq].
    + exists (log w), (ev1 ++ ev2). split; [exact Hid |]. split; [exact Hq | list_eq].
Qed.

Lemma step_erase_shape (fuel : nat) (w : World D) ok w' :
  step_erase fuel w = Some (ok, w') ->
  at_addressing (log w) ->
  if ok then at_erased (log w') else halted (log w').
Proof.
  unfold step_erase, stop_with. unfold bind at 1, printf at 1. unfold bind at 1.
  intros Hrun Hat. revert Hrun.
  destruct (QSPI_Erase4K_4B fuel TEST_ADDR (emit (EvPrintf (MsgErasing TEST_ADDR)) w))
    as [[r w1] |] eqn:E; [| discriminate].
  apply Erase4K_shape in E. cbn [emit log] in E.
  destruct E as (ev1 & Hq1 & [(-> & Hl1) | (Hr & tl & Htl & Hl1)]); unfold bind, printf, ret.
  - cbn [not_ok HAL_Status_eqb negb].
    destruct (QSPI_WaitWhileBusy fuel 5000 w1) as [[r2 w2] |] eqn:E2; [| discriminate].
    apply WaitWhileBusy_handshake in E2. destruct E2 as (ev2 & Hl2 & Hq2).
    destruct (not_ok r2); intros H; inversion H; subst; cbn [emit log]; rewrite ?Hl2, Hl1.
    + eapply halted_eq; [apply (halt_erase_wait (log w) ev1 ev2 Hat Hq1 Hq2) | list_eq].
    + exists (log w), ev1, ev2. repeat (split; [assumption |]). list_eq.
  - rewrite (not_ok_true r Hr). intros H; inversion H; subst; cbn [emit log]. rewrite Hl1.
    eapply halted_eq; [apply (halt_erase (log w) ev1 tl Hat Hq1 Htl) | list_eq].
Qed.

Lemma local_array_length : length (local_array TEST_PAGE_SIZE) = Z.to_nat TEST_PAGE_SIZE.
Proof. unfold local_array. apply repeat_length. Qed.

Lemma step_verify_erased_shape (w : World D) ok w' :
  step_verify_erased w = Some (ok, w') ->
  at_erased (log w) ->
  if ok then at_erase_verified (log w') else halted (log w').
Proof.
  unfold step_verify_erased, stop_with. unfold bind at 1. intros Hrun Hat. revert Hrun.
  destruct (QSPI_Read_4B TEST_ADDR (local_array TEST_PAGE_SIZE) TEST_PAGE_SIZE w)
    as [[[r buf] w1] |] eqn:E; [| discriminate].
  unfold QSPI_Read_4B in E. apply command_receive_shape in E.
  cbn [fst snd]. unfold bind, printf, ret.
  destruct E as [(-> & Hlen & Hl) | (Hr & ev & Hev & Hl)].
  - cbn [not_ok HAL_Status_eqb negb]. rewrite local_array_length in Hlen.
    destruct (erase_verify_scan (Z.to_nat TEST_PAGE_SIZE) 0 buf) as [[i b] |] eqn:Hscan;
      intros H; inversion H; subst; cbn [emit log]; rewrite Hl.
    + eapply halted_eq; [apply (halt_erase_verify (log w) buf i b Hat) | list_eq].
      apply erase_verify_scan_Some in Hscan. exact Hscan.
    + exists (log w), buf. split; [exact Hat |]. split; [| list_eq].
      split; [rewrite Hlen; reflexivity |].
      intros i Hi. apply (erase_verify_scan_None _ _ _ Hscan). exact Hi.
  - rewrite (not_ok_true r Hr). intros H; inversion H; subst; cbn [emit log]. rewrite Hl.
    eapply halted_eq; [apply (halt_read_erased (log w) ev Hat Hev) | list_eq].
Qed.

Lemma step_program_shape (fuel : nat) (w : World D) ok w' :
  step_program fuel w = Some (ok, w') ->
  at_erase_verified (log w) ->
  if ok then at_programmed (log w') else halted (log w').
Proof.
  unfold step_program, stop_with. unfold bind at 1, printf at 1. unfold bind at 1.
  intros Hrun Hat. revert Hrun.
  destruct (QSPI_PageProgram_4B fuel TEST_ADDR (fill_pattern (Z.to_nat TEST_PAGE_SIZE) 0)
              TEST_PAGE_SIZE (emit (EvPrintf (MsgProgramming TEST_PAGE_SIZE TEST_ADDR)) w))
    as [[r w1] |] eqn:E; [| discriminate].
  apply PageProgram_shape in E; [| discriminate | reflexivity].
  cbv zeta in E. rewrite test_payload in E. cbn [emit log] in E.
  destruct E as (ev1 & Hq1 & [(-> & Hl1) | (Hr & tl & Htl & Hl1)]); unfold bind, printf, ret.
  - cbn [not_ok HAL_Status_eqb negb]. intros H; inversion H; subst. rewrite Hl1.
    exists (log w), ev1, []. split; [exact Hat |]. split; [exact Hq1 |].
    split; [constructor | list_eq].
  - rewrite (not_ok_true r Hr). intros H; inversion H; subst; cbn [emit log]. rewrite Hl1.
    eapply halted_eq; [apply (halt_program (log w) ev1 tl Hat Hq1 Htl) | list_eq].
Qed.

Lemma step_program_wait_shape (fuel : nat) (w : World D) ok w' :
  step_program_wait fuel w = Some (ok, w') ->
  at_programmed (log w) ->
  if ok then at_programmed (log w') else halted (log w').
Proof.
  unfold step_program_wait, stop_with, bind, printf, ret.
  intros Hrun (l0 & ev1 & ev2 & Hat & Hq1 & Hq2 & Hl). revert Hrun.
  destruct (QSPI_WaitWhileBusy fuel 100 w) as [[r w1] |] eqn:E; [| discriminate].
  apply WaitWhileBusy_handshake in E. destruct E as (ev3 & Hl1 & Hq3).
  pose proof (quiet_app _ _ Hq2 Hq3) as Hq.
  destruct (not_ok r); intros H; inversion H; subst; cbn [emit log]; rewrite ?Hl1, Hl.
  - eapply halted_eq; [apply (halt_program_wait l0 ev1 (ev2 ++ ev3) Hat Hq1 Hq) | list_eq].
  - exists l0, ev1, (ev2 ++ ev3). repeat (split; [assumption |]). list_eq.
Qed.

Lemma step_verify_programmed_shape (w : World D) ok w' :
  step_verify_programmed w = Some (ok, w') ->
  at_programmed (log w) ->
  if ok
  then log w' = log w ++ [EvCommand TestRead_cmd HAL_OK; EvReceive test_pattern HAL_OK]
  else halted (log w').
Proof.
  unfold step_verify_programmed, stop_with. cbv zeta. unfold bind at 1.
  intros Hrun Hat. revert Hrun.
  destruct (QSPI_Read_4B TEST_ADDR (local_array TEST_PAGE_SIZE) TEST_PAGE_SIZE w)
    as [[[r buf] w1] |] eqn:E; [| discriminate].
  unfold QSPI_Read_4B in E. apply command_receive_shape in E.
  cbn [fst snd]. unfold bind, printf, ret.
  destruct E as [(-> & Hlen & Hl) | (Hr & ev & Hev & Hl)].
  - cbn [not_ok HAL_Status_eqb negb]. rewrite local_array_length in Hlen.
    fold test_pattern.
    destruct (Z.eqb_spec (memcmp test_pattern buf TEST_PAGE_SIZE) 0) as [Hsame | Hdiff];
      cbn [negb].
    + intros H; inversion H; subst. rewrite Hl.
      assert (Hbuf : buf = test_pattern).
      { apply (same_bytes_eq _ _ (Z.to_nat TEST_PAGE_SIZE)).
        - exact Hlen.
        - apply fill_pattern_length.
        - intros j Hj. symmetry. apply (memcmp_from_0 _ _ _ _ Hsame). lia. }
      rewrite Hbuf. reflexivity.
    + destruct (first_mismatch (Z.to_nat TEST_PAGE_SIZE) 0 test_pattern buf)
        as [[[i e] o] |] eqn:Hm.
      * intros H; inversion H; subst; cbn [emit log]. rewrite Hl.
        eapply halted_eq; [apply (halt_mismatch (log w) buf i e o Hat) | list_eq].
        apply first_mismatch_Some in Hm. destruct Hm as (Hi & He & Ho & Hne & Hpre).
        split; [exact Hi |]. split; [exact He |]. split; [exact Ho |]. split; [exact Hne |].
        intros j Hj. symmetry. now apply Hpre.
      * apply first_mismatch_None in Hm. unfold memcmp in Hdiff. contradiction.
  - rewrite (not_ok_true r Hr). intros H; inversion H; subst; cbn [emit log]. rewrite Hl.
    eapply halted_eq; [apply (halt_read_programmed (log w) ev Hat Hev) | list_eq].
Qed.

(** Every terminating run of the self-test from an empty log leaves a log
    of one of the two kinds: verified to the end, or halted. *)
Lemma selftest_log_shape (fuel : nat) (d : D) (w' : World D) :
  MT25Q_RunSelfTest fuel (mkWorld d []) = Some (tt, w') ->
  at_verified (log w') \/ halted (log w').
Proof.
  rewrite RunSelfTest_as_steps. unfold selftest_steps. cbn [run_steps]. unfold bind at 1.
  set (w0 := emit (EvPrintf MsgSelfTestStart) (mkWorld d [])).
  assert (H0 : log w0 = [EvPrintf MsgSelfTestStart]) by reflexivity.
  clearbody w0.
  unfold bind at 1.
  destruct (step_reset w0) as [[ok w1] |] eqn:E1; [| discriminate].
  apply step_reset_shape in E1; [| exact H0].
  destruct ok; [| intros H; inversion H; subst; now right].
  unfold bind at 1.
  destruct (step_identify w1) as [[ok w2] |] eqn:E2; [| discriminate].
  apply step_identify_shape in E2; [| exact E1].
  destruct ok; [| intros H; inversion H; subst; now right].
  unfold bind at 1.
  destruct (step_addressing fuel w2) as [[ok w3] |] eqn:E3; [| discriminate].
  apply step_addressing_shape in E3; [| exact E2].
  destruct ok; [| intros H; inversion H; subst; now right].
  unfold bind at 1.
  destruct (step_erase fuel w3) as [[ok w4] |] eqn:E4; [| discriminate].
  apply step_erase_shape in E4; [| exact E3].
  destruct ok; [| intros H; inversion H; subst; now right].
  unfold bind at 1.
  destruct (step_verify_erased w4) as [[ok w5] |] eqn:E5; [| discriminate].
  apply step_verify_erased_shape in E5; [| exact E4].
  destruct ok; [| intros H; inversion H; subst; now right].
  unfold bind at 1.
  destruct (step_program fuel w5) as [[ok w6] |] eqn:E6; [| discriminate].
  apply step_program_shape in E6; [| exact E5].
  destruct ok; [| intros H; inversion H; subst; now right].
  unfold bind at 1.
  destruct (step_program_wait fuel w6) as [[ok w7] |] eqn:E7; [| discriminate].
  apply step_program_wait_shape in E7; [| exact E6].
  destruct ok; [| intros H; inversion H; subst; now right].
  unfold bind at 1.
  destruct (step_verify_programmed w7) as [[ok w8] |] eqn:E8; [| discriminate].
  apply step_verify_programmed_shape in E8; [| exact E7].
  destruct ok; [| intros H; inversion H; subst; now right].
  unfold step_report, bind, printf, ret.
  intros H; inversion H; subst; cbn [emit log]. left.
  exists (log w7), test_pattern. split; [exact E7 |]. split; [reflexivity |].
  rewrite E8. list_eq.
Qed.

End LogShape.

(** ** What a finished log tells *)

Section LogFacts.

Context {hdr : qspi_h}.

Lemma reports_app (a b : list Event) : reports (a ++ b) = reports a ++ reports b.
Proof. apply flat_map_app. Qed.

Lemma transmits_app (a b : list Event) : transmits (a ++ b) = transmits a ++ transmits b.
Proof. apply flat_map_app. Qed.

Lemma quiet_silent (ev : list Event) : quiet ev -> reports ev = [] /\ transmits ev = [].
Proof.
  induction 1 as [| e ev He _ [IHr IHt]]; [split; reflexivity |].
  destruct e; try discriminate; cbn; split; assumption.
Qed.

Lemma failed_read_silent (c : QSPI_CommandTypeDef) (ev : list Event) :
  failed_read c ev -> reports ev = [] /\ transmits ev = [].
Proof. intros [(r & _ & ->) | (buf & r & _ & ->)]; split; reflexivity. Qed.

Lemma In_reports (m : Report) (l : list Event) : In (EvPrintf m) l -> In m (reports l).
Proof.
  intros H. unfold reports. apply in_flat_map. exists (EvPrintf m). split; [exact H | now left].
Qed.

Lemma In_transmits (d : list Z) (r : HAL_StatusTypeDef) (l : list Event) :
  In (EvTransmit d r) l -> In d (transmits l).
Proof.
  intros H. unfold transmits. apply in_flat_map. exists (EvTransmit d r).
  split; [exact H | now left].
Qed.

(** What has been reported and transmitted at each point. *)
Lemma at_identified_summary (l : list Event) :
  at_identified l ->
  exists a b c, reports l = [MsgSelfTestStart; MsgJedecId a b c] /\ transmits l = [].
Proof. intros (id & ->). do 3 eexists. split; reflexivity. Qed.

Lemma at_addressing_summary (l : list Event) :
  at_addressing l ->
  exists a b c, reports l = [MsgSelfTestStart; MsgJedecId a b c] /\ transmits l = [].
Proof.
  intros (l0 & ev & H0 & Hq & ->).
  destruct (at_identified_summary _ H0) as (a & b & c & Hr & Ht).
  destruct (quiet_silent _ Hq) as [Hqr Hqt].
  exists a, b, c. rewrite reports_app, transmits_app, Hr, Ht, Hqr, Hqt. split; reflexivity.
Qed.

Lemma at_erased_summary (l : list Event) :
  at_erased l ->
  exists a b c,
    reports l = [MsgSelfTestStart; MsgJedecId a b c; MsgErasing TEST_ADDR] /\
    transmits l = [].
Proof.
  intros (l0 & ev1 & ev2 & H0 & Hq1 & Hq2 & ->).
  destruct (at_addressing_summary _ H0) as (a & b & c & Hr & Ht).
  destruct (quiet_silent _ Hq1) as [Hr1 Ht1]. destruct (quiet_silent _ Hq2) as [Hr2 Ht2].
  exists a, b, c. repeat rewrite reports_app. repeat rewrite transmits_app.
  rewrite Hr, Ht, Hr1, Ht1, Hr2, Ht2. split; reflexivity.
Qed.

Lemma at_erase_verified_summary (l : list Event) :
  at_erase_verified l ->
  exists a b c,
    reports l = [MsgSelfTestStart; MsgJedecId a b c; MsgErasing TEST_ADDR; MsgEraseOK] /\
    transmits l = [].
Proof.
  intros (l0 & buf & H0 & _ & ->).
  destruct (at_erased_summary _ H0) as (a & b & c & Hr & Ht).
  exists a, b, c. rewrite reports_app, transmits_app, Hr, Ht. split; reflexivity.
Qed.

Lemma at_programmed_summary (l : list Event) :
  at_programmed l ->
  exists a b c,
    reports l = [MsgSelfTestStart; MsgJedecId a b c; MsgErasing TEST_ADDR; MsgEraseOK;
                 MsgProgramming TEST_PAGE_SIZE TEST_ADDR] /\
    transmits l = [test_pattern].
Proof.
  intros (l0 & ev1 & ev2 & H0 & Hq1 & Hq2 & ->).
  destruct (at_erase_verified_summary _ H0) as (a & b & c & Hr & Ht).
  destruct (quiet_silent _ Hq1) as [Hr1 Ht1]. destruct (quiet_silent _ Hq2) as [Hr2 Ht2].
  exists a, b, c. repeat rewrite reports_app. repeat rewrite transmits_app.
  rewrite Hr, Ht, Hr1, Ht1, Hr2, Ht2. split; reflexivity.
Qed.

Lemma erase_checked_app (l x : list Event) : erase_checked l -> erase_checked (l ++ x).
Proof.
  intros (pre & buf & post & -> & Hpre & Hbuf).
  exists pre, buf, (post ++ x). split; [list_eq | split; assumption].
Qed.

Lemma at_erase_verified_checked (l : list Event) : at_erase_verified l -> erase_checked l.
Proof.
  intros (l0 & buf & H0 & Hbuf & ->). exists l0, buf, []. split; [list_eq | split; assumption].
Qed.

Lemma at_programmed_checked (l : list Event) : at_programmed l -> erase_checked l.
Proof.
  intros (l0 & ev1 & ev2 & H0 & _ & _ & ->).
  apply erase_checked_app. now apply at_erase_verified_checked.
Qed.

Lemma addressed_app (a b : list Event) :
  addressed_commands (a ++ b) = addressed_commands a ++ addressed_commands b.
Proof. apply flat_map_app. Qed.

Lemma quiet_unaddressed (ev : list Event) : quiet ev -> addressed_commands ev = [].
Proof.
  induction 1 as [| e ev He _ IH]; [reflexivity |].
  destruct e as [c rc | | | | |]; cbn in *; try discriminate; try exact IH.
  destruct (AddressMode c); [exact IH | discriminate].
Qed.

Lemma failed_read_addressed (c : QSPI_CommandTypeDef) (ev : list Event) :
  failed_read c ev ->
  addressed_commands ev
  = match AddressMode c with QSPI_ADDRESS_NONE => [] | QSPI_ADDRESS_1_LINE => [c] end.
Proof.
  intros [(r & _ & ->) | (buf & r & _ & ->)]; cbn; destruct (AddressMode c); reflexivity.
Qed.

Lemma at_identified_addressed (l : list Event) :
  at_identified l -> addressed_commands l = [].
Proof. intros (id & ->). vm_compute. reflexivity. Qed.

Lemma at_addressing_addressed (l : list Event) :
  at_addressing l -> addressed_commands l = [].
Proof.
  intros (l0 & ev & H0 & Hq & ->).
  rewrite addressed_app, (at_identified_addressed _ H0), (quiet_unaddressed _ Hq). reflexivity.
Qed.

Lemma at_erased_addressed (l : list Event) :
  at_erased l -> addressed_commands l = firstn 1 test_page_commands.
Proof.
  intros (l0 & ev1 & ev2 & H0 & Hq1 & Hq2 & ->).
  repeat rewrite addressed_app.
  rewrite (at_addressing_addressed _ H0), (quiet_unaddressed _ Hq1), (quiet_unaddressed _ Hq2).
  vm_compute. reflexivity.
Qed.

Lemma at_erase_verified_addressed (l : list Event) :
  at_erase_verified l -> addressed_commands l = firstn 2 test_page_commands.
Proof.
  intros (l0 & buf & H0 & _ & ->).
  rewrite addressed_app, (at_erased_addressed _ H0). vm_compute. reflexivity.
Qed.

Lemma at_programmed_addressed (l : list Event) :
  at_programmed l -> addressed_commands l = firstn 3 test_page_commands.
Proof.
  intros (l0 & ev1 & ev2 & H0 & Hq1 & Hq2 & ->).
  repeat rewrite addressed_app.
  rewrite (at_erase_verified_addressed _ H0), (quiet_unaddressed _ Hq1),
    (quiet_unaddressed _ Hq2).
  vm_compute. reflexivity.
Qed.

(** Splitting a log into its last event and what comes before. *)
Lemma last_base (e : Event) : [e] = [] ++ [e].
Proof. reflexivity. Qed.

Lemma last_cons (a e : Event) (y body : list Event) :
  y = body ++ [e] -> a :: y = ([a] ++ body) ++ [e].
Proof. intros ->. reflexivity. Qed.

Lemma last_app (x y body : list Event) (e : Event) :
  y = body ++ [e] -> x ++ y = (x ++ body) ++ [e].
Proof. intros ->. now rewrite app_assoc. Qed.

End LogFacts.

(** ** Tactics over log shapes *)

(** Turn [H : In (EvPrintf m) l], for [l] one of the log shapes, into
    membership in the explicit list of reports of [l]. *)
Ltac reports_of H :=
  apply In_reports in H;
  repeat rewrite reports_app in H;
  repeat match goal with
         | Hq : quiet ?ev |- _ => rewrite (proj1 (quiet_silent ev Hq)) in H
         | Hf : failed_read ?c ?ev |- _ => rewrite (proj1 (failed_read_silent c ev Hf)) in H
         | Ha : at_identified ?l |- _ =>
             let Hr := fresh "Hr" in
             destruct (at_identified_summary l Ha) as (? & ? & ? & Hr & _);
             rewrite Hr in H; clear Hr
         | Ha : at_addressing ?l |- _ =>
             let Hr := fresh "Hr" in
             destruct (at_addressing_summary l Ha) as (? & ? & ? & Hr & _);
             rewrite Hr in H; clear Hr
         | Ha : at_erased ?l |- _ =>
             let Hr := fresh "Hr" in
             destruct (at_erased_summary l Ha) as (? & ? & ? & Hr & _);
             rewrite Hr in H; clear Hr
         | Ha : at_erase_verified ?l |- _ =>
             let Hr := fresh "Hr" in
             destruct (at_erase_verified_summary l Ha) as (? & ? & ? & Hr & _);
             rewrite Hr in H; clear Hr
         | Ha : at_programmed ?l |- _ =>
             let Hr := fresh "Hr" in
             destruct (at_programmed_summary l Ha) as (? & ? & ? & Hr & _);
             rewrite Hr in H; clear Hr
         end;
  cbn in H.

Ltac no_such_report H := reports_of H; intuition (discriminate || congruence).

Ltac explicit_tail :=
  repeat match goal with
         | H : _ = [] \/ _ |- _ => destruct H as [-> | H]
         | H : (exists r, _ <> HAL_OK /\ _ = _) \/ _ |- _ => destruct H as [(? & ? & ->) | H]
         | H : exists r, _ <> HAL_OK /\ _ = _ |- _ => destruct H as (? & ? & ->)
         end.

(** Split a log into its last event and what comes before. *)
Ltac split_last := repeat first [apply last_base | apply last_cons | apply last_app].

(** Compute [addressed_commands] of a log shape in the goal. *)
Ltac addressed_goal :=
  unfold log_reset;
  repeat rewrite addressed_app;
  repeat match goal with
         | Hq : quiet ?ev |- _ => rewrite (quiet_unaddressed ev Hq)
         | Hf : failed_read ?c ?ev |- _ => rewrite (failed_read_addressed c ev Hf)
         | Ha : at_identified ?l |- _ => rewrite (at_identified_addressed l Ha)
         | Ha : at_addressing ?l |- _ => rewrite (at_addressing_addressed l Ha)
         | Ha : at_erased ?l |- _ => rewrite (at_erased_addressed l Ha)
         | Ha : at_erase_verified ?l |- _ => rewrite (at_erase_verified_addressed l Ha)
         | Ha : at_programmed ?l |- _ => rewrite (at_programmed_addressed l Ha)
         end;
  vm_compute; reflexivity.

(** ** The two read-backs in a finished log *)

Section ReadBack.

Context {hdr : qspi_h}.

Lemma addressed_cons (c : QSPI_CommandTypeDef) (r : HAL_StatusTypeDef) (t : list Event) :
  AddressMode c = QSPI_ADDRESS_1_LINE ->
  addressed_commands (EvCommand c r :: t) = c :: addressed_commands t.
Proof. intros H. unfold addressed_commands. cbn [flat_map]. rewrite H. reflexivity. Qed.

(** A log is cut in one way only in front of its [k]-th addressed
    command. *)
Lemma split_at_addressed (p1 p2 t1 t2 : list Event)
    (c1 c2 : QSPI_CommandTypeDef) (r1 r2 : HAL_StatusTypeDef) :
  p1 ++ EvCommand c1 r1 :: t1 = p2 ++ EvCommand c2 r2 :: t2 ->
  AddressMode c1 = QSPI_ADDRESS_1_LINE -> AddressMode c2 = QSPI_ADDRESS_1_LINE ->
  length (addressed_commands p1) = length (addressed_commands p2) ->
  p1 = p2 /\ r1 = r2 /\ t1 = t2.
Proof.
  intros Heq H1 H2. revert p2 Heq.
  induction p1 as [| e p1 IH]; intros [| e' p2] Heq Hlen.
  - cbn in Heq. inversion Heq. repeat split.
  - cbn [app] in Heq. inversion Heq; subst e'.
    rewrite (addressed_cons _ _ _ H1) in Hlen. discriminate.
  - cbn [app] in Heq. inversion Heq; subst e.
    rewrite (addressed_cons _ _ _ H2) in Hlen. discriminate.
  - cbn [app] in Heq. inversion Heq; subst e'.
    change (e :: p1) with ([e] ++ p1) in Hlen. change (e :: p2) with ([e] ++ p2) in Hlen.
    rewrite !addressed_app, !length_app in Hlen.
    destruct (IH p2) as (-> & -> & ->); [assumption | lia |]. repeat split.
Qed.

Lemma TestRead_addressed : AddressMode TestRead_cmd = QSPI_ADDRESS_1_LINE.
Proof. reflexivity. Qed.

(** Where a finished log stands with respect to the read-back after the
    erase. *)
Lemma erase_readback_cases (l : list Event) :
  at_verified l \/ halted l ->
  ((exists k : nat, (k <= 1)%nat /\ addressed_commands l = firstn k test_page_commands) /\
   exists body m,
     l = body ++ [EvPrintf m] /\
     In m [MsgResetFailed; MsgReadIdFailed; MsgEnter4BFailed; MsgBusyAfter4B;
                 MsgEraseFailed; MsgEraseTimeout]) \/
  (exists pre ev,
      l = pre ++ ev ++ [EvPrintf MsgReadAfterEraseFailed] /\
      at_erased pre /\ failed_read TestRead_cmd ev) \/
  (exists pre buf i b,
      l = pre ++ [EvCommand TestRead_cmd HAL_OK; EvReceive buf HAL_OK;
                  EvPrintf (MsgEraseVerifyFailed i b)] /\
      at_erased pre /\ first_not_erased buf i b) \/
  erase_checked l.
Proof.
  assert (Hchk : forall x, erase_checked x ->
            ((exists k : nat, (k <= 1)%nat /\
                              addressed_commands x = firstn k test_page_commands) /\
             exists body m,
               x = body ++ [EvPrintf m] /\
               In m [MsgResetFailed; MsgReadIdFailed; MsgEnter4BFailed; MsgBusyAfter4B;
                 MsgEraseFailed; MsgEraseTimeout]) \/
            (exists pre ev,
                x = pre ++ ev ++ [EvPrintf MsgReadAfterEraseFailed] /\
                at_erased pre /\ failed_read TestRead_cmd ev) \/
            (exists pre buf i b,
                x = pre ++ [EvCommand TestRead_cmd HAL_OK; EvReceive buf HAL_OK;
                            EvPrintf (MsgEraseVerifyFailed i b)] /\
                at_erased pre /\ first_not_erased buf i b) \/
            erase_checked x) by (intros x Hx; right; right; right; exact Hx).
  intros [(l0 & buf & Hat & -> & ->) | Hh].
  - apply Hchk, erase_checked_app. now apply at_programmed_checked.
  - destruct Hh; explicit_tail;
      try (left; split;
           [first [exists 0%nat; split; [lia | addressed_goal]
                  | exists 1%nat; split; [lia | addressed_goal]]
           | do 2 eexists; split; [split_last | repeat first [left; reflexivity | right]]];
           fail).
    + right; left. exists l, ev. split; [reflexivity | split; assumption].
    + right; right; left. exists l, buf, i, b. split; [reflexivity | split; assumption].
    + apply Hchk, erase_checked_app. now apply at_erase_verified_checked.
    + apply Hchk, erase_checked_app. now apply at_erase_verified_checked.
    + apply Hchk, erase_checked_app. now apply at_erase_verified_checked.
    + apply Hchk, erase_checked_app. now apply at_erase_verified_checked.
    + apply Hchk, erase_checked_app. now apply at_programmed_checked.
    + apply Hchk, erase_checked_app. now apply at_programmed_checked.
Qed.

(** The read-back after the erase decides what follows it. *)
Lemma erase_readback_forward (l : list Event) :
  at_verified l \/ halted l ->
  forall pre buf post,
    l = pre ++ [EvCommand TestRead_cmd HAL_OK; EvReceive buf HAL_OK] ++ post ->
    at_erased pre ->
    (erased_page buf /\ exists post', post = EvPrintf MsgEraseOK :: post') \/
    (exists i b, first_not_erased buf i b /\ post = [EvPrintf (MsgEraseVerifyFailed i b)]).
Proof.
  intros Hs pre buf post Hl Hpre. apply erase_readback_cases in Hs.
  cbn [app] in Hl.
  assert (Huniq : forall p r t, at_erased p -> l = p ++ EvCommand TestRead_cmd r :: t ->
                    pre = p /\ HAL_OK = r /\ EvReceive buf HAL_OK :: post = t).
  { intros p r t Hp Hl'. rewrite Hl in Hl'.
    apply split_at_addressed in Hl'; try exact TestRead_addressed; [exact Hl' |].
    rewrite (at_erased_addressed _ Hpre), (at_erased_addressed _ Hp). reflexivity. }
  destruct Hs as [[(k & Hk & Ha) _] | [(p & ev & Hl' & Hp & Hf) | [(p & b0 & i & b & Hl' & Hp & Hfn)
                 | (p & b0 & post0 & Hl' & Hp & Hb)]]].
  - exfalso. rewrite Hl in Ha.
    rewrite addressed_app, (at_erased_addressed _ Hpre),
      (addressed_cons _ _ _ TestRead_addressed) in Ha.
    apply (f_equal (@length _)) in Ha. rewrite length_app, !length_firstn in Ha.
    cbn [length test_page_commands] in Ha. lia.
  - exfalso. destruct Hf as [(r & Hr & ->) | (b1 & r & Hr & ->)]; cbn [app] in Hl'.
    + destruct (Huniq _ _ _ Hp Hl') as (_ & Hr' & _). now apply Hr.
    + destruct (Huniq _ _ _ Hp Hl') as (_ & _ & Ht). inversion Ht. now apply Hr.
  - right. cbn [app] in Hl'. destruct (Huniq _ _ _ Hp Hl') as (_ & _ & Ht).
    inversion Ht; subst. exists i, b. split; [assumption | reflexivity].
  - left. cbn [app] in Hl'. destruct (Huniq _ _ _ Hp Hl') as (_ & _ & Ht).
    inversion Ht; subst. split; [assumption |]. eexists. reflexivity.
Qed.

(** Where a finished log stands with respect to the read-back after the
    page program. *)
Lemma program_readback_cases (l : list Event) :
  at_verified l \/ halted l ->
  ((exists k : nat, (k <= 3)%nat /\ addressed_commands l = firstn k test_page_commands) /\
   exists body m,
     l = body ++ [EvPrintf m] /\
     terminal_report m = true /\ m <> MsgProgramVerifyOK /\
     forall i e o, m <> MsgVerifyMismatch i e o) \/
  (exists pre ev,
      l = pre ++ ev ++ [EvPrintf MsgReadAfterProgramFailed] /\
      at_programmed pre /\ failed_read TestRead_cmd ev) \/
  (exists pre buf i e o,
      l = pre ++ [EvCommand TestRead_cmd HAL_OK; EvReceive buf HAL_OK;
                  EvPrintf (MsgVerifyMismatch i e o)] /\
      at_programmed pre /\ first_difference buf i e o) \/
  (exists pre,
      l = pre ++ [EvCommand TestRead_cmd HAL_OK; EvReceive test_pattern HAL_OK;
                  EvPrintf MsgProgramVerifyOK] /\
      at_programmed pre).
Proof.
  intros [(l0 & buf & Hat & -> & ->) | Hh].
  - right; right; right. exists l0. split; [reflexivity | assumption].
  - destruct Hh; explicit_tail;
      try (left; split;
           [first [exists 0%nat; split; [lia | addressed_goal]
                  | exists 1%nat; split; [lia | addressed_goal]
                  | exists 2%nat; split; [lia | addressed_goal]
                  | exists 3%nat; split; [lia | addressed_goal]]
           | do 2 eexists; split;
             [split_last
             | split; [reflexivity | split; [discriminate | intros ? ? ?; discriminate]]]];
           fail).
    + right; left. exists l, ev. split; [reflexivity | split; assumption].
    + right; right; left. exists l, buf, i, e, o. split; [reflexivity | split; assumption].
Qed.

(** The read-back after the page program decides the verdict. *)
Lemma program_readback_forward (l : list Event) :
  at_verified l \/ halted l ->
  forall pre buf post,
    l = pre ++ [EvCommand TestRead_cmd HAL_OK; EvReceive buf HAL_OK] ++ post ->
    at_programmed pre ->
    (buf = test_pattern /\ post = [EvPrintf MsgProgramVerifyOK]) \/
    (exists i e o, first_difference buf i e o /\ post = [EvPrintf (MsgVerifyMismatch i e o)]).
Proof.
  intros Hs pre buf post Hl Hpre. apply program_readback_cases in Hs.
  cbn [app] in Hl.
  assert (Huniq : forall p r t, at_programmed p -> l = p ++ EvCommand TestRead_cmd r :: t ->
                    pre = p /\ HAL_OK = r /\ EvReceive buf HAL_OK :: post = t).
  { intros p r t Hp Hl'. rewrite Hl in Hl'.
    apply split_at_addressed in Hl'; try exact TestRead_addressed; [exact Hl' |].
    rewrite (at_programmed_addressed _ Hpre), (at_programmed_addressed _ Hp). reflexivity. }
  destruct Hs as [[(k & Hk & Ha) _] | [(p & ev & Hl' & Hp & Hf)
                 | [(p & b0 & i & e & o & Hl' & Hp & Hfd) | (p & Hl' & Hp)]]].
  - exfalso. rewrite Hl in Ha.
    rewrite addressed_app, (at_programmed_addressed _ Hpre),
      (addressed_cons _ _ _ TestRead_addressed) in Ha.
    apply (f_equal (@length _)) in Ha. rewrite length_app, !length_firstn in Ha.
    cbn [length test_page_commands] in Ha. lia.
  - exfalso. destruct Hf as [(r & Hr & ->) | (b1 & r & Hr & ->)]; cbn [app] in Hl'.
    + destruct (Huniq _ _ _ Hp Hl') as (_ & Hr' & _). now apply Hr.
    + destruct (Huniq _ _ _ Hp Hl') as (_ & _ & Ht). inversion Ht. now apply Hr.
  - right. cbn [app] in Hl'. destruct (Huniq _ _ _ Hp Hl') as (_ & _ & Ht).
    inversion Ht; subst. exists i, e, o. split; [assumption | reflexivity].
  - left. cbn [app] in Hl'. destruct (Huniq _ _ _ Hp Hl') as (_ & _ & Ht).
    inversion Ht; subst. split; reflexivity.
Qed.

End ReadBack.

(** ** The erase verification *)

Section EraseVerify.

Context {D : Type} {hal : HAL D} {hdr : qspi_h}.

(** C2, in the form the code satisfies.  In every finished run of the
    self-test:
    - the run stands in one of four ways to the read-back after the erase:
      it stopped before the read-back, its last event being the report of
      a failed reset, identification, switch to 4-byte addressing, busy
      wait, erase or erase wait, having issued no addressed command but
      possibly the erase; or the read-back failed on the bus and that was
      reported as the last event; or the read-back of
      [TEST_PAGE_SIZE] (256) bytes at [TEST_ADDR] returned a byte that is
      not 0xFF and the run ended on the erase-verify failure with the
      offset and value of the first such byte; or every one of the 256
      bytes read was 0xFF and "Erase OK" was reported right after;
    - whenever the log holds that 256-byte read-back, issued after the
      erase and its busy wait and answered [HAL_OK]: if its 256 bytes are
      all 0xFF, "Erase OK" is the next event; otherwise the next event is
      the erase-verify failure with the offset and value of the first byte
      that is not 0xFF, and it ends the log;
    - a reported "Erase OK" sits right after a read of [TEST_PAGE_SIZE]
      (256) bytes at [TEST_ADDR] that returned [HAL_OK], issued after the
      erase command and its busy wait, and every one of the 256 bytes read
      is 0xFF;
    - a reported erase-verify failure carries the offset and value of the
      first byte of that 256-byte read that is not 0xFF, and ends the log;
    - when the erase was started and neither it nor its busy wait was
      reported failed, the 256-byte read-back was issued next. *)
Theorem erase_verify_checks_first_page (fuel : nat) (d : D) (w' : World D) :
  MT25Q_RunSelfTest fuel (mkWorld d []) = Some (tt, w') ->
  (((addressed_commands (log w') = [] \/
     addressed_commands (log w') = [Erase4K_cmd TEST_ADDR]) /\
    exists body m,
      log w' = body ++ [EvPrintf m] /\
      In m [MsgResetFailed; MsgReadIdFailed; MsgEnter4BFailed; MsgBusyAfter4B;
            MsgEraseFailed; MsgEraseTimeout]) \/
   (exists pre ev,
       log w' = pre ++ ev ++ [EvPrintf MsgReadAfterEraseFailed] /\
       at_erased pre /\ failed_read (Read_4B_cmd TEST_ADDR TEST_PAGE_SIZE) ev) \/
   (exists pre buf i b,
       log w' = pre ++ [EvCommand (Read_4B_cmd TEST_ADDR TEST_PAGE_SIZE) HAL_OK;
                        EvReceive buf HAL_OK; EvPrintf (MsgEraseVerifyFailed i b)] /\
       at_erased pre /\ first_not_erased buf i b) \/
   (exists pre buf post,
       log w' = pre ++ [EvCommand (Read_4B_cmd TEST_ADDR TEST_PAGE_SIZE) HAL_OK;
                        EvReceive buf HAL_OK; EvPrintf MsgEraseOK] ++ post /\
       at_erased pre /\ erased_page buf)) /\
  (forall pre buf post,
      log w' = pre ++ [EvCommand (Read_4B_cmd TEST_ADDR TEST_PAGE_SIZE) HAL_OK;
                       EvReceive buf HAL_OK] ++ post ->
      at_erased pre ->
      (erased_page buf /\ exists post', post = EvPrintf MsgEraseOK :: post') \/
      (exists i b,
          first_not_erased buf i b /\ post = [EvPrintf (MsgEraseVerifyFailed i b)])) /\
  (In (EvPrintf MsgEraseOK) (log w') ->
   exists pre buf post,
     log w' = pre ++ [EvCommand (Read_4B_cmd TEST_ADDR TEST_PAGE_SIZE) HAL_OK;
                      EvReceive buf HAL_OK; EvPrintf MsgEraseOK] ++ post /\
     at_erased pre /\ erased_page buf) /\
  (forall i b,
      In (EvPrintf (MsgEraseVerifyFailed i b)) (log w') ->
      exists pre buf,
        log w' = pre ++ [EvCommand (Read_4B_cmd TEST_ADDR TEST_PAGE_SIZE) HAL_OK;
                         EvReceive buf HAL_OK; EvPrintf (MsgEraseVerifyFailed i b)] /\
        at_erased pre /\ first_not_erased buf i b) /\
  (In (EvPrintf (MsgErasing TEST_ADDR)) (log w') ->
   ~ In (EvPrintf MsgEraseFailed) (log w') ->
   ~ In (EvPrintf MsgEraseTimeout) (log w') ->
   exists pre r post,
     log w' = pre ++ EvCommand (Read_4B_cmd TEST_ADDR TEST_PAGE_SIZE) r :: post /\
     at_erased pre).
Proof.
  intros Hrun. pose proof (selftest_log_shape fuel d w' Hrun) as Hs.
  split; [| split; [exact (erase_readback_forward _ Hs) |]].
  { destruct (erase_readback_cases _ Hs) as [[(k & Hk & Ha) Hb] | [H | [H | H]]].
    - left. split; [| exact Hb]. destruct k as [| [| k]]; [left | right | lia]; exact Ha.
    - right; left; exact H.
    - right; right; left; exact H.
    - right; right; right; exact H. }
  clear Hs. apply selftest_log_shape in Hrun.
  remember (log w') as l eqn:El. clear El w' d.
  assert (Hchk : forall x, erase_checked x ->
            exists pre r post,
              x = pre ++ EvCommand (Read_4B_cmd TEST_ADDR TEST_PAGE_SIZE) r :: post /\
              at_erased pre).
  { intros x (pre & buf & post & -> & Hpre & _). exists pre, HAL_OK. eexists.
    split; [reflexivity | exact Hpre]. }
  destruct Hrun as [(l0 & buf & Hat & -> & ->) | Hh].
  - pose proof (erase_checked_app _
                 [EvCommand TestRead_cmd HAL_OK; EvReceive test_pattern HAL_OK;
                  EvPrintf MsgProgramVerifyOK] (at_programmed_checked _ Hat)) as Hc.
    split; [intros _; exact Hc |]. split; [| intros _ _ _; now apply Hchk].
    intros i b Hin. no_such_report Hin.
  - destruct Hh; explicit_tail.
    + (* reset enable *)
      split; [intros Hin; no_such_report Hin |].
      split; [intros i b Hin; no_such_report Hin | intros Hin; no_such_report Hin].
    + split; [intros Hin; no_such_report Hin |].
      split; [intros i b Hin; no_such_report Hin | intros Hin; no_such_report Hin].
    + (* identify *)
      split; [intros Hin; no_such_report Hin |].
      split; [intros i b Hin; no_such_report Hin | intros Hin; no_such_report Hin].
    + split; [intros Hin; no_such_report Hin |].
      split; [intros i b Hin; no_such_report Hin | intros Hin; no_such_report Hin].
    + split; [intros Hin; no_such_report Hin |].
      split; [intros i b Hin; no_such_report Hin | intros Hin; no_such_report Hin].
    + (* erase failed, handshake *)
      split; [intros Hin; no_such_report Hin |].
      split; [intros i b Hin; no_such_report Hin |].
      intros _ Hno _. exfalso. apply Hno. repeat (apply in_or_app; right). now left.
    + (* erase failed, command *)
      split; [intros Hin; no_such_report Hin |].
      split; [intros i b Hin; no_such_report Hin |].
      intros _ Hno _. exfalso. apply Hno. repeat (apply in_or_app; right). now left.
    + (* erase wait *)
      split; [intros Hin; no_such_report Hin |].
      split; [intros i b Hin; no_such_report Hin |].
      intros _ _ Hno. exfalso. apply Hno. repeat (apply in_or_app; right). now left.
    + (* read after erase failed *)
      split; [intros Hin; no_such_report Hin |].
      split; [intros i b Hin; no_such_report Hin |].
      intros _ _ _.
      match goal with Hf : failed_read _ _ |- _ =>
        destruct Hf as [(r & _ & ->) | (buf & r & _ & ->)] end.
      * exists l, r. eexists. split; [reflexivity | assumption].
      * exists l, HAL_OK. eexists. split; [reflexivity | assumption].
    + (* erase verify failed *)
      split; [intros Hin; no_such_report Hin |].
      split.
      * intros i' b' Hin. reports_of Hin.
        assert (Heq : MsgEraseVerifyFailed i b = MsgEraseVerifyFailed i' b')
          by intuition (discriminate || congruence).
        inversion Heq; subst. exists l, buf. split; [reflexivity | split; assumption].
      * intros _ _ _. exists l, HAL_OK. eexists. split; [reflexivity | assumption].
    + (* program failed *)
      pose proof (erase_checked_app _
                    ([EvPrintf (MsgProgramming TEST_PAGE_SIZE TEST_ADDR)] ++ ev ++ [] ++
                     [EvPrintf MsgProgramFailed]) (at_erase_verified_checked _ H)) as Hc.
      split; [intros _; exact Hc |]. split; [| intros _ _ _; now apply Hchk].
      intros i b Hin. no_such_report Hin.
    + match goal with |- context [?a ++ ?rest] =>
        match a with l =>
          pose proof (erase_checked_app _ rest (at_erase_verified_checked _ H)) as Hc end end.
      split; [intros _; exact Hc |]. split; [| intros _ _ _; now apply Hchk].
      intros i b Hin. no_such_report Hin.
    + match goal with |- context [?a ++ ?rest] =>
        match a with l =>
          pose proof (erase_checked_app _ rest (at_erase_verified_checked _ H)) as Hc end end.
      split; [intros _; exact Hc |]. split; [| intros _ _ _; now apply Hchk].
      intros i b Hin. no_such_report Hin.
    + match goal with |- context [?a ++ ?rest] =>
        match a with l =>
          pose proof (erase_checked_app _ rest (at_erase_verified_checked _ H)) as Hc end end.
      split; [intros _; exact Hc |]. split; [| intros _ _ _; now apply Hchk].
      intros i b Hin. no_such_report Hin.
    + match goal with |- context [?a ++ ?rest] =>
        match a with l =>
          pose proof (erase_checked_app _ rest (at_programmed_checked _ H)) as Hc end end.
      split; [intros _; exact Hc |]. split; [| intros _ _ _; now apply Hchk].
      intros i b Hin. no_such_report Hin.
    + match goal with |- context [?a ++ ?rest] =>
        match a with l =>
          pose proof (erase_checked_app _ rest (at_programmed_checked _ H)) as Hc end end.
      split; [intros _; exact Hc |]. split; [| intros _ _ _; now apply Hchk].
      intros i' b' Hin. no_such_report Hin.
Qed.

End EraseVerify.

(** ** Program and verify *)

Section ProgramVerify.

Context {D : Type} {hal : HAL D} {hdr : qspi_h}.

(** Compute [transmits] of a log shape in the goal. *)
Ltac transmits_goal :=
  repeat rewrite transmits_app;
  repeat match goal with
         | Hq : quiet ?ev |- _ => rewrite (proj2 (quiet_silent ev Hq))
         | Hf : failed_read ?c ?ev |- _ => rewrite (proj2 (failed_read_silent c ev Hf))
         | Ha : at_identified ?l |- _ =>
             let Ht := fresh "Ht" in
             destruct (at_identified_summary l Ha) as (? & ? & ? & _ & Ht); rewrite Ht; clear Ht
         | Ha : at_addressing ?l |- _ =>
             let Ht := fresh "Ht" in
             destruct (at_addressing_summary l Ha) as (? & ? & ? & _ & Ht); rewrite Ht; clear Ht
         | Ha : at_erased ?l |- _ =>
             let Ht := fresh "Ht" in
             destruct (at_erased_summary l Ha) as (? & ? & ? & _ & Ht); rewrite Ht; clear Ht
         | Ha : at_erase_verified ?l |- _ =>
             let Ht := fresh "Ht" in
             destruct (at_erase_verified_summary l Ha) as (? & ? & ? & _ & Ht);
             rewrite Ht; clear Ht
         end;
  try reflexivity.

Lemma test_pattern_bytes (i : Z) :
  0 <= i < TEST_PAGE_SIZE -> byte_at test_pattern i = Z.lxor i 0xA5.
Proof.
  intros Hi.
  assert (Hpat : test_pattern
                 = map (fun n => Z.lxor (Z.of_nat n) 0xA5) (seq 0 (Z.to_nat TEST_PAGE_SIZE)))
    by (vm_compute; reflexivity).
  rewrite Hpat. unfold byte_at.
  assert (Hlt : (Z.to_nat i < Z.to_nat TEST_PAGE_SIZE)%nat) by (unfold TEST_PAGE_SIZE in *; lia).
  rewrite (nth_indep _ 0 (Z.lxor (Z.of_nat 0) 0xA5)) by (rewrite length_map, length_seq; exact Hlt).
  rewrite (map_nth (fun n => Z.lxor (Z.of_nat n) 0xA5)).
  rewrite seq_nth by exact Hlt. cbn [Nat.add]. rewrite Z2Nat.id by lia. reflexivity.
Qed.

Lemma page_programmed_app (l x : list Event) (r : HAL_StatusTypeDef) :
  page_programmed l r -> transmits x = [] -> page_programmed (l ++ x) r.
Proof.
  intros (pre & post & -> & Hpre & Hpost) Hx.
  exists pre, (post ++ x). split; [list_eq |]. split; [exact Hpre |].
  rewrite transmits_app, Hpost, Hx. reflexivity.
Qed.

Lemma at_programmed_page (l : list Event) : at_programmed l -> page_programmed l HAL_OK.
Proof.
  intros (l0 & ev1 & ev2 & H0 & Hq1 & Hq2 & ->).
  exists (l0 ++ [EvPrintf (MsgProgramming TEST_PAGE_SIZE TEST_ADDR)] ++ ev1), ev2.
  split; [list_eq |]. split; transmits_goal.
Qed.

(** C8: in every finished run of the self-test,
    - the pattern is 256 bytes, byte [i] being [i xor 0xA5];
    - either nothing was transmitted, or exactly one transmit was made: the
      pattern, as the data phase of the page-program command for 256 bytes
      at [TEST_ADDR];
    - the final success report sits right after a read of the same 256
      bytes at [TEST_ADDR] whose buffer equals the pattern, after the page
      was programmed;
    - a reported mismatch carries the first offset at which that read-back
      differs from the pattern, with the pattern's byte and the byte read,
      and ends the log;
    - the run stands in one of four ways to the read-back after the page
      program: it stopped before that read-back, its last event being a
      failure report other than the mismatch, having issued at most the
      erase, the first read-back and the program as addressed commands;
      or the read-back failed on the bus and that was reported as the
      last event; or the read-back differs from the pattern and the run
      ended on the mismatch report for the first differing byte; or the
      read-back equals the pattern and the run ended on the success
      report;
    - whenever the log holds the 256-byte read-back of the programmed
      page, answered [HAL_OK]: if the bytes read equal the pattern, the
      success report follows and ends the log; otherwise the mismatch
      report for the first differing offset, with the byte expected and
      the byte read, follows and ends the log. *)
Theorem program_and_verify_page (fuel : nat) (d : D) (w' : World D) :
  MT25Q_RunSelfTest fuel (mkWorld d []) = Some (tt, w') ->
  (length test_pattern = 256%nat /\
   forall i, 0 <= i < 256 -> byte_at test_pattern i = Z.lxor i 0xA5) /\
  (transmits (log w') = [] \/ exists r, page_programmed (log w') r) /\
  (In (EvPrintf MsgProgramVerifyOK) (log w') ->
   exists pre,
     log w' = pre ++ [EvCommand (Read_4B_cmd TEST_ADDR TEST_PAGE_SIZE) HAL_OK;
                      EvReceive test_pattern HAL_OK; EvPrintf MsgProgramVerifyOK] /\
     at_programmed pre /\ page_programmed pre HAL_OK) /\
  (forall i e o,
      In (EvPrintf (MsgVerifyMismatch i e o)) (log w') ->
      exists pre buf,
        log w' = pre ++ [EvCommand (Read_4B_cmd TEST_ADDR TEST_PAGE_SIZE) HAL_OK;
                         EvReceive buf HAL_OK; EvPrintf (MsgVerifyMismatch i e o)] /\
        at_programmed pre /\ page_programmed pre HAL_OK /\ first_difference buf i e o) /\
  (((exists k : nat,
        (k <= 3)%nat /\ addressed_commands (log w') = firstn k test_page_commands) /\
    exists body m,
        log w' = body ++ [EvPrintf m] /\
        terminal_report m = true /\ m <> MsgProgramVerifyOK /\
        forall i e o, m <> MsgVerifyMismatch i e o) \/
   (exists pre ev,
       log w' = pre ++ ev ++ [EvPrintf MsgReadAfterProgramFailed] /\
       at_programmed pre /\ failed_read (Read_4B_cmd TEST_ADDR TEST_PAGE_SIZE) ev) \/
   (exists pre buf i e o,
       log w' = pre ++ [EvCommand (Read_4B_cmd TEST_ADDR TEST_PAGE_SIZE) HAL_OK;
                        EvReceive buf HAL_OK; EvPrintf (MsgVerifyMismatch i e o)] /\
       at_programmed pre /\ first_difference buf i e o) \/
   (exists pre,
       log w' = pre ++ [EvCommand (Read_4B_cmd TEST_ADDR TEST_PAGE_SIZE) HAL_OK;
                        EvReceive test_pattern HAL_OK; EvPrintf MsgProgramVerifyOK] /\
       at_programmed pre)) /\
  (forall pre buf post,
      log w' = pre ++ [EvCommand (Read_4B_cmd TEST_ADDR TEST_PAGE_SIZE) HAL_OK;
                       EvReceive buf HAL_OK] ++ post ->
      at_programmed pre ->
      (buf = test_pattern /\ post = [EvPrintf MsgProgramVerifyOK]) \/
      (exists i e o,
          first_difference buf i e o /\ post = [EvPrintf (MsgVerifyMismatch i e o)])).
Proof.
  intros Hrun. pose proof (selftest_log_shape fuel d w' Hrun) as Hs.
  assert (Hnew :
    (((exists k : nat,
          (k <= 3)%nat /\ addressed_commands (log w') = firstn k test_page_commands) /\
      exists body m,
        log w' = body ++ [EvPrintf m] /\
        terminal_report m = true /\ m <> MsgProgramVerifyOK /\
        forall i e o, m <> MsgVerifyMismatch i e o) \/
     (exists pre ev,
         log w' = pre ++ ev ++ [EvPrintf MsgReadAfterProgramFailed] /\
         at_programmed pre /\ failed_read (Read_4B_cmd TEST_ADDR TEST_PAGE_SIZE) ev) \/
     (exists pre buf i e o,
         log w' = pre ++ [EvCommand (Read_4B_cmd TEST_ADDR TEST_PAGE_SIZE) HAL_OK;
                          EvReceive buf HAL_OK; EvPrintf (MsgVerifyMismatch i e o)] /\
         at_programmed pre /\ first_difference buf i e o) \/
     (exists pre,
         log w' = pre ++ [EvCommand (Read_4B_cmd TEST_ADDR TEST_PAGE_SIZE) HAL_OK;
                          EvReceive test_pattern HAL_OK; EvPrintf MsgProgramVerifyOK] /\
         at_programmed pre)) /\
    (forall pre buf post,
        log w' = pre ++ [EvCommand (Read_4B_cmd TEST_ADDR TEST_PAGE_SIZE) HAL_OK;
                         EvReceive buf HAL_OK] ++ post ->
        at_programmed pre ->
        (buf = test_pattern /\ post = [EvPrintf MsgProgramVerifyOK]) \/
        (exists i e o,
            first_difference buf i e o /\ post = [EvPrintf (MsgVerifyMismatch i e o)]))).
  { split; [exact (program_readback_cases _ Hs) | exact (program_readback_forward _ Hs)]. }
  clear Hs.
  enough (Hold :
    (length test_pattern = 256%nat /\
     forall i, 0 <= i < 256 -> byte_at test_pattern i = Z.lxor i 0xA5) /\
    (transmits (log w') = [] \/ exists r, page_programmed (log w') r) /\
    (In (EvPrintf MsgProgramVerifyOK) (log w') ->
     exists pre,
       log w' = pre ++ [EvCommand (Read_4B_cmd TEST_ADDR TEST_PAGE_SIZE) HAL_OK;
                        EvReceive test_pattern HAL_OK; EvPrintf MsgProgramVerifyOK] /\
       at_programmed pre /\ page_programmed pre HAL_OK) /\
    (forall i e o,
        In (EvPrintf (MsgVerifyMismatch i e o)) (log w') ->
        exists pre buf,
          log w' = pre ++ [EvCommand (Read_4B_cmd TEST_ADDR TEST_PAGE_SIZE) HAL_OK;
                           EvReceive buf HAL_OK; EvPrintf (MsgVerifyMismatch i e o)] /\
          at_programmed pre /\ page_programmed pre HAL_OK /\ first_difference buf i e o)).
  { destruct Hold as (H1 & H2 & H3 & H4). destruct Hnew as (H5 & H6).
    split; [exact H1 |]. split; [exact H2 |]. split; [exact H3 |]. split; [exact H4 |].
    split; [exact H5 | exact H6]. }
  clear Hnew. apply selftest_log_shape in Hrun.
  remember (log w') as l eqn:El. clear El w' d.
  split; [split; [apply fill_pattern_length | exact test_pattern_bytes] |].
  destruct Hrun as [(l0 & buf & Hat & -> & ->) | Hh].
  - split; [| split].
    + right. exists HAL_OK. apply page_programmed_app; [now apply at_programmed_page | reflexivity].
    + intros _. exists l0. split; [reflexivity |]. split; [exact Hat | now apply at_programmed_page].
    + intros ? ? ? Hin. no_such_report Hin.
  - destruct Hh; explicit_tail.
    + split; [left; reflexivity |].
      split; [intros Hin; no_such_report Hin | intros ? ? ? Hin; no_such_report Hin].
    + split; [left; reflexivity |].
      split; [intros Hin; no_such_report Hin | intros ? ? ? Hin; no_such_report Hin].
    + split; [left; transmits_goal |].
      split; [intros Hin; no_such_report Hin | intros ? ? ? Hin; no_such_report Hin].
    + split; [left; transmits_goal |].
      split; [intros Hin; no_such_report Hin | intros ? ? ? Hin; no_such_report Hin].
    + split; [left; transmits_goal |].
      split; [intros Hin; no_such_report Hin | intros ? ? ? Hin; no_such_report Hin].
    + split; [left; transmits_goal |].
      split; [intros Hin; no_such_report Hin | intros ? ? ? Hin; no_such_report Hin].
    + split; [left; transmits_goal |].
      split; [intros Hin; no_such_report Hin | intros ? ? ? Hin; no_such_report Hin].
    + split; [left; transmits_goal |].
      split; [intros Hin; no_such_report Hin | intros ? ? ? Hin; no_such_report Hin].
    + split; [left; transmits_goal |].
      split; [intros Hin; no_such_report Hin | intros ? ? ? Hin; no_such_report Hin].
    + split; [left; transmits_goal |].
      split; [intros Hin; no_such_report Hin | intros ? ? ? Hin; no_such_report Hin].
    + (* program failed in the handshake *)
      split; [left; transmits_goal |].
      split; [intros Hin; no_such_report Hin | intros ? ? ? Hin; no_such_report Hin].
    + (* program command failed *)
      split; [left; transmits_goal |].
      split; [intros Hin; no_such_report Hin | intros ? ? ? Hin; no_such_report Hin].
    + (* transmit failed *)
      split.
      * right. exists x.
        exists (l ++ [EvPrintf (MsgProgramming TEST_PAGE_SIZE TEST_ADDR)] ++ ev),
               [EvPrintf MsgProgramFailed].
        split; [list_eq |]. split; transmits_goal.
      * split; [intros Hin; no_such_report Hin | intros ? ? ? Hin; no_such_report Hin].
    + (* program wait *)
      split.
      * right. exists HAL_OK.
        exists (l ++ [EvPrintf (MsgProgramming TEST_PAGE_SIZE TEST_ADDR)] ++ ev1),
               (ev2 ++ [EvPrintf MsgProgramTimeout]).
        split; [list_eq |]. split; transmits_goal.
      * split; [intros Hin; no_such_report Hin | intros ? ? ? Hin; no_such_report Hin].
    + (* read after program failed *)
      split.
      * right. exists HAL_OK. apply page_programmed_app; [now apply at_programmed_page |].
        transmits_goal.
      * split; [intros Hin; no_such_report Hin | intros ? ? ? Hin; no_such_report Hin].
    + (* mismatch *)
      split.
      * right. exists HAL_OK. apply page_programmed_app; [now apply at_programmed_page |].
        reflexivity.
      * split; [intros Hin; no_such_report Hin |].
        intros i' e' o' Hin. 
        pose proof (at_programmed_page _ H) as Hpage.
        reports_of Hin.
        assert (Heq : MsgVerifyMismatch i e o = MsgVerifyMismatch i' e' o')
          by intuition (discriminate || congruence).
        inversion Heq; subst. exists l, buf.
        split; [reflexivity |]. split; [assumption |]. split; assumption.
Qed.

End ProgramVerify.

(** ** The structural invariant of the commands issued *)

Section CommandInvariant.

Context {D : Type} {hal : HAL D} {hdr : qspi_h}.

Lemma cmd_invariant_b_true (c : QSPI_CommandTypeDef) :
  cmd_invariant_b c = true -> cmd_invariant c.
Proof.
  destruct c as [ins adr asz dum imode amode alt dmode nb sioo].
  unfold cmd_invariant_b, cmd_invariant; cbn.
  intros H. apply andb_true_iff in H. destruct H as [Ha Hd].
  split; [| split].
  - intros ->. destruct asz; [| discriminate]. apply Z.eqb_eq in Ha. now split.
  - intros Hm. destruct amode; [now elim Hm |]. destruct asz; [discriminate | reflexivity].
  - destruct dmode.
    + apply negb_true_iff, Z.ltb_ge in Hd. split; [lia | intros Hn; now elim Hn].
    + apply Z.ltb_lt in Hd. split; [discriminate | intros _; exact Hd].
Qed.

Lemma quiet_wf (ev : list Event) : quiet ev -> Forall wf_event ev.
Proof.
  intros H. eapply Forall_impl; [| exact H].
  intros [c r | | | | |] He; cbn in *; try exact I.
  apply cmd_invariant_b_true. destruct (AddressMode c); [exact He | discriminate].
Qed.

Lemma failed_read_wf (c : QSPI_CommandTypeDef) (ev : list Event) :
  cmd_invariant c -> failed_read c ev -> Forall wf_event ev.
Proof.
  intros Hc [(r & _ & ->) | (buf & r & _ & ->)];
    repeat (apply Forall_cons; [first [exact Hc | exact I] |]); apply Forall_nil.
Qed.

Ltac inv_tac :=
  unfold cmd_invariant; cbn; repeat split; intros;
  try discriminate; try congruence; try lia.

Lemma SendSimple_cmd_invariant (instruction : Z) : cmd_invariant (SendSimple_cmd instruction).
Proof. inv_tac. Qed.

Lemma ReadStatus_cmd_invariant : cmd_invariant ReadStatus_cmd.
Proof. inv_tac. Qed.

Lemma ReadID_cmd_invariant : cmd_invariant ReadID_cmd.
Proof. inv_tac. Qed.

Lemma Erase4K_cmd_invariant (addr : Z) : cmd_invariant (Erase4K_cmd addr).
Proof. inv_tac. Qed.

Lemma PageProgram_cmd_invariant (addr size : Z) :
  0 < size -> cmd_invariant (PageProgram_cmd addr size).
Proof. intros Hs. inv_tac. Qed.

Lemma Read_4B_cmd_invariant (addr size : Z) :
  0 < size -> cmd_invariant (Read_4B_cmd addr size).
Proof. intros Hs. inv_tac. Qed.

Ltac wf_command :=
  lazymatch goal with
  | |- True => exact I
  | |- cmd_invariant (SendSimple_cmd _) => apply SendSimple_cmd_invariant
  | |- cmd_invariant ReadID_cmd => apply ReadID_cmd_invariant
  | |- cmd_invariant (Erase4K_cmd _) => apply Erase4K_cmd_invariant
  | |- cmd_invariant (PageProgram_cmd _ _) => apply PageProgram_cmd_invariant; reflexivity
  | |- cmd_invariant (Read_4B_cmd _ _) => apply Read_4B_cmd_invariant; reflexivity
  end.

Ltac wf_explicit :=
  repeat lazymatch goal with
         | |- Forall _ [] => apply Forall_nil
         | |- Forall _ (_ :: _) => apply Forall_cons; [cbn [wf_event]; wf_command |]
         end.

Lemma at_identified_wf (l : list Event) : at_identified l -> Forall wf_event l.
Proof. intros (id & ->). unfold log_reset. cbn [app]. wf_explicit. Qed.

Lemma at_addressing_wf (l : list Event) : at_addressing l -> Forall wf_event l.
Proof.
  intros (l0 & ev & H0 & Hq & ->). apply Forall_app. split;
    [now apply at_identified_wf | now apply quiet_wf].
Qed.

Lemma at_erased_wf (l : list Event) : at_erased l -> Forall wf_event l.
Proof.
  intros (l0 & ev1 & ev2 & H0 & Hq1 & Hq2 & ->).
  repeat match goal with |- Forall _ (_ ++ _) => apply Forall_app; split end;
    first [now apply at_addressing_wf | now apply quiet_wf | wf_explicit].
Qed.

Lemma at_erase_verified_wf (l : list Event) : at_erase_verified l -> Forall wf_event l.
Proof.
  intros (l0 & buf & H0 & _ & ->).
  apply Forall_app; split; [now apply at_erased_wf | unfold TestRead_cmd; wf_explicit].
Qed.

Lemma at_programmed_wf (l : list Event) : at_programmed l -> Forall wf_event l.
Proof.
  intros (l0 & ev1 & ev2 & H0 & Hq1 & Hq2 & ->).
  repeat match goal with |- Forall _ (_ ++ _) => apply Forall_app; split end;
    first [now apply at_erase_verified_wf | now apply quiet_wf
          | unfold TestProgram_cmd; wf_explicit].
Qed.

Lemma halted_wf (l : list Event) : halted l -> Forall wf_event l.
Proof.
  intros Hh. destruct Hh; explicit_tail;
    repeat match goal with |- Forall _ (_ ++ _) => apply Forall_app; split end;
    lazymatch goal with
    | |- Forall _ (_ :: _) => unfold TestRead_cmd, TestProgram_cmd; wf_explicit
    | |- Forall _ [] => apply Forall_nil
    | |- Forall _ log_reset => unfold log_reset; wf_explicit
    | Hf : failed_read ?c ?ev |- Forall _ ?ev =>
        apply (failed_read_wf c ev); [unfold TestRead_cmd; wf_command | exact Hf]
    | Hq : quiet ?ev |- Forall _ ?ev => exact (quiet_wf ev Hq)
    | Ha : at_identified ?l |- Forall _ ?l => exact (at_identified_wf l Ha)
    | Ha : at_addressing ?l |- Forall _ ?l => exact (at_addressing_wf l Ha)
    | Ha : at_erased ?l |- Forall _ ?l => exact (at_erased_wf l Ha)
    | Ha : at_erase_verified ?l |- Forall _ ?l => exact (at_erase_verified_wf l Ha)
    | Ha : at_programmed ?l |- Forall _ ?l => exact (at_programmed_wf l Ha)
    end.
Qed.

(** C9, in the form the code satisfies: every command a finished run of the
    self-test
    issued satisfies the structural invariant, and so does the command
    each operation builds, for every instruction, every address and every
    positive data length. *)
Theorem issued_commands_well_formed
    (fuel : nat) (d : D) (w' : World D) (instruction addr size : Z) :
  MT25Q_RunSelfTest fuel (mkWorld d []) = Some (tt, w') ->
  0 < size ->
  (forall c r, In (EvCommand c r) (log w') -> cmd_invariant c) /\
  cmd_invariant (SendSimple_cmd instruction) /\
  cmd_invariant ReadStatus_cmd /\
  cmd_invariant ReadID_cmd /\
  cmd_invariant (Erase4K_cmd addr) /\
  cmd_invariant (PageProgram_cmd addr size) /\
  cmd_invariant (Read_4B_cmd addr size).
Proof.
  intros Hrun Hsize. split.
  - apply selftest_log_shape in Hrun.
    assert (Hwf : Forall wf_event (log w')).
    { destruct Hrun as [(l0 & buf & Hat & -> & ->) | Hh]; [| now apply halted_wf].
      apply Forall_app; split; [now apply at_programmed_wf |].
      unfold TestRead_cmd; wf_explicit. }
    intros c r Hin. rewrite Forall_forall in Hwf. exact (Hwf _ Hin).
  - split; [apply SendSimple_cmd_invariant |].
    split; [apply ReadStatus_cmd_invariant |].
    split; [apply ReadID_cmd_invariant |].
    split; [apply Erase4K_cmd_invariant |].
    split; [now apply PageProgram_cmd_invariant | now apply Read_4B_cmd_invariant].
Qed.

End CommandInvariant.

(** ** The self-test on the simulated flash *)

Lemma run_flash0_final :
  MT25Q_RunSelfTest (hdr := MT25Q_header) 8 (mkWorld flash0 []) = Some (tt, flash0_final).
Proof. vm_compute. reflexivity. Qed.

Lemma run_flash_no_erase_final :
  MT25Q_RunSelfTest (hdr := MT25Q_header) 8 (mkWorld flash_no_erase [])
  = Some (tt, flash_no_erase_final).
Proof. vm_compute. reflexivity. Qed.

Lemma run_legacy_program_final :
  MT25Q_RunSelfTest (hdr := legacy_program_header) 8 (mkWorld flash0 [])
  = Some (tt, legacy_program_final).
Proof. vm_compute. reflexivity. Qed.

(** C2 does not hold as the specification words it: on a part whose
    subsector erase clears only the
    first 256 bytes, the self-test reports the erase verified and passes;
    its only reads are of 256 bytes, and the byte at offset 256 of the
    4 KiB region it erased still holds 0x00. *)
Lemma erase_verify_misses_rest_of_subsector :
  match run_flash 8 flash_short_erase with
  | Some (_, w') =>
      reports (log w')
      = [MsgSelfTestStart; MsgJedecId 0x20 0xBA 0x20; MsgErasing TEST_ADDR; MsgEraseOK;
         MsgProgramming TEST_PAGE_SIZE TEST_ADDR; MsgProgramVerifyOK] /\
      addressed_commands (log w')
      = [Erase4K_cmd (hdr := MT25Q_header) TEST_ADDR;
         Read_4B_cmd (hdr := MT25Q_header) TEST_ADDR 256;
         PageProgram_cmd (hdr := MT25Q_header) TEST_ADDR 256;
         Read_4B_cmd (hdr := MT25Q_header) TEST_ADDR 256] /\
      TEST_ADDR <= TEST_ADDR + 256 < TEST_ADDR + 4096 /\
      fs_mem (dev w') (TEST_ADDR + 256) = 0x00
  | None => False
  end.
Proof. vm_compute. repeat split; discriminate. Qed.

(** The theorem of C2 on two simulated parts: on the healthy one the run
    reports "Erase OK" right after a read-back of 256 bytes of 0xFF; on
    the part whose erase clears nothing the run ends on the erase-verify
    failure, and the read-back in its log can only be followed by that
    report. *)
Lemma erase_verify_checks_first_page_witness :
  (exists pre buf post,
      log flash0_final
      = pre ++ [EvCommand (Read_4B_cmd (hdr := MT25Q_header) TEST_ADDR TEST_PAGE_SIZE) HAL_OK;
                EvReceive buf HAL_OK; EvPrintf MsgEraseOK] ++ post /\
      at_erased (hdr := MT25Q_header) pre /\ erased_page buf) /\
  (run_flash 8 flash_no_erase = Some (tt, flash_no_erase_final) /\
      reports (log flash_no_erase_final)
      = [MsgSelfTestStart; MsgJedecId 0x20 0xBA 0x20; MsgErasing TEST_ADDR;
         MsgEraseVerifyFailed 0 0] /\
      forall pre buf post,
        log flash_no_erase_final
        = pre ++ [EvCommand (Read_4B_cmd (hdr := MT25Q_header) TEST_ADDR TEST_PAGE_SIZE) HAL_OK;
                  EvReceive buf HAL_OK] ++ post ->
        at_erased (hdr := MT25Q_header) pre ->
        (erased_page buf /\ exists post', post = EvPrintf MsgEraseOK :: post') \/
        (exists i b,
            first_not_erased buf i b /\ post = [EvPrintf (MsgEraseVerifyFailed i b)])).
Proof.
  split.
  - apply (proj1 (proj2 (proj2 (erase_verify_checks_first_page (hdr := MT25Q_header)
                                  8 flash0 flash0_final run_flash0_final)))).
    vm_compute. repeat first [left; reflexivity | right].
  - split; [exact run_flash_no_erase_final |]. split; [vm_compute; reflexivity |].
    exact (proj1 (proj2 (erase_verify_checks_first_page (hdr := MT25Q_header)
                           8 flash_no_erase flash_no_erase_final
                           run_flash_no_erase_final))).
Defined.

(** C8 on the healthy simulated flash, with two headers.  With the
    data-sheet opcodes the run ends with the success report right after
    the read-back of the pattern.  With a header that kept the 3-byte
    page-program opcode the part does not program the page: the read-back
    is still 0xFF, the run ends on the mismatch at offset 0 (wrote 0xA5,
    read 0xFF), and the read-back in its log can only be followed by that
    report. *)
Lemma program_and_verify_page_witness :
  (exists pre,
      log flash0_final
      = pre ++ [EvCommand (Read_4B_cmd (hdr := MT25Q_header) TEST_ADDR TEST_PAGE_SIZE) HAL_OK;
                EvReceive test_pattern HAL_OK; EvPrintf MsgProgramVerifyOK] /\
      at_programmed (hdr := MT25Q_header) pre /\
      page_programmed (hdr := MT25Q_header) pre HAL_OK) /\
  (MT25Q_RunSelfTest (hdr := legacy_program_header) 8 (mkWorld flash0 [])
      = Some (tt, legacy_program_final) /\
      reports (log legacy_program_final)
      = [MsgSelfTestStart; MsgJedecId 0x20 0xBA 0x20; MsgErasing TEST_ADDR; MsgEraseOK;
         MsgProgramming TEST_PAGE_SIZE TEST_ADDR; MsgVerifyMismatch 0 0xA5 0xFF] /\
      forall pre buf post,
        log legacy_program_final
        = pre ++ [EvCommand (Read_4B_cmd (hdr := legacy_program_header)
                                         TEST_ADDR TEST_PAGE_SIZE) HAL_OK;
                  EvReceive buf HAL_OK] ++ post ->
        at_programmed (hdr := legacy_program_header) pre ->
        (buf = test_pattern /\ post = [EvPrintf MsgProgramVerifyOK]) \/
        (exists i e o,
            first_difference buf i e o /\ post = [EvPrintf (MsgVerifyMismatch i e o)])).
Proof.
  split.
  - apply (proj1 (proj2 (proj2 (program_and_verify_page (hdr := MT25Q_header)
                                  8 flash0 flash0_final run_flash0_final)))).
    vm_compute. repeat first [left; reflexivity | right].
  - split; [exact run_legacy_program_final |]. split; [vm_compute; reflexivity |].
    exact (proj2 (proj2 (proj2 (proj2 (proj2
             (program_and_verify_page (hdr := legacy_program_header)
                8 flash0 legacy_program_final run_legacy_program_final)))))).
Defined.

(** C9 does not hold as the specification words it: a read of length 0 puts
    on the bus a command with
    a data phase and a data length of 0. *)
Lemma Read_4B_zero_length_command :
  match QSPI_Read_4B (hdr := MT25Q_header) TEST_ADDR [] 0 (mkWorld flash_erased []) with
  | Some (_, w') =>
      log w' = [EvCommand (Read_4B_cmd (hdr := MT25Q_header) TEST_ADDR 0) HAL_OK;
                EvReceive [] HAL_OK]
  | None => False
  end /\
  DataMode (Read_4B_cmd (hdr := MT25Q_header) TEST_ADDR 0) = QSPI_DATA_1_LINE /\
  NbData (Read_4B_cmd (hdr := MT25Q_header) TEST_ADDR 0) = 0 /\
  ~ cmd_invariant (Read_4B_cmd (hdr := MT25Q_header) TEST_ADDR 0).
Proof.
  split; [vm_compute; reflexivity |]. split; [reflexivity |]. split; [reflexivity |].
  intros (_ & _ & Hdata). cbn in Hdata.
  assert (H : 0 < 0) by (apply Hdata; discriminate). lia.
Qed.

(** The theorem of C9 on the healthy simulated flash, with a one-byte read. *)
Lemma issued_commands_well_formed_witness :
  (forall c r, In (EvCommand c r) (log flash0_final) -> cmd_invariant c) /\
  cmd_invariant (Read_4B_cmd (hdr := MT25Q_header) TEST_ADDR 1).
Proof.
  destruct (issued_commands_well_formed (hdr := MT25Q_header)
              8 flash0 flash0_final 0x9F TEST_ADDR 1 run_flash0_final)
    as (Hlog & _ & _ & _ & _ & _ & Hread).
  - lia.
  - split; [exact Hlog | exact Hread].
Defined.

(** * Further properties of the driver *)

(** ** What the results of the polling loops mean *)

Section PollOutcome.

Context {D : Type} {hal : HAL D} {hdr : qspi_h}.

Lemma ReadStatus_outcome (sr : Z) (w : World D) r sr' w' :
  QSPI_ReadStatus sr w = Some ((r, sr'), w') ->
  (exists rc, rc <> HAL_OK /\ r = HAL_ERROR /\ sr' = sr /\
              log w' = log w ++ [EvCommand ReadStatus_cmd rc]) \/
  (exists buf, sr' = byte_at buf 0 /\
               log w' = log w ++ [EvCommand ReadStatus_cmd HAL_OK; EvReceive buf r]).
Proof.
  unfold QSPI_ReadStatus, bind, call_Command, call_Receive, ret.
  destruct (HAL_QSPI_Command ReadStatus_cmd QSPI_TIMEOUT (dev w)) as [rc d1].
  destruct (not_ok rc) eqn:Hrc; cbn [dev log].
  - intros H; inversion H; subst; cbn [log]. left. exists rc.
    split; [intros ->; discriminate |]. repeat split.
  - apply not_ok_false in Hrc. subst rc.
    destruct (HAL_QSPI_Receive QSPI_TIMEOUT d1) as [[rr data] d2].
    intros H; inversion H; subst; cbn [log fst snd]. right.
    exists (store_rx [sr] data). split; [reflexivity | now rewrite <- app_assoc].
Qed.

(** The meaning of each result of a polling loop, for any environment:
    [HAL_OK] comes from a status read that answered [HAL_OK] and showed
    the awaited bits; [HAL_TIMEOUT] from a tick reading at or past the
    deadline; [HAL_ERROR] from a status transaction that failed; and
    [HAL_BUSY] is never returned. *)
Lemma poll_loop_outcome (done : Z -> bool) (fuel : nat) (timeout_ms start sr : Z)
    (w : World D) r w' :
  poll_loop done fuel timeout_ms start sr w = Some (r, w') ->
  exists ev,
    log w' = log w ++ ev /\ quiet ev /\
    match r with
    | HAL_OK => ends_with_status done ev
    | HAL_TIMEOUT =>
        exists pre now, ev = pre ++ [EvGetTick now] /\ timeout_ms <= uint32 (now - start)
    | HAL_ERROR => exists pre tl, ev = pre ++ tl /\ failed_read ReadStatus_cmd tl
    | HAL_BUSY => False
    end.
Proof.
  revert sr w. induction fuel as [| fuel IH]; intros sr w; [discriminate |].
  rewrite poll_loop_S. unfold bind at 1.
  destruct (QSPI_ReadStatus sr w) as [[[rs sr1] w1] |] eqn:E1; [| discriminate].
  apply ReadStatus_outcome in E1. cbn [fst snd].
  destruct E1 as [(rc & Hrc & -> & -> & Hlog) | (buf & -> & Hlog)].
  - cbn [not_ok HAL_Status_eqb negb]. intros H; inversion H; subst.
    exists [EvCommand ReadStatus_cmd rc]. split; [exact Hlog |].
    split; [repeat constructor |].
    exists [], [EvCommand ReadStatus_cmd rc]. split; [reflexivity |].
    left. exists rc. split; [exact Hrc | reflexivity].
  - assert (Hq : quiet [EvCommand ReadStatus_cmd HAL_OK; EvReceive buf rs])
      by (repeat constructor).
    destruct (not_ok rs) eqn:Hrs.
    { intros H; inversion H; subst.
      exists [EvCommand ReadStatus_cmd HAL_OK; EvReceive buf rs].
      split; [exact Hlog |]. split; [exact Hq |].
      exists [], [EvCommand ReadStatus_cmd HAL_OK; EvReceive buf rs]. split; [reflexivity |].
      right. exists buf, rs. split; [intros ->; discriminate | reflexivity]. }
    apply not_ok_false in Hrs. subst rs.
    destruct (done (byte_at buf 0)) eqn:Hdone.
    { intros H; inversion H; subst.
      exists [EvCommand ReadStatus_cmd HAL_OK; EvReceive buf HAL_OK].
      split; [exact Hlog |]. split; [exact Hq |].
      exists [], buf. split; [reflexivity | exact Hdone]. }
    unfold bind, call_GetTick. destruct (HAL_GetTick (dev w1)) as [t d2].
    destruct (Z.ltb_spec (uint32 (uint32 t - start)) timeout_ms) as [Hgo | Hstop].
    + intros H. apply IH in H. destruct H as (ev & Hev & Hqev & Hres). cbn [log] in Hev.
      exists ([EvCommand ReadStatus_cmd HAL_OK; EvReceive buf HAL_OK]
                ++ [EvGetTick (uint32 t)] ++ ev).
      split; [rewrite Hev, Hlog; list_eq |].
      split; [apply quiet_app; [exact Hq | apply quiet_app; [repeat constructor | exact Hqev]] |].
      destruct r.
      * destruct Hres as (pre & b & -> & Hb).
        exists ([EvCommand ReadStatus_cmd HAL_OK; EvReceive buf HAL_OK]
                  ++ [EvGetTick (uint32 t)] ++ pre), b.
        split; [list_eq | exact Hb].
      * destruct Hres as (pre & tl & -> & Htl).
        exists ([EvCommand ReadStatus_cmd HAL_OK; EvReceive buf HAL_OK]
                  ++ [EvGetTick (uint32 t)] ++ pre), tl.
        split; [list_eq | exact Htl].
      * exact Hres.
      * destruct Hres as (pre & now & -> & Hnow).
        exists ([EvCommand ReadStatus_cmd HAL_OK; EvReceive buf HAL_OK]
                  ++ [EvGetTick (uint32 t)] ++ pre), now.
        split; [list_eq | exact Hnow].
    + intros H; inversion H; subst; cbn [log].
      exists ([EvCommand ReadStatus_cmd HAL_OK; EvReceive buf HAL_OK] ++ [EvGetTick (uint32 t)]).
      split; [rewrite Hlog; list_eq |].
      split; [repeat constructor |].
      exists [EvCommand ReadStatus_cmd HAL_OK; EvReceive buf HAL_OK], (uint32 t).
      split; [reflexivity | exact Hstop].
Qed.

Lemma WaitWhileBusy_outcome (fuel : nat) (timeout_ms : Z) (w : World D) r w' :
  QSPI_WaitWhileBusy fuel timeout_ms w = Some (r, w') ->
  exists start ev,
    log w' = log w ++ EvGetTick start :: ev /\ quiet ev /\
    match r with
    | HAL_OK => ends_with_status wip_clear ev
    | HAL_TIMEOUT =>
        exists pre now, ev = pre ++ [EvGetTick now] /\ timeout_ms <= uint32 (now - start)
    | HAL_ERROR => exists pre tl, ev = pre ++ tl /\ failed_read ReadStatus_cmd tl
    | HAL_BUSY => False
    end.
Proof.
  unfold QSPI_WaitWhileBusy, bind, call_GetTick.
  destruct (HAL_GetTick (dev w)) as [t d1]. rewrite WaitWhileBusy_loop_poll.
  intros H. apply poll_loop_outcome in H. destruct H as (ev & Hev & Hq & Hres).
  cbn [log] in Hev. exists (uint32 t), ev.
  split; [rewrite Hev; list_eq |]. split; [exact Hq | exact Hres].
Qed.

Lemma WriteEnable_outcome (fuel : nat) (w : World D) r w' :
  QSPI_WriteEnable fuel w = Some (r, w') ->
  exists ev,
    log w' = log w ++ ev /\ quiet ev /\
    match r with
    | HAL_OK =>
        exists start mid,
          ev = EvCommand (SendSimple_cmd CMD_WRITE_ENABLE) HAL_OK :: EvGetTick start :: mid /\
          ends_with_status wel_set mid
    | HAL_TIMEOUT =>
        exists start pre now,
          ev = EvCommand (SendSimple_cmd CMD_WRITE_ENABLE) HAL_OK :: EvGetTick start
                 :: pre ++ [EvGetTick now] /\
          QSPI_TIMEOUT <= uint32 (now - start)
    | HAL_ERROR =>
        (exists rc, rc <> HAL_OK /\ ev = [EvCommand (SendSimple_cmd CMD_WRITE_ENABLE) rc]) \/
        (exists pre tl, ev = pre ++ tl /\ failed_read ReadStatus_cmd tl)
    | HAL_BUSY => False
    end.
Proof.
  unfold QSPI_WriteEnable, bind, QSPI_SendSimple, call_Command.
  destruct (HAL_QSPI_Command (SendSimple_cmd CMD_WRITE_ENABLE) QSPI_TIMEOUT (dev w)) as [rc d1].
  destruct (not_ok rc) eqn:Hrc.
  - intros H; inversion H; subst; cbn [log].
    exists [EvCommand (SendSimple_cmd CMD_WRITE_ENABLE) rc].
    split; [reflexivity |]. split; [repeat constructor |].
    left. exists rc. split; [intros ->; discriminate | reflexivity].
  - apply not_ok_false in Hrc. subst rc. unfold call_GetTick; cbn [dev log].
    destruct (HAL_GetTick d1) as [t d2]. rewrite WriteEnable_loop_poll.
    intros H. apply poll_loop_outcome in H. destruct H as (ev & Hev & Hq & Hres).
    cbn [log] in Hev.
    exists (EvCommand (SendSimple_cmd CMD_WRITE_ENABLE) HAL_OK :: EvGetTick (uint32 t) :: ev).
    split; [rewrite Hev; list_eq |].
    split; [repeat constructor; exact Hq |].
    destruct r.
    + exists (uint32 t), ev. split; [reflexivity | exact Hres].
    + right. destruct Hres as (pre & tl & -> & Htl).
      exists (EvCommand (SendSimple_cmd CMD_WRITE_ENABLE) HAL_OK :: EvGetTick (uint32 t) :: pre), tl.
      split; [reflexivity | exact Htl].
    + exact Hres.
    + destruct Hres as (pre & now & -> & Hnow).
      exists (uint32 t), pre, now. split; [reflexivity | exact Hnow].
Qed.

End PollOutcome.

(** ** Results of the operations, for any environment *)

(** Equality of two logs up to the bracketing of [++] and [::]. *)
Ltac log_eq := repeat first [rewrite <- app_assoc | progress cbn [app]]; reflexivity.

Section OperationOutcomes.

Context {D : Type} {hal : HAL D} {hdr : qspi_h}.

Lemma quiet_app_inv (a b : list Event) : quiet (a ++ b) -> quiet a /\ quiet b.
Proof. intros H. apply Forall_app in H. exact H. Qed.

Lemma wel_set_true (sr : Z) : wel_set sr = true -> Z.land sr SR_WEL_MASK <> 0.
Proof. unfold wel_set. intros H. apply negb_true_iff in H. now apply Z.eqb_neq. Qed.

(** X1: the busy wait returns [HAL_OK] only from a status transaction that
    itself returned [HAL_OK] and whose status byte has WIP clear; that
    transaction is the last thing the wait did. *)
Theorem WaitWhileBusy_ok_means_idle
    (fuel : nat) (timeout_ms : Z) (w w' : World D) :
  QSPI_WaitWhileBusy fuel timeout_ms w = Some (HAL_OK, w') ->
  exists start pre buf,
    log w' = log w ++ EvGetTick start :: pre
               ++ [EvCommand ReadStatus_cmd HAL_OK; EvReceive buf HAL_OK] /\
    Z.land (byte_at buf 0) SR_WIP_MASK = 0.
Proof.
  intros H. apply WaitWhileBusy_outcome in H.
  destruct H as (start & ev & Hlog & _ & pre & buf & -> & Hclear).
  exists start, pre, buf. split; [exact Hlog |].
  unfold wip_clear in Hclear. now apply Z.eqb_eq.
Qed.

(** X2: the busy wait returns [HAL_TIMEOUT] only after a tick reading
    that lies [timeout_ms] or more (in 32-bit arithmetic) after the tick
    it read on entry; nothing but status polls and tick reads lies in
    between, and that reading is the last thing the wait did. *)
Theorem WaitWhileBusy_timeout_means_deadline
    (fuel : nat) (timeout_ms : Z) (w w' : World D) :
  QSPI_WaitWhileBusy fuel timeout_ms w = Some (HAL_TIMEOUT, w') ->
  exists start pre now,
    log w' = log w ++ EvGetTick start :: pre ++ [EvGetTick now] /\
    timeout_ms <= uint32 (now - start) /\
    quiet pre.
Proof.
  intros H. apply WaitWhileBusy_outcome in H.
  destruct H as (start & ev & Hlog & Hq & pre & now & -> & Hnow).
  exists start, pre, now. split; [exact Hlog |]. split; [exact Hnow |].
  now apply quiet_app_inv in Hq.
Qed.

(** X3: whatever the HAL answers, the busy wait and the write-enable
    handshake never return [HAL_BUSY], each taken on its own.  The busy
    wait returns [HAL_ERROR] only when a status transaction did not
    return [HAL_OK]: its command phase, or its data phase after an
    accepted command phase, as the last thing on the bus.  The handshake
    returns [HAL_ERROR] only when its write-enable command was not
    accepted, that command being all it did, or when a status transaction
    failed in the same way.  Any failure status of the HAL ([HAL_BUSY]
    and [HAL_TIMEOUT] included) is reported as [HAL_ERROR]. *)
Theorem polling_error_means_bus_fault
    (fuel : nat) (timeout_ms : Z) (w : World D) :
  (forall (r : HAL_StatusTypeDef) (w' : World D),
      QSPI_WaitWhileBusy fuel timeout_ms w = Some (r, w') ->
      r <> HAL_BUSY /\
      (r = HAL_ERROR ->
       exists start pre tl,
         log w' = log w ++ EvGetTick start :: pre ++ tl /\ failed_read ReadStatus_cmd tl)) /\
  (forall (r : HAL_StatusTypeDef) (w' : World D),
      QSPI_WriteEnable fuel w = Some (r, w') ->
      r <> HAL_BUSY /\
      (r = HAL_ERROR ->
       (exists rc,
           rc <> HAL_OK /\
           log w' = log w ++ [EvCommand (SendSimple_cmd CMD_WRITE_ENABLE) rc]) \/
       (exists pre tl, log w' = log w ++ pre ++ tl /\ failed_read ReadStatus_cmd tl))).
Proof.
  split; intros r w' H.
  - apply WaitWhileBusy_outcome in H. destruct H as (start & ev & Hlog & _ & Hres).
    split.
    + intros ->. exact Hres.
    + intros ->. destruct Hres as (pre & tl & -> & Htl).
      exists start, pre, tl. split; [exact Hlog | exact Htl].
  - apply WriteEnable_outcome in H. destruct H as (ev & Hlog & _ & Hres).
    split.
    + intros ->. exact Hres.
    + intros ->. destruct Hres as [(rc & Hrc & ->) | (pre & tl & -> & Htl)].
      * left. exists rc. split; [exact Hrc | exact Hlog].
      * right. exists pre, tl. split; [exact Hlog | exact Htl].
Qed.

(** X4: the write-enable handshake returns [HAL_OK] only when its
    write-enable command was accepted and, after it, a status transaction
    returned [HAL_OK] with WEL set; that transaction is the last thing the
    handshake did. *)
Theorem WriteEnable_ok_means_latched (fuel : nat) (w w' : World D) :
  QSPI_WriteEnable fuel w = Some (HAL_OK, w') ->
  exists start pre buf,
    log w' = log w ++ EvCommand (SendSimple_cmd CMD_WRITE_ENABLE) HAL_OK
               :: EvGetTick start :: pre
               ++ [EvCommand ReadStatus_cmd HAL_OK; EvReceive buf HAL_OK] /\
    Z.land (byte_at buf 0) SR_WEL_MASK <> 0.
Proof.
  intros H. apply WriteEnable_outcome in H.
  destruct H as (ev & Hlog & _ & start & mid & -> & pre & buf & -> & Hwel).
  exists start, pre, buf. split; [exact Hlog | now apply wel_set_true].
Qed.

Lemma uint32_nonneg (z : Z) : 0 <= uint32 z.
Proof. unfold uint32. apply Z.mod_pos_bound. lia. Qed.

Lemma zero_timeout_fuel (fuel : nat) (timeout_ms : Z) (w : World D) :
  timeout_ms <= 0 ->
  QSPI_WaitWhileBusy (S fuel) timeout_ms w = QSPI_WaitWhileBusy 1 timeout_ms w.
Proof.
  intros Ht. unfold QSPI_WaitWhileBusy. cbn [WaitWhileBusy_loop]. unfold bind.
  destruct (call_GetTick w) as [[start w0] |]; [| reflexivity].
  destruct (QSPI_ReadStatus 0 w0) as [[rs w1] |]; [| reflexivity].
  destruct (not_ok (fst rs)); [reflexivity |].
  destruct (Z.land (snd rs) SR_WIP_MASK =? 0); [reflexivity |].
  destruct (call_GetTick w1) as [[now w2] |]; [| reflexivity].
  destruct (Z.ltb_spec (uint32 (now - start)) timeout_ms) as [Hgo | Hstop]; [| reflexivity].
  pose proof (uint32_nonneg (now - start)). lia.
Qed.

(** X5: with a timeout of 0 (or less) the busy wait makes exactly one
    status poll whatever the fuel: it reads the tick, issues one status
    transaction and returns, with no further command, whatever the status
    was. *)
Theorem WaitWhileBusy_zero_timeout_single_poll
    (fuel : nat) (timeout_ms : Z) (w : World D) (r : HAL_StatusTypeDef) (w' : World D) :
  timeout_ms <= 0 ->
  QSPI_WaitWhileBusy (S fuel) timeout_ms w = Some (r, w') ->
  QSPI_WaitWhileBusy 1 timeout_ms w = Some (r, w') /\
  exists start rc tl,
    log w' = log w ++ EvGetTick start :: EvCommand ReadStatus_cmd rc :: tl /\
    forall c rc', ~ In (EvCommand c rc') tl.
Proof.
  intros Ht H. rewrite (zero_timeout_fuel fuel timeout_ms w Ht) in H.
  split; [exact H |]. revert H.
  unfold QSPI_WaitWhileBusy, bind at 1, call_GetTick.
  destruct (HAL_GetTick (dev w)) as [t d1].
  cbn [WaitWhileBusy_loop]. unfold bind at 1.
  destruct (QSPI_ReadStatus 0 (mkWorld d1 (log w ++ [EvGetTick (uint32 t)])))
    as [[[rs sr1] w1] |] eqn:E1; [| discriminate].
  apply ReadStatus_outcome in E1. cbn [fst snd log] in *.
  assert (Hshape : exists rc tl,
             log w1 = log w ++ EvGetTick (uint32 t) :: EvCommand ReadStatus_cmd rc :: tl /\
             forall c rc', ~ In (EvCommand c rc') tl).
  { destruct E1 as [(rc & _ & _ & _ & Hlog) | (buf & _ & Hlog)].
    - exists rc, []. split; [rewrite Hlog; log_eq | intros c rc' []].
    - exists HAL_OK, [EvReceive buf rs]. split; [rewrite Hlog; log_eq |].
      intros c rc' [Hin | []]. discriminate. }
  destruct Hshape as (rc & tl & Hlog & Hno).
  destruct (not_ok rs).
  { intros H; inversion H; subst. exists (uint32 t), rc, tl. now split. }
  destruct (Z.land sr1 SR_WIP_MASK =? 0).
  { intros H; inversion H; subst. exists (uint32 t), rc, tl. now split. }
  unfold bind, call_GetTick. destruct (HAL_GetTick (dev w1)) as [t2 d2].
  destruct (uint32 (uint32 t2 - uint32 t) <? timeout_ms); [discriminate |].
  intros H; inversion H; subst; cbn [log].
  exists (uint32 t), rc, (tl ++ [EvGetTick (uint32 t2)]).
  split; [rewrite Hlog; log_eq |].
  intros c rc' Hin. apply in_app_or in Hin. destruct Hin as [Hin | [Hin | []]].
  - exact (Hno _ _ Hin).
  - discriminate.
Qed.

(** X6: the subsector erase puts its erase command on the bus only as
    its very last action, right after a status transaction that returned
    [HAL_OK] with WEL set, and then returns that command's status
    unchanged; in every other case it returns [HAL_ERROR] having issued
    no addressed command at all. *)
Theorem Erase4K_command_follows_WEL
    (fuel : nat) (addr : Z) (w : World D) (r : HAL_StatusTypeDef) (w' : World D) :
  QSPI_Erase4K_4B fuel addr w = Some (r, w') ->
  exists ev,
    log w' = log w ++ ev /\
    ((r = HAL_ERROR /\ quiet ev) \/
     (exists pre buf,
         ev = pre ++ [EvCommand ReadStatus_cmd HAL_OK; EvReceive buf HAL_OK;
                      EvCommand (Erase4K_cmd addr) r] /\
         quiet pre /\ Z.land (byte_at buf 0) SR_WEL_MASK <> 0)).
Proof.
  unfold QSPI_Erase4K_4B, bind.
  destruct (QSPI_WriteEnable fuel w) as [[r1 w1] |] eqn:E; [| discriminate].
  apply WriteEnable_outcome in E. destruct E as (ev & Hlog & Hq & Hres).
  destruct r1; cbn [not_ok HAL_Status_eqb negb];
    try (intros H; inversion H; subst; exists ev; split; [exact Hlog | left; now split]).
  unfold call_Command.
  destruct (HAL_QSPI_Command (Erase4K_cmd addr) QSPI_TIMEOUT (dev w1)) as [rc d2].
  intros H; inversion H; subst; cbn [log].
  destruct Hres as (start & mid & -> & pre & buf & -> & Hwel).
  eexists. split; [rewrite Hlog; repeat rewrite <- app_assoc; reflexivity |]. right.
  exists (EvCommand (SendSimple_cmd CMD_WRITE_ENABLE) HAL_OK :: EvGetTick start :: pre), buf.
  split; [log_eq |]. split; [| now apply wel_set_true].
  change (quiet ([EvCommand (SendSimple_cmd CMD_WRITE_ENABLE) HAL_OK; EvGetTick start] ++ pre)).
  change (quiet (([EvCommand (SendSimple_cmd CMD_WRITE_ENABLE) HAL_OK; EvGetTick start] ++ pre)
                   ++ [EvCommand ReadStatus_cmd HAL_OK; EvReceive buf HAL_OK])) in Hq.
  now apply quiet_app_inv in Hq.
Qed.

(** X7: the page program transmits data only as its very last action,
    after a status transaction that returned [HAL_OK] with WEL set and a
    program command that was accepted; the length passed the guard, the
    payload is the first [size] bytes of the caller's data, and the result
    is the transmit's status unchanged.  In every other case it returns
    [HAL_ERROR] and nothing was transmitted. *)
Theorem PageProgram_transmit_follows_WEL
    (fuel : nat) (addr : Z) (data : list Z) (size : Z) (w : World D)
    (r : HAL_StatusTypeDef) (w' : World D) :
  QSPI_PageProgram_4B fuel addr data size w = Some (r, w') ->
  exists ev,
    log w' = log w ++ ev /\
    ((r = HAL_ERROR /\ transmits ev = []) \/
     (exists pre buf,
         ev = pre ++ [EvCommand ReadStatus_cmd HAL_OK; EvReceive buf HAL_OK;
                      EvCommand (PageProgram_cmd addr size) HAL_OK;
                      EvTransmit (firstn (Z.to_nat size) data) r] /\
         quiet pre /\ Z.land (byte_at buf 0) SR_WEL_MASK <> 0 /\
         size <> 0 /\ size <= TEST_PAGE_SIZE)).
Proof.
  unfold QSPI_PageProgram_4B.
  destruct (Z.eqb_spec size 0) as [H0 | H0]; cbn [orb].
  { intros H; inversion H; subst. exists []. split; [now rewrite app_nil_r | left; now split]. }
  destruct (Z.ltb_spec TEST_PAGE_SIZE size) as [H1 | H1].
  { intros H; inversion H; subst. exists []. split; [now rewrite app_nil_r | left; now split]. }
  unfold bind.
  destruct (QSPI_WriteEnable fuel w) as [[r1 w1] |] eqn:E; [| discriminate].
  apply WriteEnable_outcome in E. destruct E as (ev & Hlog & Hq & Hres).
  destruct r1; cbn [not_ok HAL_Status_eqb negb];
    try (intros H; inversion H; subst; exists ev; split; [exact Hlog |]; left;
         split; [reflexivity | exact (proj2 (quiet_silent ev Hq))]).
  unfold call_Command.
  destruct (HAL_QSPI_Command (PageProgram_cmd addr size) QSPI_TIMEOUT (dev w1)) as [rc d2].
  destruct (not_ok rc) eqn:Hrc; cbn [dev log].
  { intros H; inversion H; subst; cbn [log]. eexists. split; [rewrite Hlog; repeat rewrite <- app_assoc; reflexivity |].
    left. split; [reflexivity |].
    rewrite transmits_app, (proj2 (quiet_silent ev Hq)). reflexivity. }
  apply not_ok_false in Hrc. subst rc. unfold call_Transmit; cbn [dev log].
  destruct (HAL_QSPI_Transmit (firstn (Z.to_nat size) data) QSPI_TIMEOUT d2) as [rt d3].
  intros H; inversion H; subst; cbn [log].
  destruct Hres as (start & mid & -> & pre & buf & -> & Hwel).
  eexists. split; [rewrite Hlog; repeat rewrite <- app_assoc; reflexivity |]. right.
  exists (EvCommand (SendSimple_cmd CMD_WRITE_ENABLE) HAL_OK :: EvGetTick start :: pre), buf.
  split; [log_eq |].
  split; [| split; [now apply wel_set_true | split; assumption]].
  change (quiet (([EvCommand (SendSimple_cmd CMD_WRITE_ENABLE) HAL_OK; EvGetTick start] ++ pre)
                   ++ [EvCommand ReadStatus_cmd HAL_OK; EvReceive buf HAL_OK])) in Hq.
  now apply quiet_app_inv in Hq.
Qed.

(** X8: entering 4-byte address mode returns [HAL_OK] or [HAL_ERROR] and
    nothing else, puts no addressed command and no data on the bus, and
    returns [HAL_OK] only when its mode command was accepted right after a
    status transaction that returned [HAL_OK] with WEL set. *)
Theorem Enable4ByteAddressing_outcome
    (fuel : nat) (w : World D) (r : HAL_StatusTypeDef) (w' : World D) :
  QSPI_Enable4ByteAddressing fuel w = Some (r, w') ->
  (r = HAL_OK \/ r = HAL_ERROR) /\
  exists ev,
    log w' = log w ++ ev /\ addressed_commands ev = [] /\ transmits ev = [] /\
    (r = HAL_OK ->
     exists pre buf,
       ev = pre ++ [EvCommand ReadStatus_cmd HAL_OK; EvReceive buf HAL_OK;
                    EvCommand (SendSimple_cmd CMD_ENABLE_4BYTE_ADDR) HAL_OK] /\
       Z.land (byte_at buf 0) SR_WEL_MASK <> 0).
Proof.
  assert (Hsilent : forall ev, quiet ev -> addressed_commands ev = [] /\ transmits ev = []).
  { intros ev Hq. split; [| exact (proj2 (quiet_silent ev Hq))].
    induction Hq as [| e ev He _ IH]; [reflexivity |].
    destruct e as [c rc | | | | |]; cbn in *; try discriminate; try exact IH.
    destruct (AddressMode c); [exact IH | discriminate]. }
  unfold QSPI_Enable4ByteAddressing, bind.
  destruct (QSPI_WriteEnable fuel w) as [[r1 w1] |] eqn:E; [| discriminate].
  apply WriteEnable_outcome in E. destruct E as (ev & Hlog & Hq & Hres).
  destruct r1; cbn [not_ok HAL_Status_eqb negb];
    try (intros H; inversion H; subst; split; [now right |]; exists ev;
         destruct (Hsilent ev Hq) as [Ha Ht];
         repeat (split; [assumption |]); discriminate).
  unfold QSPI_SendSimple, call_Command, ret.
  destruct (HAL_QSPI_Command (SendSimple_cmd CMD_ENABLE_4BYTE_ADDR) QSPI_TIMEOUT (dev w1))
    as [rc d2].
  assert (Hq' : quiet (ev ++ [EvCommand (SendSimple_cmd CMD_ENABLE_4BYTE_ADDR) rc])).
  { apply quiet_app; [exact Hq | repeat constructor]. }
  destruct (Hsilent _ Hq') as [Ha Ht].
  destruct (not_ok rc) eqn:Hrc; intros H; inversion H; subst; cbn [log].
  - split; [now right |]. eexists. split; [rewrite Hlog; repeat rewrite <- app_assoc; reflexivity |].
    repeat (split; [assumption |]). discriminate.
  - apply not_ok_false in Hrc. subst rc.
    split; [now left |]. eexists. split; [rewrite Hlog; repeat rewrite <- app_assoc; reflexivity |].
    repeat (split; [assumption |]). intros _.
    destruct Hres as (start & mid & -> & pre & buf & -> & Hwel).
    exists (EvCommand (SendSimple_cmd CMD_WRITE_ENABLE) HAL_OK :: EvGetTick start :: pre), buf.
    split; [log_eq | now apply wel_set_true].
Qed.

(** X9: the two data reads leave the caller's array at its length; when
    their command phase does not return [HAL_OK] they return [HAL_ERROR],
    issue no receive and leave the array untouched; otherwise their result
    is the receive's status unchanged. *)
Theorem data_reads_outcome
    (id : list Z) (w1 : World D) (r1 : HAL_StatusTypeDef) (id' : list Z) (w1' : World D)
    (addr : Z) (data : list Z) (size : Z) (w2 : World D)
    (r2 : HAL_StatusTypeDef) (data' : list Z) (w2' : World D) :
  QSPI_ReadID id w1 = Some ((r1, id'), w1') ->
  QSPI_Read_4B addr data size w2 = Some ((r2, data'), w2') ->
  (length id' = length id /\
   ((exists rc, rc <> HAL_OK /\ r1 = HAL_ERROR /\ id' = id /\
                log w1' = log w1 ++ [EvCommand ReadID_cmd rc]) \/
    log w1' = log w1 ++ [EvCommand ReadID_cmd HAL_OK; EvReceive id' r1])) /\
  (length data' = length data /\
   ((exists rc, rc <> HAL_OK /\ r2 = HAL_ERROR /\ data' = data /\
                log w2' = log w2 ++ [EvCommand (Read_4B_cmd addr size) rc]) \/
    log w2' = log w2 ++ [EvCommand (Read_4B_cmd addr size) HAL_OK; EvReceive data' r2])).
Proof.
  assert (Hgen : forall (c : QSPI_CommandTypeDef) (buf : list Z) (w : World D) r buf' w',
             bind (call_Command c QSPI_TIMEOUT)
                  (fun rc => if not_ok rc then ret (HAL_ERROR, buf)
                             else call_Receive buf QSPI_TIMEOUT) w
             = Some ((r, buf'), w') ->
             length buf' = length buf /\
             ((exists rc, rc <> HAL_OK /\ r = HAL_ERROR /\ buf' = buf /\
                          log w' = log w ++ [EvCommand c rc]) \/
              log w' = log w ++ [EvCommand c HAL_OK; EvReceive buf' r])).
  { intros c buf w r buf' w'. unfold bind, call_Command, call_Receive, ret.
    destruct (HAL_QSPI_Command c QSPI_TIMEOUT (dev w)) as [rc d1].
    destruct (not_ok rc) eqn:Hrc; cbn [dev log].
    - intros H; inversion H; subst; cbn [log]. split; [reflexivity |]. left.
      exists rc. split; [intros ->; discriminate |]. repeat split.
    - apply not_ok_false in Hrc. subst rc.
      destruct (HAL_QSPI_Receive QSPI_TIMEOUT d1) as [[rr dat] d2].
      intros H; inversion H; subst; cbn [log]. split; [apply store_rx_length |].
      right. now rewrite <- app_assoc. }
  intros H1 H2. split; [exact (Hgen _ _ _ _ _ _ H1) | exact (Hgen _ _ _ _ _ _ H2)].
Qed.

End OperationOutcomes.

(** ** What every finished run of the self-test shows *)

Section SelfTestFacts.

Context {D : Type} {hal : HAL D} {hdr : qspi_h}.

(** Turn [H : In m (reports body)], for [body] built from the log shapes,
    into membership in an explicit list. *)
Ltac reports_norm H :=
  repeat rewrite reports_app in H;
  repeat match goal with
         | Hq : quiet ?ev |- _ => rewrite (proj1 (quiet_silent ev Hq)) in H
         | Hf : failed_read ?c ?ev |- _ => rewrite (proj1 (failed_read_silent c ev Hf)) in H
         | Ha : at_identified ?l |- _ =>
             let Hr := fresh "Hr" in
             destruct (at_identified_summary l Ha) as (? & ? & ? & Hr & _);
             rewrite Hr in H; clear Hr
         | Ha : at_addressing ?l |- _ =>
             let Hr := fresh "Hr" in
             destruct (at_addressing_summary l Ha) as (? & ? & ? & Hr & _);
             rewrite Hr in H; clear Hr
         | Ha : at_erased ?l |- _ =>
             let Hr := fresh "Hr" in
             destruct (at_erased_summary l Ha) as (? & ? & ? & Hr & _);
             rewrite Hr in H; clear Hr
         | Ha : at_erase_verified ?l |- _ =>
             let Hr := fresh "Hr" in
             destruct (at_erase_verified_summary l Ha) as (? & ? & ? & Hr & _);
             rewrite Hr in H; clear Hr
         | Ha : at_programmed ?l |- _ =>
             let Hr := fresh "Hr" in
             destruct (at_programmed_summary l Ha) as (? & ? & ? & Hr & _);
             rewrite Hr in H; clear Hr
         end;
  cbn in H.

Ltac one_verdict :=
  do 2 eexists; split; [split_last | split; [reflexivity |]];
  let m := fresh "m" in
  let Hm := fresh "Hm" in
  intros m Hm; reports_norm Hm;
  repeat (destruct Hm as [<- | Hm]; [reflexivity |]); destruct Hm.

(** X10: every finished run of the self-test ends on exactly one verdict:
    the last event of its log is a report that is either one of the
    failure messages or the final success, and no such report was printed
    before it.  In particular the run never ends silently, and nothing is
    put on the bus after a failure was reported. *)
Theorem selftest_one_verdict (fuel : nat) (d : D) (w' : World D) :
  MT25Q_RunSelfTest fuel (mkWorld d []) = Some (tt, w') ->
  exists body msg,
    log w' = body ++ [EvPrintf msg] /\
    terminal_report msg = true /\
    forall m, In m (reports body) -> terminal_report m = false.
Proof.
  intros Hrun. apply selftest_log_shape in Hrun.
  remember (log w') as l eqn:El. clear El w' d.
  destruct Hrun as [(l0 & buf & Hat & -> & ->) | Hh].
  - one_verdict.
  - destruct Hh; explicit_tail; one_verdict.
Qed.

(** X11: the self-test touches nothing but the test page.  The addressed
    commands of every finished run are an initial part of: erase the
    subsector at [TEST_ADDR], read 256 bytes at [TEST_ADDR], program 256
    bytes at [TEST_ADDR], read 256 bytes at [TEST_ADDR]; so there is at
    most one erase and one program, never at another address, and a
    program never comes before the erase and its read-back. *)
Theorem selftest_touches_only_test_page (fuel : nat) (d : D) (w' : World D) :
  MT25Q_RunSelfTest fuel (mkWorld d []) = Some (tt, w') ->
  exists k : nat, addressed_commands (log w') = firstn k test_page_commands.
Proof.
  intros Hrun. apply selftest_log_shape in Hrun.
  remember (log w') as l eqn:El. clear El w' d.
  destruct Hrun as [(l0 & buf & Hat & -> & ->) | Hh].
  - exists 4%nat. addressed_goal.
  - destruct Hh; explicit_tail.
    + exists 0%nat. reflexivity.
    + exists 0%nat. reflexivity.
    + exists 0%nat. addressed_goal.
    + exists 0%nat. addressed_goal.
    + exists 0%nat. addressed_goal.
    + exists 0%nat. addressed_goal.
    + exists 1%nat. addressed_goal.
    + exists 1%nat. addressed_goal.
    + exists 2%nat. addressed_goal.
    + exists 2%nat. addressed_goal.
    + exists 2%nat. addressed_goal.
    + exists 3%nat. addressed_goal.
    + exists 3%nat. addressed_goal.
    + exists 3%nat. addressed_goal.
    + exists 4%nat. addressed_goal.
    + exists 4%nat. addressed_goal.
Qed.

Ltac transmits_norm :=
  repeat rewrite transmits_app;
  repeat match goal with
         | Hq : quiet ?ev |- _ => rewrite (proj2 (quiet_silent ev Hq))
         | Hf : failed_read ?c ?ev |- _ => rewrite (proj2 (failed_read_silent c ev Hf))
         | Ha : at_identified ?l |- _ =>
             let Ht := fresh "Ht" in
             destruct (at_identified_summary l Ha) as (? & ? & ? & _ & Ht); rewrite Ht; clear Ht
         | Ha : at_addressing ?l |- _ =>
             let Ht := fresh "Ht" in
             destruct (at_addressing_summary l Ha) as (? & ? & ? & _ & Ht); rewrite Ht; clear Ht
         | Ha : at_erased ?l |- _ =>
             let Ht := fresh "Ht" in
             destruct (at_erased_summary l Ha) as (? & ? & ? & _ & Ht); rewrite Ht; clear Ht
         end;
  reflexivity.

(** X12: the self-test never programs a page it has not verified erased:
    in every finished run in which anything was transmitted, the log holds
    the 256-byte read-back after the erase, answered [HAL_OK] with every
    byte 0xFF, and the "Erase OK" report. *)
Theorem selftest_programs_only_verified_page (fuel : nat) (d : D) (w' : World D) :
  MT25Q_RunSelfTest fuel (mkWorld d []) = Some (tt, w') ->
  transmits (log w') <> [] ->
  exists pre buf post,
    log w' = pre ++ [EvCommand (Read_4B_cmd TEST_ADDR TEST_PAGE_SIZE) HAL_OK;
                     EvReceive buf HAL_OK; EvPrintf MsgEraseOK] ++ post /\
    at_erased pre /\ erased_page buf.
Proof.
  intros Hrun Htx. apply selftest_log_shape in Hrun.
  remember (log w') as l eqn:El. clear El w' d.
  assert (Hcases : transmits l = [] \/ erase_checked l); [| destruct Hcases; [contradiction | assumption]].
  clear Htx.
  destruct Hrun as [(l0 & buf & Hat & -> & ->) | Hh].
  - right. apply erase_checked_app. now apply at_programmed_checked.
  - destruct Hh; explicit_tail;
      first [ left; reflexivity
            | left; transmits_norm
            | right; apply erase_checked_app;
              first [now apply at_erase_verified_checked | now apply at_programmed_checked] ].
Qed.

Lemma at_identified_prefix (l : list Event) :
  at_identified l -> exists rest, l = log_reset ++ rest.
Proof. intros (id & ->). eauto. Qed.

Lemma at_addressing_prefix (l : list Event) :
  at_addressing l -> exists rest, l = log_reset ++ rest.
Proof.
  intros (l0 & ev & H0 & _ & ->). destruct (at_identified_prefix _ H0) as (rest & ->).
  exists (rest ++ ev). now rewrite app_assoc.
Qed.

Lemma at_erased_prefix (l : list Event) :
  at_erased l -> exists rest, l = log_reset ++ rest.
Proof.
  intros (l0 & ev1 & ev2 & H0 & _ & _ & ->). destruct (at_addressing_prefix _ H0) as (rest & ->).
  eexists. rewrite <- app_assoc. reflexivity.
Qed.

Lemma at_erase_verified_prefix (l : list Event) :
  at_erase_verified l -> exists rest, l = log_reset ++ rest.
Proof.
  intros (l0 & buf & H0 & _ & ->). destruct (at_erased_prefix _ H0) as (rest & ->).
  eexists. rewrite <- app_assoc. reflexivity.
Qed.

Lemma at_programmed_prefix (l : list Event) :
  at_programmed l -> exists rest, l = log_reset ++ rest.
Proof.
  intros (l0 & ev1 & ev2 & H0 & _ & _ & ->).
  destruct (at_erase_verified_prefix _ H0) as (rest & ->).
  eexists. rewrite <- app_assoc. reflexivity.
Qed.

Ltac reset_prefix :=
  lazymatch goal with
  | Ha : at_identified ?l |- _ => destruct (at_identified_prefix l Ha) as (? & ->)
  | Ha : at_addressing ?l |- _ => destruct (at_addressing_prefix l Ha) as (? & ->)
  | Ha : at_erased ?l |- _ => destruct (at_erased_prefix l Ha) as (? & ->)
  | Ha : at_erase_verified ?l |- _ => destruct (at_erase_verified_prefix l Ha) as (? & ->)
  | Ha : at_programmed ?l |- _ => destruct (at_programmed_prefix l Ha) as (? & ->)
  | _ => idtac
  end;
  eexists; rewrite <- ?app_assoc; reflexivity.

(** X13: how every finished run of the self-test starts.  Either the
    reset failed, and then the log is the banner, the reset command that
    failed (reset-memory only after an accepted reset-enable) and the
    report, with nothing else put on the bus; or both reset commands were
    accepted and the 1 ms settle delay follows them directly, before
    anything else the self-test does. *)
Theorem selftest_settles_after_reset (fuel : nat) (d : D) (w' : World D) :
  MT25Q_RunSelfTest fuel (mkWorld d []) = Some (tt, w') ->
  (exists r, r <> HAL_OK /\
     (log w' = [EvPrintf MsgSelfTestStart;
                EvCommand (SendSimple_cmd CMD_RESET_ENABLE) r;
                EvPrintf MsgResetFailed] \/
      log w' = [EvPrintf MsgSelfTestStart;
                EvCommand (SendSimple_cmd CMD_RESET_ENABLE) HAL_OK;
                EvCommand (SendSimple_cmd CMD_RESET_MEMORY) r;
                EvPrintf MsgResetFailed])) \/
  (exists rest,
     log w' = [EvPrintf MsgSelfTestStart;
               EvCommand (SendSimple_cmd CMD_RESET_ENABLE) HAL_OK;
               EvCommand (SendSimple_cmd CMD_RESET_MEMORY) HAL_OK;
               EvDelay 1] ++ rest).
Proof.
  intros Hrun. apply selftest_log_shape in Hrun.
  remember (log w') as l eqn:El. clear El w' d.
  fold log_reset.
  destruct Hrun as [(l0 & buf & Hat & -> & ->) | Hh].
  - right. reset_prefix.
  - destruct Hh.
    + left. exists r. split; [assumption | now left].
    + left. exists r. split; [assumption | now right].
    + right. eexists. reflexivity.
    + right. reset_prefix.
    + right. reset_prefix.
    + right. reset_prefix.
    + right. reset_prefix.
    + right. reset_prefix.
    + right. reset_prefix.
    + right. reset_prefix.
    + right. reset_prefix.
    + right. reset_prefix.
    + right. reset_prefix.
Qed.

End SelfTestFacts.

(** ** The handshake and the self-test against a timed status trace *)

Section TraceHandshake.

Context {hdr : qspi_h}.

Lemma td_WriteEnable_ok (P Lc Lr c0 T : Z) (sr : Z -> Z) (l : list Event) :
  0 < P -> 0 <= Lc -> 0 <= Lr -> 0 < Lc + Lr -> QSPI_TIMEOUT <= 4294967296 ->
  (forall x, (x < T -> Z.land (sr x) SR_WEL_MASK = 0) /\
             (T <= x -> Z.land (sr x) SR_WEL_MASK <> 0)) ->
  T + Lr <= ((c0 + Lc) / P + QSPI_TIMEOUT) * P ->
  forall fuel : nat, (S (Z.to_nat (T - c0)) <= fuel)%nat ->
    exists c' ev,
      QSPI_WriteEnable fuel (mkWorld (mkTraceDev c0 P Lc Lr sr) l)
      = Some (HAL_OK, mkWorld (mkTraceDev c' P Lc Lr sr) (l ++ ev)) /\
      T <= c' - Lr.
Proof.
  intros HP HLc HLr HL Ht Hwel Hdl fuel Hfuel.
  destruct fuel as [| fuel]; [lia |].
  unfold QSPI_WriteEnable, bind. rewrite td_SendSimple.
  cbn [not_ok HAL_Status_eqb negb]. rewrite td_GetTick, WriteEnable_loop_poll.
  destruct (td_poll_loop_ok P Lc Lr (c0 + Lc) QSPI_TIMEOUT sr wel_set HP HLc HLr HL T) with
    (fuel := fuel) (c := c0 + Lc)
    (l := (l ++ [EvCommand (SendSimple_cmd CMD_WRITE_ENABLE) HAL_OK])
            ++ [EvGetTick (uint32 ((c0 + Lc) / P))])
    (s0 := 0)
    as (c' & ev & Hrun & Hlo & _ & _).
  - exact Ht.
  - intros x Hx. unfold wel_set. rewrite land_uint8_WEL.
    rewrite (proj1 (Hwel x) Hx). reflexivity.
  - intros x Hx. unfold wel_set. rewrite land_uint8_WEL.
    apply negb_true_iff, Z.eqb_neq. exact (proj2 (Hwel x) Hx).
  - exact Hdl.
  - lia.
  - nia.
  - exists c', (EvCommand (SendSimple_cmd CMD_WRITE_ENABLE) HAL_OK
                  :: EvGetTick (uint32 ((c0 + Lc) / P)) :: ev).
    rewrite Hrun. split; [| exact Hlo]. repeat rewrite <- app_assoc. reflexivity.
Qed.

(** X15: against a status trace whose WEL bit is clear before instant
    [T] and set from [T] on, with the data phase in flight at [T] over
    before the handshake's tick deadline, the write-enable handshake
    returns [HAL_OK] from a poll sampled at or after [T], and the erase
    that starts with this handshake puts its erase command on the bus and
    returns [HAL_OK]. *)
Theorem WriteEnable_latches_in_time
    (P Lc Lr c0 T : Z) (sr : Z -> Z) (l : list Event) (addr : Z) :
  0 < P -> 0 <= Lc -> 0 <= Lr -> 0 < Lc + Lr -> QSPI_TIMEOUT <= 4294967296 ->
  (forall x, (x < T -> Z.land (sr x) SR_WEL_MASK = 0) /\
             (T <= x -> Z.land (sr x) SR_WEL_MASK <> 0)) ->
  T + Lr <= ((c0 + Lc) / P + QSPI_TIMEOUT) * P ->
  exists fuel0 : nat, forall fuel : nat, (fuel0 <= fuel)%nat ->
    exists c' ev,
      QSPI_WriteEnable fuel (mkWorld (mkTraceDev c0 P Lc Lr sr) l)
      = Some (HAL_OK, mkWorld (mkTraceDev c' P Lc Lr sr) (l ++ ev)) /\
      T <= c' - Lr /\
      QSPI_Erase4K_4B fuel addr (mkWorld (mkTraceDev c0 P Lc Lr sr) l)
      = Some (HAL_OK, mkWorld (mkTraceDev (c' + Lc) P Lc Lr sr)
                              ((l ++ ev) ++ [EvCommand (Erase4K_cmd addr) HAL_OK])).
Proof.
  intros HP HLc HLr HL Ht Hwel Hdl.
  exists (S (Z.to_nat (T - c0))). intros fuel Hfuel.
  destruct (td_WriteEnable_ok P Lc Lr c0 T sr l HP HLc HLr HL Ht Hwel Hdl fuel Hfuel)
    as (c' & ev & Hrun & Hlo).
  exists c', ev. split; [exact Hrun |]. split; [exact Hlo |].
  unfold QSPI_Erase4K_4B, bind. rewrite Hrun. reflexivity.
Qed.

Lemma td_WriteEnable_timeout (P Lc Lr c0 : Z) (sr : Z -> Z) (l : list Event) :
  0 < P -> 0 <= Lc -> 0 <= Lr -> 0 < Lc + Lr ->
  0 <= QSPI_TIMEOUT -> QSPI_TIMEOUT + (Lc + Lr) / P + 1 < 4294967296 ->
  (forall x : Z, Z.land (sr x) SR_WEL_MASK = 0) ->
  forall fuel : nat, (S (Z.to_nat (QSPI_TIMEOUT * P)) <= fuel)%nat ->
    exists c' ev,
      QSPI_WriteEnable fuel (mkWorld (mkTraceDev c0 P Lc Lr sr) l)
      = Some (HAL_TIMEOUT, mkWorld (mkTraceDev c' P Lc Lr sr) (l ++ ev)) /\
      quiet ev.
Proof.
  intros HP HLc HLr HL Ht Hwrap Hwel fuel Hfuel.
  unfold QSPI_WriteEnable, bind. rewrite td_SendSimple.
  cbn [not_ok HAL_Status_eqb negb]. rewrite td_GetTick, WriteEnable_loop_poll.
  destruct (td_poll_loop_timeout P Lc Lr (c0 + Lc) QSPI_TIMEOUT sr wel_set HP HLc HLr HL)
    with (fuel := fuel) (c := c0 + Lc)
         (l := (l ++ [EvCommand (SendSimple_cmd CMD_WRITE_ENABLE) HAL_OK])
                 ++ [EvGetTick (uint32 ((c0 + Lc) / P))])
         (s0 := 0)
    as (c' & ev & Hrun & _ & Hev).
  - exact Ht.
  - exact Hwrap.
  - intros x. unfold wel_set. rewrite land_uint8_WEL, Hwel. reflexivity.
  - lia.
  - left; reflexivity.
  - pose proof (Z.mul_div_le (c0 + Lc) P HP). nia.
  - lia.
  - exists c', (EvCommand (SendSimple_cmd CMD_WRITE_ENABLE) HAL_OK
                  :: EvGetTick (uint32 ((c0 + Lc) / P)) :: ev).
    rewrite Hrun. split; [repeat rewrite <- app_assoc; reflexivity |].
    repeat constructor. exact Hev.
Qed.

Lemma td_step_reset (P Lc Lr c0 : Z) (sr : Z -> Z) :
  step_reset (emit (EvPrintf MsgSelfTestStart) (mkWorld (mkTraceDev c0 P Lc Lr sr) []))
  = Some (true, mkWorld (mkTraceDev (c0 + Lc + Lc + 1 * P) P Lc Lr sr) log_reset).
Proof. reflexivity. Qed.

Lemma td_step_identify (P Lc Lr c : Z) (sr : Z -> Z) (l : list Event) :
  step_identify (mkWorld (mkTraceDev c P Lc Lr sr) l)
  = Some (true,
          mkWorld (mkTraceDev (c + Lc + Lr) P Lc Lr sr)
                  (l ++ [EvCommand ReadID_cmd HAL_OK;
                         EvReceive [uint8 (sr (c + Lc)); 0; 0] HAL_OK;
                         EvPrintf (MsgJedecId (uint8 (sr (c + Lc))) 0 0)])).
Proof.
  unfold step_identify, QSPI_ReadID, bind, call_Command, call_Receive, printf, ret, emit; cbn.
  repeat rewrite <- app_assoc. reflexivity.
Qed.

(** X16: against a status trace in which WEL is clear at every instant,
    with enough fuel the self-test stops at the switch to 4-byte
    addressing: it reports the identity it read and then the failure to
    enter 4-byte mode, and its whole log holds no addressed command (no
    erase, no program, no read) and no transmit. *)
Theorem selftest_stops_when_WEL_never_latches
    (P Lc Lr c0 : Z) (sr : Z -> Z) :
  0 < P -> 0 <= Lc -> 0 <= Lr -> 0 < Lc + Lr ->
  0 <= QSPI_TIMEOUT -> QSPI_TIMEOUT + (Lc + Lr) / P + 1 < 4294967296 ->
  (forall x : Z, Z.land (sr x) SR_WEL_MASK = 0) ->
  exists fuel0 : nat, forall fuel : nat, (fuel0 <= fuel)%nat ->
    exists w' id0,
      MT25Q_RunSelfTest fuel (mkWorld (mkTraceDev c0 P Lc Lr sr) []) = Some (tt, w') /\
      reports (log w') = [MsgSelfTestStart; MsgJedecId id0 0 0; MsgEnter4BFailed] /\
      addressed_commands (log w') = [] /\
      transmits (log w') = [].
Proof.
  intros HP HLc HLr HL Ht Hwrap Hwel.
  exists (S (Z.to_nat (QSPI_TIMEOUT * P))). intros fuel Hfuel.
  destruct (td_WriteEnable_timeout P Lc Lr (c0 + Lc + Lc + 1 * P + Lc + Lr) sr
              (log_reset ++ [EvCommand ReadID_cmd HAL_OK;
                             EvReceive [uint8 (sr (c0 + Lc + Lc + 1 * P + Lc)); 0; 0] HAL_OK;
                             EvPrintf (MsgJedecId (uint8 (sr (c0 + Lc + Lc + 1 * P + Lc))) 0 0)])
              HP HLc HLr HL Ht Hwrap Hwel fuel Hfuel)
    as (c' & ev & Hrun & Hq).
  eexists. exists (uint8 (sr (c0 + Lc + Lc + 1 * P + Lc))).
  split.
  - rewrite RunSelfTest_as_steps. unfold selftest_steps. cbn [run_steps].
    unfold bind at 1. unfold bind at 1. rewrite td_step_reset.
    unfold bind at 1. rewrite td_step_identify.
    unfold bind at 1. unfold step_addressing, QSPI_Enable4ByteAddressing.
    unfold bind at 1. unfold bind at 1. rewrite Hrun.
    cbn [not_ok HAL_Status_eqb negb]. reflexivity.
  - cbn [log emit].
    destruct (quiet_silent ev Hq) as [Hr Htx].
    assert (Ha : addressed_commands ev = []).
    { clear - Hq. induction Hq as [| e ev He _ IH]; [reflexivity |].
      destruct e as [c rc | | | | |]; cbn in *; try discriminate; try exact IH.
      destruct (AddressMode c); [exact IH | discriminate]. }
    unfold addressed_commands, transmits, reports in *.
    repeat rewrite flat_map_app. rewrite Hr, Htx, Ha. repeat split.
Qed.

End TraceHandshake.

Lemma WriteEnable_latches_in_time_witness :
  exists fuel0 : nat, forall fuel : nat, (fuel0 <= fuel)%nat ->
    exists c' ev,
      QSPI_Erase4K_4B (hdr := MT25Q_header) fuel TEST_ADDR
                      (mkWorld (mkTraceDev 0 1000 1 1 (fun x => if x <? 50 then 0 else 2)) [])
      = Some (HAL_OK,
              mkWorld (mkTraceDev (c' + 1) 1000 1 1 (fun x => if x <? 50 then 0 else 2))
                      (([] ++ ev) ++ [EvCommand (Erase4K_cmd (hdr := MT25Q_header) TEST_ADDR)
                                                HAL_OK])).
Proof.
  destruct (WriteEnable_latches_in_time (hdr := MT25Q_header)
              1000 1 1 0 50 (fun x => if x <? 50 then 0 else 2) [] TEST_ADDR) as [fuel0 H].
  - lia.
  - lia.
  - lia.
  - lia.
  - vm_compute. discriminate.
  - intros x. cbn. split; intros Hx.
    + apply Z.ltb_lt in Hx. rewrite Hx. reflexivity.
    + apply Z.ltb_ge in Hx. rewrite Hx. discriminate.
  - vm_compute. discriminate.
  - exists fuel0. intros fuel Hfuel. destruct (H fuel Hfuel) as (c' & ev & _ & _ & Her).
    exists c', ev. exact Her.
Defined.

Lemma selftest_stops_when_WEL_never_latches_witness :
  exists fuel0 : nat, forall fuel : nat, (fuel0 <= fuel)%nat ->
    exists w' id0,
      MT25Q_RunSelfTest (hdr := MT25Q_header) fuel (mkWorld wel_stuck_dev []) = Some (tt, w') /\
      reports (log w') = [MsgSelfTestStart; MsgJedecId id0 0 0; MsgEnter4BFailed] /\
      addressed_commands (log w') = [] /\
      transmits (log w') = [].
Proof.
  apply (selftest_stops_when_WEL_never_latches (hdr := MT25Q_header) 1 25 25 0 (fun _ => 0)).
  - lia.
  - lia.
  - lia.
  - lia.
  - vm_compute. discriminate.
  - vm_compute. reflexivity.
  - intros x. reflexivity.
Defined.

(** ** The self-test against the simulated flash, for any array content *)

(** X14: on the healthy simulated flash, whatever its array holds at the
    start, the self-test runs to the final success report; afterwards the
    test page holds the pattern [i xor 0xA5], the rest of the erased
    subsector holds 0xFF, every byte outside the subsector is as it was,
    and the part is idle with WEL clear. *)
Theorem selftest_round_trip_on_healthy_flash (mem : Z -> Z) :
  exists w',
    run_flash 8 (healthy_flash mem) = Some (tt, w') /\
    reports (log w')
    = [MsgSelfTestStart; MsgJedecId 0x20 0xBA 0x20; MsgErasing TEST_ADDR; MsgEraseOK;
       MsgProgramming TEST_PAGE_SIZE TEST_ADDR; MsgProgramVerifyOK] /\
    (forall i, 0 <= i < TEST_PAGE_SIZE ->
               fs_mem (dev w') (TEST_ADDR + i) = Z.lxor i 0xA5) /\
    (forall a, TEST_ADDR + TEST_PAGE_SIZE <= a < TEST_ADDR + 4096 ->
               fs_mem (dev w') a = 0xFF) /\
    (forall a, a < TEST_ADDR \/ TEST_ADDR + 4096 <= a -> fs_mem (dev w') a = mem a) /\
    fs_wel (dev w') = false /\ fs_busy (dev w') = 0.
Proof.
  assert (Hrep : option_map (fun p => reports (log (snd p))) (run_flash 8 (healthy_flash mem))
                 = Some [MsgSelfTestStart; MsgJedecId 0x20 0xBA 0x20; MsgErasing TEST_ADDR;
                         MsgEraseOK; MsgProgramming TEST_PAGE_SIZE TEST_ADDR;
                         MsgProgramVerifyOK])
    by (vm_compute; reflexivity).
  assert (Hmem : option_map (fun p => fs_mem (dev (snd p))) (run_flash 8 (healthy_flash mem))
                 = Some (fs_program TEST_ADDR test_pattern
                           (mkFlashSim (fs_erase TEST_ADDR (healthy_flash mem)) true 0 0
                                       cmd_zero (fun _ => false) 4096)))
    by (vm_compute; reflexivity).
  assert (Hidle : option_map (fun p => (fs_wel (dev (snd p)), fs_busy (dev (snd p))))
                             (run_flash 8 (healthy_flash mem))
                  = Some (false, 0))
    by (vm_compute; reflexivity).
  destruct (run_flash 8 (healthy_flash mem)) as [[[] w'] |]; [| discriminate].
  cbn [option_map snd] in *.
  injection Hrep as Hrep. injection Hmem as Hmem. injection Hidle as Hwel Hbusy.
  exists w'. split; [reflexivity |]. split; [exact Hrep |].
  split; [| split; [| split; [| split; [exact Hwel | exact Hbusy]]]]; rewrite Hmem.
  - intros i Hi.
    assert (Hall : forallb (fun n => fs_program TEST_ADDR test_pattern
                                       (mkFlashSim (fs_erase TEST_ADDR (healthy_flash mem)) true
                                                   0 0 cmd_zero (fun _ => false) 4096)
                                       (TEST_ADDR + Z.of_nat n)
                                     =? Z.lxor (Z.of_nat n) 0xA5)
                           (seq 0 (Z.to_nat TEST_PAGE_SIZE)) = true)
      by (vm_compute; reflexivity).
    rewrite forallb_forall in Hall.
    specialize (Hall (Z.to_nat i)).
    rewrite Z2Nat.id in Hall by lia. apply Z.eqb_eq. apply Hall.
    apply in_seq. unfold TEST_PAGE_SIZE in *. lia.
  - intros a Ha. unfold TEST_ADDR, TEST_PAGE_SIZE in Ha.
    unfold fs_program, fs_erase. cbn [fs_mem fs_erase_span healthy_flash].
    change (TEST_ADDR / 256) with 16. change (TEST_ADDR / 4096 * 4096) with 4096.
    assert (Hpage : a / 256 <> 16).
    { intros Heq. pose proof (Z.mul_div_le a 256 ltac:(lia)). 
      pose proof (Z.mul_succ_div_gt a 256 ltac:(lia)). lia. }
    apply Z.eqb_neq in Hpage. rewrite Hpage. cbn [andb].
    replace (4096 <=? a) with true by (symmetry; apply Z.leb_le; lia).
    replace (a <? 4096 + 4096) with true by (symmetry; apply Z.ltb_lt; lia).
    reflexivity.
  - intros a Ha. unfold TEST_ADDR in Ha.
    unfold fs_program, fs_erase. cbn [fs_mem fs_erase_span healthy_flash].
    change (TEST_ADDR / 256) with 16. change (TEST_ADDR / 4096 * 4096) with 4096.
    assert (Hpage : a / 256 <> 16).
    { intros Heq. pose proof (Z.mul_div_le a 256 ltac:(lia)). 
      pose proof (Z.mul_succ_div_gt a 256 ltac:(lia)). lia. }
    apply Z.eqb_neq in Hpage. rewrite Hpage. cbn [andb].
    destruct Ha as [Ha | Ha].
    + replace (4096 <=? a) with false by (symmetry; apply Z.leb_gt; lia). reflexivity.
    + replace (a <? 4096 + 4096) with false by (symmetry; apply Z.ltb_ge; lia).
      rewrite andb_false_r. reflexivity.
Qed.

(** ** The further properties at concrete inputs *)

Lemma WaitWhileBusy_ok_means_idle_witness :
  exists w',
    QSPI_WaitWhileBusy (hdr := MT25Q_header) 1 0 (mkWorld flash_erased []) = Some (HAL_OK, w') /\
    exists start pre buf,
      log w' = [] ++ EvGetTick start :: pre
                 ++ [EvCommand (ReadStatus_cmd (hdr := MT25Q_header)) HAL_OK;
                     EvReceive buf HAL_OK] /\
      Z.land (byte_at buf 0) SR_WIP_MASK = 0.
Proof.
  eexists. split; [lazy; reflexivity |].
  apply (WaitWhileBusy_ok_means_idle (hdr := MT25Q_header) 1 0 (mkWorld flash_erased [])).
  lazy; reflexivity.
Defined.

Lemma WaitWhileBusy_timeout_means_deadline_witness :
  exists w',
    QSPI_WaitWhileBusy (hdr := MT25Q_header) 4 100 (mkWorld stuck_busy_dev [])
    = Some (HAL_TIMEOUT, w') /\
    exists start pre now,
      log w' = [] ++ EvGetTick start :: pre ++ [EvGetTick now] /\
      100 <= uint32 (now - start) /\
      quiet pre.
Proof.
  eexists. split; [lazy; reflexivity |].
  apply (WaitWhileBusy_timeout_means_deadline (hdr := MT25Q_header)
           4 100 (mkWorld stuck_busy_dev [])).
  lazy; reflexivity.
Defined.

Lemma polling_error_means_bus_fault_witness :
  (exists w' start pre tl,
      QSPI_WaitWhileBusy (hdr := MT25Q_header) 4 100 (mkWorld flash_status_fault [])
      = Some (HAL_ERROR, w') /\
      log w' = [] ++ EvGetTick start :: pre ++ tl /\
      failed_read (ReadStatus_cmd (hdr := MT25Q_header)) tl) /\
  (exists w',
      QSPI_WriteEnable (hdr := MT25Q_header) 4 (mkWorld flash_status_fault [])
      = Some (HAL_ERROR, w') /\
      ((exists rc,
           rc <> HAL_OK /\
           log w' = [] ++ [EvCommand (SendSimple_cmd 0x06) rc]) \/
       (exists pre tl,
           log w' = [] ++ pre ++ tl /\
           failed_read (ReadStatus_cmd (hdr := MT25Q_header)) tl))).
Proof.
  split.
  - eexists.
    assert (Hrun : QSPI_WaitWhileBusy (hdr := MT25Q_header) 4 100
                     (mkWorld flash_status_fault []) = Some (HAL_ERROR, _))
      by (lazy; reflexivity).
    destruct (proj2 (proj1 (polling_error_means_bus_fault (hdr := MT25Q_header)
                              4 100 (mkWorld flash_status_fault [])) _ _ Hrun) eq_refl)
      as (start & pre & tl & Hlog & Htl).
    exists start, pre, tl. split; [exact Hrun |]. split; [exact Hlog | exact Htl].
  - eexists.
    assert (Hrun : QSPI_WriteEnable (hdr := MT25Q_header) 4
                     (mkWorld flash_status_fault []) = Some (HAL_ERROR, _))
      by (lazy; reflexivity).
    split; [exact Hrun |].
    exact (proj2 (proj2 (polling_error_means_bus_fault (hdr := MT25Q_header)
                           4 100 (mkWorld flash_status_fault [])) _ _ Hrun) eq_refl).
Defined.

Lemma WriteEnable_ok_means_latched_witness :
  exists w',
    QSPI_WriteEnable (hdr := MT25Q_header) 4 (mkWorld flash_erased []) = Some (HAL_OK, w') /\
    exists start pre buf,
      log w' = [] ++ EvCommand (SendSimple_cmd (CMD_WRITE_ENABLE (qspi_h := MT25Q_header))) HAL_OK
                 :: EvGetTick start :: pre
                 ++ [EvCommand (ReadStatus_cmd (hdr := MT25Q_header)) HAL_OK;
                     EvReceive buf HAL_OK] /\
      Z.land (byte_at buf 0) SR_WEL_MASK <> 0.
Proof.
  eexists. split; [lazy; reflexivity |].
  apply (WriteEnable_ok_means_latched (hdr := MT25Q_header) 4 (mkWorld flash_erased [])).
  lazy; reflexivity.
Defined.

Lemma WaitWhileBusy_zero_timeout_single_poll_witness :
  exists w',
    QSPI_WaitWhileBusy (hdr := MT25Q_header) 4 0 (mkWorld stuck_busy_dev [])
    = Some (HAL_TIMEOUT, w') /\
    QSPI_WaitWhileBusy (hdr := MT25Q_header) 1 0 (mkWorld stuck_busy_dev [])
    = Some (HAL_TIMEOUT, w').
Proof.
  eexists. split; [lazy; reflexivity |].
  apply (WaitWhileBusy_zero_timeout_single_poll (hdr := MT25Q_header)
           3 0 (mkWorld stuck_busy_dev []) HAL_TIMEOUT).
  - lia.
  - lazy; reflexivity.
Defined.

Lemma Erase4K_command_follows_WEL_witness :
  exists w' ev,
    QSPI_Erase4K_4B (hdr := MT25Q_header) 4 TEST_ADDR (mkWorld flash_erased [])
    = Some (HAL_OK, w') /\
    log w' = [] ++ ev /\
    ((HAL_OK = HAL_ERROR /\ quiet ev) \/
     (exists pre buf,
         ev = pre ++ [EvCommand (ReadStatus_cmd (hdr := MT25Q_header)) HAL_OK;
                      EvReceive buf HAL_OK;
                      EvCommand (Erase4K_cmd (hdr := MT25Q_header) TEST_ADDR) HAL_OK] /\
         quiet pre /\ Z.land (byte_at buf 0) SR_WEL_MASK <> 0)).
Proof.
  edestruct (Erase4K_command_follows_WEL (hdr := MT25Q_header)
               4 TEST_ADDR (mkWorld flash_erased []) HAL_OK) as (ev & Hlog & Hcase).
  - lazy; reflexivity.
  - eexists. exists ev. split; [lazy; reflexivity |]. split; [exact Hlog | exact Hcase].
Defined.

Lemma PageProgram_transmit_follows_WEL_witness :
  exists w' ev,
    QSPI_PageProgram_4B (hdr := MT25Q_header) 4 TEST_ADDR [0xA5; 0x5A] 2
                        (mkWorld flash_erased [])
    = Some (HAL_OK, w') /\
    log w' = [] ++ ev /\
    transmits ev = [[0xA5; 0x5A]].
Proof.
  edestruct (PageProgram_transmit_follows_WEL (hdr := MT25Q_header)
               4 TEST_ADDR [0xA5; 0x5A] 2 (mkWorld flash_erased []) HAL_OK)
    as (ev & Hlog & Hcase).
  - lazy; reflexivity.
  - eexists. exists ev. split; [lazy; reflexivity |]. split; [exact Hlog |].
    destruct Hcase as [(Hr & _) | (pre & buf & -> & Hq & _)]; [discriminate |].
    rewrite transmits_app, (proj2 (quiet_silent pre Hq)). reflexivity.
Defined.

Lemma Enable4ByteAddressing_outcome_witness :
  exists w' ev,
    QSPI_Enable4ByteAddressing (hdr := MT25Q_header) 4 (mkWorld flash_erased [])
    = Some (HAL_OK, w') /\
    log w' = [] ++ ev /\ addressed_commands ev = [] /\ transmits ev = [].
Proof.
  edestruct (Enable4ByteAddressing_outcome (hdr := MT25Q_header)
               4 (mkWorld flash_erased []) HAL_OK) as (_ & ev & Hlog & Ha & Ht & _).
  - lazy; reflexivity.
  - eexists. exists ev. split; [lazy; reflexivity |]. repeat split; assumption.
Defined.

Lemma data_reads_outcome_witness :
  exists id' w1' data' w2',
    QSPI_ReadID (hdr := MT25Q_header) [0; 0; 0] (mkWorld flash_id_fault [])
    = Some ((HAL_ERROR, id'), w1') /\
    QSPI_Read_4B (hdr := MT25Q_header) TEST_ADDR [0; 0] 2 (mkWorld flash_erased [])
    = Some ((HAL_OK, data'), w2') /\
    length id' = 3%nat /\ length data' = 2%nat.
Proof.
  pose proof (fun id' w1' data' w2' =>
                data_reads_outcome (hdr := MT25Q_header)
                  [0; 0; 0] (mkWorld flash_id_fault []) HAL_ERROR id' w1'
                  TEST_ADDR [0; 0] 2 (mkWorld flash_erased []) HAL_OK data' w2') as H.
  edestruct H as ((Hlen1 & _) & (Hlen2 & _)).
  - lazy; reflexivity.
  - lazy; reflexivity.
  - do 4 eexists. split; [lazy; reflexivity |]. split; [lazy; reflexivity |].
    split; [exact Hlen1 | exact Hlen2].
Defined.

Lemma selftest_one_verdict_witness :
  exists body msg,
    log flash0_final = body ++ [EvPrintf msg] /\
    terminal_report msg = true /\
    forall m, In m (reports body) -> terminal_report m = false.
Proof.
  exact (selftest_one_verdict (hdr := MT25Q_header) 8 flash0 flash0_final run_flash0_final).
Defined.

Lemma selftest_touches_only_test_page_witness :
  exists k : nat,
    addressed_commands (log flash0_final)
    = firstn k (test_page_commands (hdr := MT25Q_header)).
Proof.
  exact (selftest_touches_only_test_page (hdr := MT25Q_header)
           8 flash0 flash0_final run_flash0_final).
Defined.

Lemma selftest_programs_only_verified_page_witness :
  exists pre buf post,
    log flash0_final
    = pre ++ [EvCommand (Read_4B_cmd (hdr := MT25Q_header) TEST_ADDR TEST_PAGE_SIZE) HAL_OK;
              EvReceive buf HAL_OK; EvPrintf MsgEraseOK] ++ post /\
    at_erased (hdr := MT25Q_header) pre /\ erased_page buf.
Proof.
  apply (selftest_programs_only_verified_page (hdr := MT25Q_header)
           8 flash0 flash0_final run_flash0_final).
  vm_compute. discriminate.
Defined.

Lemma selftest_settles_after_reset_witness :
  exists rest,
    log (match run_flash 8 flash_id_fault with
         | Some (_, w) => w
         | None => mkWorld flash_id_fault []
         end)
    = log_reset (hdr := MT25Q_header) ++ rest.
Proof.
  destruct (selftest_settles_after_reset (hdr := MT25Q_header) 8 flash_id_fault
              (match run_flash 8 flash_id_fault with
               | Some (_, w) => w
               | None => mkWorld flash_id_fault []
               end))
    as [(r & Hr & [H | H]) | H].
  - vm_compute. reflexivity.
  - exfalso. revert H. vm_compute. discriminate.
  - exfalso. revert H. vm_compute. discriminate.
  - exact H.
Defined.
